(** * Survey record store: the upsert-with-bounded-revision rule of [server.js]

    A shallow embedding of the request handlers of [src/server.js]
    (second revision, the one with [store_identifier] and [update_count])
    together with the parts of the JavaScript runtime and of the SQL engine
    those handlers rely on.

    - [JS]     : JavaScript values, IEEE-754 binary64 numbers, and the
                 built-ins the handlers call ([Number], [String],
                 [String.prototype.trim], [Math.round], [Number.isFinite],
                 [parseInt], [Math.min], [Math.max], [||], [>=], [+]).
    - [Pg]     : the [surveys] table and the SQL statements of the file.
    - handlers : [toIntOrNull], [toFloatOrNull], [toTextOrNull] and the
                 five routes, as programs that await their queries one by
                 one, run against a world made of the database, the clock
                 and the failures of the storage engine.

    The theorems follow the definitions: lemmas on numbers, rows and
    statements first, then the properties of the routes (C1 to C10), each
    read on a worked scenario at the end. *)

From Stdlib Require Import ZArith Lia List String Ascii Bool Sorting.Sorted.
From Stdlib Require Import Floats.SpecFloat.
From stdpp Require Import base option list strings gmap pretty.

Local Open Scope string_scope.
Local Open Scope Z_scope.

(* ===================================================================== *)
(** * The JavaScript runtime                                              *)
(* ===================================================================== *)

Module JS.

#[local] Set Warnings "-register-all".

(** ** Numbers: IEEE-754 binary64 *)

Definition number : Type := spec_float.
Definition prec : Z := 53.
Definition emax : Z := 1024.

Definition NaN : number := S754_nan.
Definition Infinity : number := S754_infinity false.
Definition pos_zero : number := S754_zero false.

(** The double nearest to an integer (ties to even). *)
Definition of_Z (z : Z) : number := binary_normalize prec emax z 0 false.

(** The mantissa and exponent of the double of a positive integer below
    [2^53]: the integer shifted left until it has 53 bits. *)
Definition normal_mantissa (p : positive) : positive :=
  Pos.shiftl p (Z.to_N (53 - Zpos (Pos.size p))).

Definition normal_exponent (p : positive) : Z := Zpos (Pos.size p) - 53.

Definition Number_isFinite (x : number) : bool :=
  match x with
  | S754_zero _ | S754_finite _ _ _ => true
  | S754_infinity _ | S754_nan => false
  end.

(** Structural equality of two doubles ([-0] and [+0] differ, [NaN] equals
    itself); used by the digit search of [Number_toString]. *)
Definition same_number (x y : number) : bool :=
  match x, y with
  | S754_zero a, S754_zero b => Bool.eqb a b
  | S754_infinity a, S754_infinity b => Bool.eqb a b
  | S754_nan, S754_nan => true
  | S754_finite a m e, S754_finite b n f =>
      Bool.eqb a b && Pos.eqb m n && Z.eqb e f
  | _, _ => false
  end.

(** [Math.round]: the integer nearest to [x], ties towards [+Infinity];
    [-0] for [-0.5 <= x < 0]; integers, zeros, infinities and [NaN] are
    returned as they are.  For [x = (-1)^s * m * 2^e] with [e < 0] the
    result is [floor (x + 1/2)], computed exactly over [Z]. *)
Definition Math_round (x : number) : number :=
  match x with
  | S754_finite s m (Zneg p) =>
      let d := Z.pow 2 (Zpos p) in
      let n := Z.div (2 * cond_Zopp s (Zpos m) + d) (2 * d) in
      binary_normalize prec emax n 0 s
  | _ => x
  end.

(** [Math.min] / [Math.max] of two arguments: [NaN] if either is [NaN],
    and [-0] is smaller than [+0]. *)
Definition Math_min (x y : number) : number :=
  match SFcompare x y with
  | None => NaN
  | Some Lt => x
  | Some Gt => y
  | Some Eq => match x with S754_zero true => x | _ => y end
  end.

Definition Math_max (x y : number) : number :=
  match SFcompare x y with
  | None => NaN
  | Some Gt => x
  | Some Lt => y
  | Some Eq => match x with S754_zero false => x | _ => y end
  end.

(** ** Strings

    A JavaScript string is modelled by a Rocq [string] whose characters
    are the code units U+0000..U+00FF. *)

(** WhiteSpace and LineTerminator code points below U+0100:
    TAB, LF, VT, FF, CR, SP and NBSP. *)
Definition is_whitespace (c : ascii) : bool :=
  let n := N_of_ascii c in
  ((9 <=? n) && (n <=? 13) || (n =? 32) || (n =? 160))%N.

Fixpoint trim_start (s : string) : string :=
  match s with
  | String c r => if is_whitespace c then trim_start r else s
  | EmptyString => EmptyString
  end.

(** Drops trailing white space: a character is kept when something
    other than white space follows it or it is itself not white space. *)
Fixpoint trim_end (s : string) : string :=
  match s with
  | EmptyString => EmptyString
  | String c r =>
      match trim_end r with
      | EmptyString => if is_whitespace c then EmptyString else String c EmptyString
      | r' => String c r'
      end
  end.

(** [String.prototype.trim] *)
Definition trim (s : string) : string := trim_end (trim_start s).

Definition digit_of (radix : Z) (c : ascii) : option Z :=
  let n := Z.of_N (N_of_ascii c) in
  let v := if (48 <=? n) && (n <=? 57) then Some (n - 48)
           else if (97 <=? n) && (n <=? 122) then Some (n - 87)
           else if (65 <=? n) && (n <=? 90) then Some (n - 55)
           else None in
  match v with
  | Some d => if d <? radix then Some d else None
  | None => None
  end.

(** Reads the longest prefix of digits in [radix]: its value, the number of
    digits read, and what follows. *)
Fixpoint span_digits (radix : Z) (s : string) (acc : Z) (cnt : Z) : Z * Z * string :=
  match s with
  | String c r =>
      match digit_of radix c with
      | Some d => span_digits radix r (acc * radix + d) (cnt + 1)
      | None => (acc, cnt, s)
      end
  | EmptyString => (acc, cnt, s)
  end.

(** The double nearest to [(-1)^neg * M * 10^E] ([M >= 0]), ties to even.
    Magnitudes far outside the binary64 range are settled without
    computing the power of ten: [M * 10^E >= 2^(log2 M + 3 E)] for
    [E >= 0] and [M * 10^E < 2^(log2 M + 1 + 3 E)] for [E < 0]. *)
Definition of_decimal (neg : bool) (M E : Z) : number :=
  match M with
  | Zpos m =>
      if (0 <=? E) && (1030 <? Z.log2 M + 3 * E) then S754_infinity neg
      else if (E <? 0) && (Z.log2 M + 1 + 3 * E <? -1080) then S754_zero neg
      else if 0 <=? E then
        match M * Z.pow 10 E with
        | Zpos n => binary_round prec emax neg n 0
        | _ => S754_zero neg
        end
      else
        let '(q, e, l) := SFdiv_core_binary prec emax M 0 (Z.pow 10 (- E)) 0 in
        binary_round_aux prec emax neg q e l
  | _ => S754_zero neg
  end.

(** *** StringToNumber (the grammar StringNumericLiteral) *)

Definition read_sign (s : string) : bool * string :=
  match s with
  | String "+"%char r => (false, r)
  | String "-"%char r => (true, r)
  | _ => (false, s)
  end.

Definition is_exp_marker (c : ascii) : bool :=
  Ascii.eqb c "e"%char || Ascii.eqb c "E"%char.

(** StrUnsignedDecimalLiteral: [Infinity], or digits with an optional
    fraction and an optional exponent; at least one digit before or after
    the point. *)
Definition StrUnsignedDecimalLiteral (neg : bool) (u : string) : number :=
  if String.eqb u "Infinity" then S754_infinity neg else
  let '(ip, ni, r1) := span_digits 10 u 0 0 in
  let '(fp, nf, r2) :=
    match r1 with
    | String "."%char r => span_digits 10 r ip 0
    | _ => (ip, 0, r1)
    end in
  if ni + nf =? 0 then NaN else
  match r2 with
  | EmptyString => of_decimal neg fp (- nf)
  | String c r3 =>
      if is_exp_marker c then
        let '(eneg, r4) := read_sign r3 in
        let '(ev, ne, r5) := span_digits 10 r4 0 0 in
        if (0 <? ne) && String.eqb r5 ""
        then of_decimal neg fp ((if eneg then - ev else ev) - nf)
        else NaN
      else NaN
  end.

(** NonDecimalIntegerLiteral: [0x], [0o], [0b] (either case) followed by
    at least one digit of that radix and nothing else; no sign. *)
Definition NonDecimalIntegerLiteral (t : string) : option number :=
  match t with
  | String "0"%char (String p r) =>
      let radix :=
        if Ascii.eqb p "x"%char || Ascii.eqb p "X"%char then Some 16
        else if Ascii.eqb p "o"%char || Ascii.eqb p "O"%char then Some 8
        else if Ascii.eqb p "b"%char || Ascii.eqb p "B"%char then Some 2
        else None in
      match radix with
      | Some rx =>
          let '(v, n, rest) := span_digits rx r 0 0 in
          Some (if (0 <? n) && String.eqb rest "" then of_Z v else NaN)
      | None => None
      end
  | _ => None
  end.

Definition StringToNumber (s : string) : number :=
  let t := trim s in
  if String.eqb t "" then pos_zero else
  match NonDecimalIntegerLiteral t with
  | Some x => x
  | None => let '(neg, u) := read_sign t in StrUnsignedDecimalLiteral neg u
  end.

(** *** Number::toString (radix 10) *)

(** For [x = N / D > 0]: the [n] with [10^(n-1) <= x < 10^n]. *)
Fixpoint magnitude_below_one (fuel : nat) (N D : Z) (j : Z) : Z :=
  match fuel with
  | O => - j
  | S f => if D <=? N * Z.pow 10 (j + 1) then - j
           else magnitude_below_one f N D (j + 1)
  end.

Definition magnitude10 (N D : Z) : Z :=
  if D <=? N then Z.of_nat (String.length (pretty (N / D)))
  else magnitude_below_one 400 N D 0.

(** The candidates with [k] digits: [lo = floor (x / 10^(n-k))] and
    [lo + 1]; [Some (s, n)] is the one that reads back as [x], the closer
    to [x] if both do, the even one on a tie. *)
Definition digits_candidate (x : number) (N D n k : Z) : option (Z * Z) :=
  let sc := n - k in
  let num := if sc <? 0 then N * Z.pow 10 (- sc) else N in
  let den := if sc <? 0 then D else D * Z.pow 10 sc in
  let lo := num / den in
  let rm := num mod den in
  let ok c := same_number (of_decimal false c sc) x in
  let norm c := if c =? Z.pow 10 k then (Z.pow 10 (k - 1), n + 1) else (c, n) in
  match ok lo, ok (lo + 1) with
  | true, true =>
      match Z.compare (2 * rm) den with
      | Lt => Some (norm lo)
      | Gt => Some (norm (lo + 1))
      | Eq => Some (norm (if Z.even lo then lo else lo + 1))
      end
  | true, false => Some (norm lo)
  | false, true => Some (norm (lo + 1))
  | false, false => None
  end.

(** The least [k] (at most 17 digits are ever needed) with a candidate. *)
Fixpoint shortest_digits (fuel : nat) (x : number) (N D n k : Z) : Z * Z * Z :=
  match fuel with
  | O => (N * Z.pow 10 (k - n) / D, n, k)
  | S f =>
      match digits_candidate x N D n k with
      | Some (s, n') => (s, n', k)
      | None => shortest_digits f x N D n (k + 1)
      end
  end.

Definition zeros (n : Z) : string := String.concat "" (repeat "0" (Z.to_nat n)).

Definition take (n : Z) (s : string) : string := String.substring 0 (Z.to_nat n) s.
Definition drop (n : Z) (s : string) : string :=
  String.substring (Z.to_nat n) (String.length s - Z.to_nat n) s.

Definition format_digits (s n k : Z) : string :=
  let ds := pretty s in
  if (k <=? n) && (n <=? 21) then ds ++ zeros (n - k)
  else if (0 <? n) && (n <=? 21) then take n ds ++ "." ++ drop n ds
  else if (-6 <? n) && (n <=? 0) then "0." ++ zeros (- n) ++ ds
  else
    let e := n - 1 in
    let sg := if e <? 0 then "-" else "+" in
    if k =? 1 then ds ++ "e" ++ sg ++ pretty (Z.abs e)
    else take 1 ds ++ "." ++ drop 1 ds ++ "e" ++ sg ++ pretty (Z.abs e).

Definition Number_toString (x : number) : string :=
  match x with
  | S754_nan => "NaN"
  | S754_zero _ => "0"
  | S754_infinity s => if s then "-Infinity" else "Infinity"
  | S754_finite sg m e =>
      let N := if e <? 0 then Zpos m else Zpos m * Z.pow 2 e in
      let D := if e <? 0 then Z.pow 2 (- e) else 1 in
      let '(s, n, k) :=
        shortest_digits 17 (S754_finite false m e) N D (magnitude10 N D) 1 in
      (if sg then "-" else "") ++ format_digits s n k
  end.

(** ** Values *)

Inductive JsVal : Type :=
  | JUndefined
  | JNull
  | JBool (b : bool)
  | JNum (x : number)
  | JStr (s : string)
  | JArr (elems : list JsVal)
  | JObj (props : list (string * JsVal)).

(** [String(v)]; an array joins its elements with commas ([undefined] and
    [null] elements as the empty string), a plain object is
    ["[object Object]"].

    [String(v)] and [Number(v)] throw a [TypeError] on a plain object
    that has an own property [toString] (in a parsed JSON text it is
    never a function) and on an array that holds one; [ToString] and
    [ToNumber] are the conversions of the values on which they do not
    throw, which [converts] tells. *)
Fixpoint ToString (v : JsVal) : string :=
  match v with
  | JUndefined => "undefined"
  | JNull => "null"
  | JBool b => if b then "true" else "false"
  | JNum x => Number_toString x
  | JStr s => s
  | JArr l =>
      String.concat ","
        (List.map (fun e => match e with
                            | JUndefined | JNull => ""
                            | _ => ToString e
                            end) l)
  | JObj _ => "[object Object]"
  end.


(** [Number(v)] *)
Definition ToNumber (v : JsVal) : number :=
  match v with
  | JUndefined => NaN
  | JNull => pos_zero
  | JBool b => if b then of_Z 1 else pos_zero
  | JNum x => x
  | JStr s => StringToNumber s
  | JArr _ | JObj _ => StringToNumber (ToString v)
  end.

(** ToPrimitive of a JSON value: arrays and plain objects become their
    string. *)
Definition ToPrimitive (v : JsVal) : JsVal :=
  match v with
  | JArr _ | JObj _ => JStr (ToString v)
  | _ => v
  end.

(** ToBoolean *)
Definition truthy (v : JsVal) : bool :=
  match v with
  | JUndefined | JNull => false
  | JBool b => b
  | JNum (S754_zero _) | JNum S754_nan => false
  | JNum _ => true
  | JStr s => negb (String.eqb s "")
  | JArr _ | JObj _ => true
  end.

(** [a || b] *)
Definition js_or (a b : JsVal) : JsVal := if truthy a then a else b.

(** [a >= b] with [b] a number: both sides go through ToNumber and the
    comparison is false when either is [NaN]. *)
Definition js_ge (a b : JsVal) : bool :=
  match SFcompare (ToNumber a) (ToNumber b) with
  | Some Gt | Some Eq => true
  | _ => false
  end.

(** [a + b]: string concatenation when either primitive is a string,
    numeric addition otherwise. *)
Definition js_add (a b : JsVal) : JsVal :=
  match ToPrimitive a, ToPrimitive b with
  | JStr s, q => JStr (s ++ ToString q)
  | p, JStr t => JStr (ToString p ++ t)
  | p, q => JNum (SFadd prec emax (ToNumber p) (ToNumber q))
  end.

(** [o.key] on a JSON value: own properties of a plain object, the first
    entry of a key being the live one; [undefined] otherwise. *)
Fixpoint lookup_prop (key : string) (props : list (string * JsVal)) : JsVal :=
  match props with
  | [] => JUndefined
  | (k, v) :: rest => if String.eqb k key then v else lookup_prop key rest
  end.

Definition get (o : JsVal) (key : string) : JsVal :=
  match o with
  | JObj props => lookup_prop key props
  | _ => JUndefined
  end.

(** [parseInt(v, radix)] for [radix] 10 or absent: leading white space,
    an optional sign, then the longest run of digits; [NaN] when there is
    none.  Without a radix a [0x] prefix selects base 16. *)
Definition parseInt (v : JsVal) (radix : option Z) : number :=
  let '(neg, r) := read_sign (trim_start (ToString v)) in
  let '(rx, r) :=
    match radix, r with
    | None, String "0"%char (String p r') =>
        if Ascii.eqb p "x"%char || Ascii.eqb p "X"%char then (16, r') else (10, r)
    | None, _ => (10, r)
    | Some k, _ => (k, r)
    end in
  let '(n, cnt, _) := span_digits rx r 0 0 in
  if cnt =? 0 then NaN else of_decimal neg n 0.

End JS.

(* ===================================================================== *)
(** * The storage engine                                                  *)
(* ===================================================================== *)

(** The [surveys] table of [initDb] and the SQL statements the handlers
    send.  A row of the table is kept as the JavaScript object the driver
    ([pg], with its default type parsers) builds when the row is read: a
    finite map from column names to values, in which

    - a [TEXT] is a string,
    - an [INTEGER] or [SERIAL] is a number,
    - a [BIGINT] is the string of its decimal numeral (so is the
      [COUNT] of a table),
    - a [REAL] is the number read from the shortest decimal numeral that
      identifies the single-precision value the column holds (the output
      of PostgreSQL 12 and later),
    - a [TIMESTAMPTZ] is represented by the number of milliseconds since
      the epoch (the time value of the [Date] the driver builds),
    - SQL [NULL] is [null].

    [stored] below gives what a column keeps of a parameter the driver
    sent.  A value the engine refuses on account of the type of its
    column (out of the range of [INTEGER], [BIGINT] or [REAL], not a
    numeral) is one of the failures of the world the handlers run in (see
    [faults] below): when the engine executes a statement, it accepted its
    values. *)

Module Pg.
Import JS.

Abbreviation Row := (gmap string JsVal).

(** [r.c] on a result row *)
Definition cell (r : Row) (c : string) : JsVal := default JUndefined (r !! c).

Inductive ColType := SERIAL | TIMESTAMPTZ | TEXT | INTEGER | BIGINT | REAL.

Inductive Default :=
  | NoDefault
  | Nextval                 (* SERIAL *)
  | DefaultNow              (* DEFAULT NOW() *)
  | DefaultValue (v : JsVal).

Record Column := {
  col_name : string;
  col_type : ColType;
  col_default : Default;
  col_not_null : bool;
  col_unique : bool
}.

Definition plain (name : string) (ty : ColType) : Column :=
  {| col_name := name; col_type := ty; col_default := NoDefault;
     col_not_null := false; col_unique := false |}.

(** [CREATE TABLE IF NOT EXISTS surveys (...)] *)
Definition surveys_schema : list Column := [
  {| col_name := "id"; col_type := SERIAL; col_default := Nextval;
     col_not_null := true; col_unique := true |};           (* SERIAL PRIMARY KEY *)
  {| col_name := "timestamp"; col_type := TIMESTAMPTZ; col_default := DefaultNow;
     col_not_null := false; col_unique := false |};         (* DEFAULT NOW() *)
  {| col_name := "store_identifier"; col_type := TEXT; col_default := NoDefault;
     col_not_null := true; col_unique := true |};           (* UNIQUE NOT NULL *)
  {| col_name := "update_count"; col_type := INTEGER;
     col_default := DefaultValue (JNum (of_Z 0));
     col_not_null := false; col_unique := false |};         (* DEFAULT 0 *)
  plain "store_name" TEXT;
  plain "business_type" TEXT;
  plain "store_area" INTEGER;
  plain "business_circle" TEXT;
  plain "decoration_level" TEXT;
  plain "monthly_revenue" BIGINT;
  plain "daily_customers" INTEGER;
  plain "seats" INTEGER;
  plain "food_cost" BIGINT;
  plain "labor_cost" BIGINT;
  plain "rent_cost" BIGINT;
  plain "online_revenue" BIGINT;
  plain "main_platforms" TEXT;
  plain "marketing_situation" TEXT;
  plain "total_customers" INTEGER;
  plain "repeat_customers" INTEGER;
  plain "utility_cost" BIGINT;
  plain "marketing_cost" BIGINT;
  plain "average_rating" REAL;
  plain "total_reviews" INTEGER;
  plain "bad_reviews" INTEGER;
  plain "service_bad_reviews" INTEGER;
  plain "taste_bad_reviews" INTEGER;
  plain "short_video_count" INTEGER;
  plain "live_stream_count" INTEGER;
  plain "user_agent" TEXT;
  plain "ip" TEXT
].

Definition column_names : list string := List.map col_name surveys_schema.

Definition is_column (c : string) : bool :=
  existsb (String.eqb c) column_names.

(** The table and its [id] sequence. *)
Record Db := {
  surveys : list Row;
  surveys_id_seq : Z          (* the value the next [nextval] returns *)
}.

Definition empty_db : Db := {| surveys := []; surveys_id_seq := 1 |}.

(** What the driver throws; [code] is [err.code] (absent on errors that do
    not come from the server). *)
Record PgError := { code : option string }.

Definition sqlstate (c : string) : PgError := {| code := Some c |}.
Definition unique_violation : PgError := sqlstate "23505".
Definition not_null_violation : PgError := sqlstate "23502".
Definition undefined_column : PgError := sqlstate "42703".
Definition protocol_violation : PgError := sqlstate "08P01".
Definition invalid_text_representation : PgError := sqlstate "22P02".
Definition numeric_value_out_of_range : PgError := sqlstate "22003".
Definition invalid_row_count_in_limit_clause : PgError := sqlstate "2201W".
Definition invalid_row_count_in_result_offset_clause : PgError := sqlstate "2201X".

(** SQL [=] on two values: never true when either side is [NULL]. *)
Definition sql_eq (a b : JsVal) : bool :=
  match a, b with
  | JStr s, JStr t => String.eqb s t
  | JNum x, JNum y => SFeqb x y
  | _, _ => false
  end.

Definition is_null (v : JsVal) : bool :=
  match v with JNull | JUndefined => true | _ => false end.

(** The driver sends [undefined] as [NULL]. *)
Definition sql_param (v : JsVal) : JsVal :=
  match v with JUndefined => JNull | _ => v end.

(** The integer a number denotes, when it denotes one. *)
Definition integer_of (x : number) : option Z :=
  match x with
  | S754_zero _ => Some 0
  | S754_finite s m e =>
      if 0 <=? e then Some (cond_Zopp s (Zpos m * Z.pow 2 e))
      else if Zpos m mod Z.pow 2 (- e) =? 0
           then Some (cond_Zopp s (Zpos m / Z.pow 2 (- e)))
           else None
  | _ => None
  end.

(** ** What a column keeps of a value

    The driver sends a number as its string ([String(v)]); the engine
    reads that text in the type of the column and, when the row is
    selected, writes the value out as text again, which the driver parses
    by the type of the column. *)

(** [-0] is sent as ["0"]. *)
Definition plus_zero (x : number) : number :=
  match x with
  | S754_zero _ => pos_zero
  | _ => x
  end.

(** *** REAL: IEEE-754 binary32 *)

Definition single_prec : Z := 24.
Definition single_emax : Z := 128.

(** The single-precision value nearest to [(-1)^neg * M * 10^E], ties to
    even; magnitudes far outside the range are settled as in
    [of_decimal]. *)
Definition single_of_decimal (neg : bool) (M E : Z) : spec_float :=
  match M with
  | Zpos m =>
      if (0 <=? E) && (130 <? Z.log2 M + 3 * E) then S754_infinity neg
      else if (E <? 0) && (Z.log2 M + 1 + 3 * E <? -160) then S754_zero neg
      else if 0 <=? E then
        match M * Z.pow 10 E with
        | Zpos n => binary_round single_prec single_emax neg n 0
        | _ => S754_zero neg
        end
      else
        let '(q, e, l) :=
          SFdiv_core_binary single_prec single_emax M 0 (Z.pow 10 (- E)) 0 in
        binary_round_aux single_prec single_emax neg q e l
  | _ => S754_zero neg
  end.

(** The digits of [String(x)] for a positive double [m * 2^e]:
    [(s, n, k)] stands for [s * 10^(n - k)]. *)
Definition double_digits (m : positive) (e : Z) : Z * Z * Z :=
  let N := if e <? 0 then Zpos m else Zpos m * Z.pow 2 e in
  let D := if e <? 0 then Z.pow 2 (- e) else 1 in
  shortest_digits 17 (S754_finite false m e) N D (magnitude10 N D) 1.

(** [float4in]: the single-precision value of the text of a number. *)
Definition float4in (x : number) : spec_float :=
  match x with
  | S754_finite sg m e =>
      let '(s, n, k) := double_digits m e in single_of_decimal sg s (n - k)
  | S754_zero _ => S754_zero false
  | _ => x
  end.

(** The candidates with [k] digits for a single-precision value, as
    [digits_candidate] has them for a double. *)
Definition single_digits_candidate (x : spec_float) (N D n k : Z) : option (Z * Z) :=
  let sc := n - k in
  let num := if sc <? 0 then N * Z.pow 10 (- sc) else N in
  let den := if sc <? 0 then D else D * Z.pow 10 sc in
  let lo := num / den in
  let rm := num mod den in
  let ok c := same_number (single_of_decimal false c sc) x in
  let norm c := if c =? Z.pow 10 k then (Z.pow 10 (k - 1), n + 1) else (c, n) in
  match ok lo, ok (lo + 1) with
  | true, true =>
      match Z.compare (2 * rm) den with
      | Lt => Some (norm lo)
      | Gt => Some (norm (lo + 1))
      | Eq => Some (norm (if Z.even lo then lo else lo + 1))
      end
  | true, false => Some (norm lo)
  | false, true => Some (norm (lo + 1))
  | false, false => None
  end.

(** At most 9 digits are ever needed. *)
Fixpoint single_shortest_digits (fuel : nat) (x : spec_float) (N D n k : Z)
    : Z * Z * Z :=
  match fuel with
  | O => (N * Z.pow 10 (k - n) / D, n, k)
  | S f =>
      match single_digits_candidate x N D n k with
      | Some (s, n') => (s, n', k)
      | None => single_shortest_digits f x N D n (k + 1)
      end
  end.

(** [float4out] followed by the [parseFloat] of the driver: the double
    nearest to the shortest decimal numeral that reads back as [f]. *)
Definition float4out (f : spec_float) : number :=
  match f with
  | S754_finite sg m e =>
      let N := if e <? 0 then Zpos m else Zpos m * Z.pow 2 e in
      let D := if e <? 0 then Z.pow 2 (- e) else 1 in
      let '(s, n, k) :=
        single_shortest_digits 9 (S754_finite false m e) N D (magnitude10 N D) 1 in
      of_decimal sg s (n - k)
  | _ => f
  end.

(** What is read back of a number sent to a [REAL] column. *)
Definition real_value (x : number) : number := float4out (float4in x).

(** What is read back of the parameter [v] sent to a column of type
    [ty].  The handlers send [null], strings to the [TEXT] columns and
    numbers to the others; a string goes to a [TEXT] column as it is. *)
Definition stored (ty : ColType) (v : JsVal) : JsVal :=
  match ty with
  | TEXT | TIMESTAMPTZ => v
  | SERIAL | INTEGER =>
      match v with
      | JNum x => JNum (plus_zero x)
      | _ => v
      end
  | BIGINT =>
      match v with
      | JNum x =>
          match integer_of x with
          | Some z => JStr (pretty z)
          | None => v
          end
      | _ => v
      end
  | REAL =>
      match v with
      | JNum x => JNum (real_value x)
      | _ => v
      end
  end.

(** The type of a column of the table. *)
Definition column_type (c : string) : ColType :=
  match List.find (fun col => String.eqb (col_name col) c) surveys_schema with
  | Some col => col_type col
  | None => TEXT
  end.

(** The integer an [id] cell holds ([0] for anything that is not one). *)
Definition row_id (r : Row) : Z :=
  match cell r "id" with
  | JNum x => default 0 (integer_of x)
  | _ => 0
  end.

(** A row count for [LIMIT] / [OFFSET], sent as text and read as a
    [bigint]: anything but a non-negative integer is refused. *)
Definition row_count (negative : PgError) (v : JsVal) : PgError + nat :=
  match v with
  | JNum x =>
      match integer_of x with
      | Some z =>
          if z <? 0 then inl negative
          else if Z.pow 10 21 <=? z then inl invalid_text_representation
          else if Z.pow 2 63 <=? z then inl numeric_value_out_of_range
          else inr (Z.to_nat z)
      | None => inl invalid_text_representation
      end
  | _ => inl invalid_text_representation
  end.

(** ** Statements *)

Inductive Expr :=
  | Param (i : nat)      (* $i *)
  | NOW.                 (* NOW() *)

Inductive Order := ASC | DESC.

Inductive Statement :=
  (** [SELECT cols FROM surveys WHERE col = $p]; [None] is [*] *)
  | SELECT_WHERE (cols : option (list string)) (col : string) (p : nat)
  (** [INSERT INTO surveys (cols) VALUES ($1,...,$n) RETURNING returning] *)
  | INSERT (cols : list string) (returning : list string)
  (** [UPDATE surveys SET c = e, ... WHERE col = $p RETURNING returning] *)
  | UPDATE (sets : list (string * Expr)) (col : string) (p : nat)
           (returning : list string)
  (** [SELECT * FROM surveys ORDER BY id o LIMIT $l OFFSET $f] *)
  | SELECT_PAGE (o : Order) (l f : nat)
  (** [SELECT * FROM surveys ORDER BY id o] *)
  | SELECT_ORDERED (o : Order)
  (** [SELECT COUNT( * ) as total FROM surveys] *)
  | SELECT_COUNT.

Definition param (params : list JsVal) (i : nat) : PgError + JsVal :=
  match i with
  | O => inl protocol_violation
  | S j => match params !! j with
           | Some v => inr (sql_param v)
           | None => inl protocol_violation
           end
  end.

Definition project (cols : option (list string)) (r : Row) : Row :=
  match cols with
  | None => r
  | Some cs => list_to_map (omap (fun c => (fun v => (c, v)) <$> r !! c) cs)
  end.

Definition all_columns (cs : list string) : bool := forallb is_column cs.

(** *** ORDER BY id *)

Definition id_before (o : Order) (a b : Row) : bool :=
  match o with
  | ASC => row_id a <=? row_id b
  | DESC => row_id b <=? row_id a
  end.

Fixpoint insert_sorted (o : Order) (r : Row) (l : list Row) : list Row :=
  match l with
  | [] => [r]
  | x :: rest => if id_before o r x then r :: l else x :: insert_sorted o r rest
  end.

Definition order_by_id (o : Order) (l : list Row) : list Row :=
  foldr (insert_sorted o) [] l.

(** *** INSERT *)

Definition default_value (now : JsVal) (seq : Z) (c : Column) : JsVal :=
  match col_default c with
  | NoDefault => JNull
  | Nextval => JNum (of_Z seq)
  | DefaultNow => now
  | DefaultValue v => v
  end.

Definition new_row (now : JsVal) (seq : Z) (given : Row) : Row :=
  list_to_map
    (List.map (fun c => (col_name c,
                         match given !! col_name c with
                         | Some v => stored (col_type c) v
                         | None => default_value now seq c
                         end)) surveys_schema).

Definition violates_not_null (r : Row) : bool :=
  existsb (fun c => col_not_null c && is_null (cell r (col_name c))) surveys_schema.

Definition violates_unique (table : list Row) (r : Row) : bool :=
  existsb (fun c => col_unique c &&
                    existsb (fun x => sql_eq (cell x (col_name c)) (cell r (col_name c)))
                            table) surveys_schema.

Definition uses_nextval (cols : list string) : bool :=
  existsb (fun c => match col_default c with
                    | Nextval => negb (existsb (String.eqb (col_name c)) cols)
                    | _ => false
                    end) surveys_schema.

(** A refused row leaves the table as it was; the sequence value it drew
    is spent all the same. *)
Definition exec_insert (now : JsVal) (cols returning : list string)
    (params : list JsVal) (db : Db) : (PgError + list Row) * Db :=
  if negb (all_columns cols && all_columns returning) then (inl undefined_column, db)
  else if negb (length params =? length cols)%nat then (inl protocol_violation, db)
  else
    let given : Row := list_to_map (zip cols (List.map sql_param params)) in
    let r := new_row now (surveys_id_seq db) given in
    let seq' := if uses_nextval cols then surveys_id_seq db + 1
                else surveys_id_seq db in
    if violates_not_null r then
      (inl not_null_violation, {| surveys := surveys db; surveys_id_seq := seq' |})
    else if violates_unique (surveys db) r then
      (inl unique_violation, {| surveys := surveys db; surveys_id_seq := seq' |})
    else
      (inr [project (Some returning) r],
       {| surveys := surveys db ++ [r]; surveys_id_seq := seq' |}).

(** *** UPDATE *)

Fixpoint eval_sets (now : JsVal) (params : list JsVal)
    (sets : list (string * Expr)) : PgError + list (string * JsVal) :=
  match sets with
  | [] => inr []
  | (c, e) :: rest =>
      match (match e with Param i => param params i | NOW => inr now end),
            eval_sets now params rest with
      | inr v, inr vs => inr ((c, v) :: vs)
      | inl err, _ => inl err
      | _, inl err => inl err
      end
  end.

(** The values as their columns keep them. *)
Definition typed (vs : list (string * JsVal)) : list (string * JsVal) :=
  List.map (fun cv => (cv.1, stored (column_type cv.1) cv.2)) vs.

Definition assign (vs : list (string * JsVal)) (r : Row) : Row :=
  foldl (fun acc cv => <[cv.1 := cv.2]> acc) r vs.

(** The value the assignments give a column: the last one wins. *)
Fixpoint assigned (c : string) (vs : list (string * JsVal)) : option JsVal :=
  match vs with
  | [] => None
  | (k, v) :: rest =>
      match assigned c rest with
      | Some v' => Some v'
      | None => if String.eqb k c then Some v else None
      end
  end.

(** None of the assignments of the handlers touches a constrained column,
    so an update never fails on a constraint. *)
Definition exec_update (now : JsVal) (sets : list (string * Expr)) (col : string)
    (p : nat) (returning : list string) (params : list JsVal) (db : Db)
    : (PgError + list Row) * Db :=
  if negb (all_columns (List.map fst sets) && is_column col && all_columns returning)
  then (inl undefined_column, db)
  else
    match param params p, eval_sets now params sets with
    | inr key, inr given =>
        let vs := typed given in
        let hit r := sql_eq (cell r col) key in
        let table := List.map (fun r => if hit r then assign vs r else r) (surveys db) in
        (inr (List.map (fun r => project (Some returning) (assign vs r))
                       (List.filter hit (surveys db))),
         {| surveys := table; surveys_id_seq := surveys_id_seq db |})
    | inl err, _ => (inl err, db)
    | _, inl err => (inl err, db)
    end.

(** *** SELECT *)

Definition exec_select_where (cols : option (list string)) (col : string) (p : nat)
    (params : list JsVal) (db : Db) : PgError + list Row :=
  if negb (all_columns (default [] cols) && is_column col) then inl undefined_column
  else
    match param params p with
    | inr key =>
        inr (List.map (project cols)
               (List.filter (fun r => sql_eq (cell r col) key) (surveys db)))
    | inl err => inl err
    end.

Definition exec_select_page (o : Order) (l f : nat) (params : list JsVal) (db : Db)
    : PgError + list Row :=
  match param params l, param params f with
  | inr lv, inr fv =>
      match row_count invalid_row_count_in_limit_clause lv,
            row_count invalid_row_count_in_result_offset_clause fv with
      | inr n, inr k => inr (List.firstn n (List.skipn k (order_by_id o (surveys db))))
      | inl err, _ => inl err
      | _, inl err => inl err
      end
  | inl err, _ => inl err
  | _, inl err => inl err
  end.

(** One statement against the database at time [now]. *)
Definition exec (now : JsVal) (st : Statement) (params : list JsVal) (db : Db)
    : (PgError + list Row) * Db :=
  match st with
  | SELECT_WHERE cols col p => (exec_select_where cols col p params db, db)
  | INSERT cols returning => exec_insert now cols returning params db
  | UPDATE sets col p returning => exec_update now sets col p returning params db
  | SELECT_PAGE o l f => (exec_select_page o l f params db, db)
  | SELECT_ORDERED o => (inr (order_by_id o (surveys db)), db)
  | SELECT_COUNT =>
      (inr [{[ "total" := JStr (pretty (Z.of_nat (length (surveys db)))) ]}], db)
  end.

End Pg.

(* ===================================================================== *)
(** * The server                                                          *)
(* ===================================================================== *)

Import JS Pg.

(** ** Asynchronous handlers

    A handler is a program that either finishes, throws, or awaits the
    outcome of one [pool.query] and goes on from it.  Between two awaits
    of one request, other requests may run. *)

Inductive Prog (A : Type) : Type :=
  | Ret (a : A)
  | Throw (e : PgError)
  | Await (st : Statement) (params : list JsVal)
          (k : PgError + list Row -> Prog A).

Arguments Ret {A} a.
Arguments Throw {A} e.
Arguments Await {A} st params k.

Fixpoint bind {A B : Type} (p : Prog A) (f : A -> Prog B) : Prog B :=
  match p with
  | Ret a => f a
  | Throw e => Throw e
  | Await st ps k => Await st ps (fun r => bind (k r) f)
  end.

(** [try { p } catch (err) { h err }] *)
Fixpoint try_catch {A : Type} (p : Prog A) (h : PgError -> Prog A) : Prog A :=
  match p with
  | Ret a => Ret a
  | Throw e => h e
  | Await st ps k => Await st ps (fun r => try_catch (k r) h)
  end.

Notation "'do' x <- p ; q" := (bind p (fun x => q))
  (at level 10, x name, p at level 100, q at level 200).

(** [await pool.query(sql, params)], giving [result.rows] *)
Definition pool_query (st : Statement) (params : list JsVal) : Prog (list Row) :=
  Await st params (fun r => match r with
                            | inl e => Throw e
                            | inr rows => Ret rows
                            end).

(** The [TypeError] of reading a property of [undefined]. *)
Definition TypeError : PgError := {| code := None |}.

(** [rows[0]], for a property read that follows *)
Definition first_row (rows : list Row) : Prog Row :=
  match rows with
  | r :: _ => Ret r
  | [] => Throw TypeError
  end.

(** ** The world a handler runs in

    The database, the clock of the engine, and what the engine does with
    the coming queries: [Some e] makes the next query fail with [e]
    without touching the database (connection lost, value refused by a
    column type, ...), [None] or nothing lets it execute. *)

Record World := {
  db : Db;
  now : Z;
  faults : list (option PgError)
}.

Definition timestamp_of (t : Z) : JsVal := JNum (of_Z t).

Definition pool_step (st : Statement) (params : list JsVal) (w : World)
    : (PgError + list Row) * World :=
  match faults w with
  | Some e :: rest => (inl e, {| db := db w; now := now w; faults := rest |})
  | _ =>
      let '(r, db') := exec (timestamp_of (now w)) st params (db w) in
      (r, {| db := db'; now := now w; faults := tl (faults w) |})
  end.

Fixpoint run {A : Type} (p : Prog A) (w : World) : (PgError + A) * World :=
  match p with
  | Ret a => (inr a, w)
  | Throw e => (inl e, w)
  | Await st ps k => let '(r, w') := pool_step st ps w in run (k r) w'
  end.

(** Two requests in flight: [sched] says whose turn it is at each await
    ([true] for the first); when it runs out the first finishes, then the
    second. *)
Fixpoint run2 {A B : Type} (sched : list bool) (p : Prog A) (q : Prog B) (w : World)
    {struct sched} : (PgError + A) * (PgError + B) * World :=
  match sched with
  | [] =>
      let '(a, w1) := run p w in
      let '(b, w2) := run q w1 in (a, b, w2)
  | true :: rest =>
      match p with
      | Await st ps k => let '(r, w') := pool_step st ps w in run2 rest (k r) q w'
      | _ => run2 rest p q w
      end
  | false :: rest =>
      match q with
      | Await st ps k => let '(r, w') := pool_step st ps w in run2 rest p (k r) w'
      | _ => run2 rest p q w
      end
  end.

(** ** Requests and responses *)

Record Request := {
  req_body : JsVal;                (* req.body, parsed JSON *)
  req_params_identifier : string;  (* req.params.identifier *)
  req_query : JsVal;               (* req.query *)
  req_user_agent : JsVal;          (* req.get('user-agent'): a string or undefined *)
  req_ip : JsVal                   (* req.ip: a string or undefined *)
}.

Inductive Body :=
  | Json (v : JsVal)               (* res.json(v) *)
  | Send (text : string).          (* res.send(text) *)

Record Response := { status : Z; body : Body }.

(** [res.json(v)] and [res.status(c).json(v)] *)
Definition json (v : JsVal) : Response := {| status := 200; body := Json v |}.
Definition status_json (c : Z) (v : JsVal) : Response := {| status := c; body := Json v |}.

Definition error_body (msg : string) : JsVal := JObj [("error", JStr msg)].

(** ** Field normalization *)

Definition is_empty_string (v : JsVal) : bool :=
  match v with JStr s => String.eqb s "" | _ => false end.

Definition toIntOrNull (v : JsVal) : JsVal :=
  if is_null v || is_empty_string v then JNull
  else
    let n := ToNumber v in
    if Number_isFinite n then JNum (Math_round n) else JNull.

Definition toFloatOrNull (v : JsVal) : JsVal :=
  if is_null v || is_empty_string v then JNull
  else
    let n := ToNumber v in
    if Number_isFinite n then JNum n else JNull.

Definition toTextOrNull (v : JsVal) : JsVal :=
  if is_null v then JNull
  else
    let s := trim (ToString v) in
    if (0 <? String.length s)%nat then JStr s else JNull.

(** The object literal [data] of [saveSurvey]. *)
Record SurveyData := {
  store_identifier : JsVal;
  store_name : JsVal;
  business_type : JsVal;
  store_area : JsVal;
  business_circle : JsVal;
  decoration_level : JsVal;
  monthly_revenue : JsVal;
  daily_customers : JsVal;
  seats : JsVal;
  food_cost : JsVal;
  labor_cost : JsVal;
  rent_cost : JsVal;
  online_revenue : JsVal;
  main_platforms : JsVal;
  marketing_situation : JsVal;
  total_customers : JsVal;
  repeat_customers : JsVal;
  utility_cost : JsVal;
  marketing_cost : JsVal;
  average_rating : JsVal;
  total_reviews : JsVal;
  bad_reviews : JsVal;
  service_bad_reviews : JsVal;
  taste_bad_reviews : JsVal;
  short_video_count : JsVal;
  live_stream_count : JsVal;
  user_agent : JsVal;
  ip : JsVal
}.

Definition survey_data (req : Request) (b storeIdentifier : JsVal) : SurveyData := {|
  store_identifier := storeIdentifier;
  store_name := toTextOrNull (get b "storeName");
  business_type := toTextOrNull (get b "businessType");
  store_area := toIntOrNull (get b "storeArea");
  business_circle := toTextOrNull (get b "businessCircle");
  decoration_level := toTextOrNull (get b "decorationLevel");
  monthly_revenue := toIntOrNull (get b "monthlyRevenue");
  daily_customers := toIntOrNull (get b "dailyCustomers");
  seats := toIntOrNull (get b "seats");
  food_cost := toIntOrNull (get b "foodCost");
  labor_cost := toIntOrNull (get b "laborCost");
  rent_cost := toIntOrNull (get b "rentCost");
  online_revenue := toIntOrNull (get b "onlineRevenue");
  main_platforms := toTextOrNull (get b "mainPlatforms");
  marketing_situation := toTextOrNull (get b "marketingSituation");
  total_customers := toIntOrNull (get b "totalCustomers");
  repeat_customers := toIntOrNull (get b "repeatCustomers");
  utility_cost := toIntOrNull (get b "utilityCost");
  marketing_cost := toIntOrNull (get b "marketingCost");
  average_rating := toFloatOrNull (get b "averageRating");
  total_reviews := toIntOrNull (get b "totalReviews");
  bad_reviews := toIntOrNull (get b "badReviews");
  service_bad_reviews := toIntOrNull (get b "serviceBadReviews");
  taste_bad_reviews := toIntOrNull (get b "tasteBadReviews");
  short_video_count := toIntOrNull (get b "shortVideoCount");
  live_stream_count := toIntOrNull (get b "liveStreamCount");
  user_agent := js_or (req_user_agent req) JNull;
  ip := js_or (req_ip req) (JStr "unknown")
|}.

(** ** The statements of the handlers *)

Definition select_update_count : Statement :=
  SELECT_WHERE (Some ["update_count"]) "store_identifier" 1.

Definition select_survey : Statement :=
  SELECT_WHERE None "store_identifier" 1.

Definition select_id_update_count : Statement :=
  SELECT_WHERE (Some ["id"; "update_count"]) "store_identifier" 1.

Definition insert_columns : list string := [
  "store_identifier"; "update_count"; "store_name"; "business_type"; "store_area";
  "business_circle"; "decoration_level"; "monthly_revenue"; "daily_customers"; "seats";
  "food_cost"; "labor_cost"; "rent_cost"; "online_revenue"; "main_platforms";
  "marketing_situation"; "total_customers"; "repeat_customers"; "utility_cost";
  "marketing_cost"; "average_rating"; "total_reviews"; "bad_reviews";
  "service_bad_reviews"; "taste_bad_reviews"; "short_video_count";
  "live_stream_count"; "user_agent"; "ip"
].

Definition insert_survey : Statement := INSERT insert_columns ["id"; "timestamp"].

Definition insert_params (data : SurveyData) : list JsVal := [
  store_identifier data; JNum (of_Z 0); store_name data; business_type data; store_area data;
  business_circle data; decoration_level data; monthly_revenue data;
  daily_customers data; seats data; food_cost data; labor_cost data;
  rent_cost data; online_revenue data; main_platforms data;
  marketing_situation data; total_customers data; repeat_customers data;
  utility_cost data; marketing_cost data; average_rating data;
  total_reviews data; bad_reviews data; service_bad_reviews data;
  taste_bad_reviews data; short_video_count data; live_stream_count data;
  user_agent data; ip data
].

Definition update_sets : list (string * Expr) := [
  ("store_name", Param 1); ("business_type", Param 2); ("store_area", Param 3);
  ("business_circle", Param 4);
  ("decoration_level", Param 5); ("monthly_revenue", Param 6);
  ("daily_customers", Param 7); ("seats", Param 8);
  ("food_cost", Param 9); ("labor_cost", Param 10); ("rent_cost", Param 11);
  ("online_revenue", Param 12);
  ("main_platforms", Param 13); ("marketing_situation", Param 14);
  ("total_customers", Param 15);
  ("repeat_customers", Param 16); ("utility_cost", Param 17);
  ("marketing_cost", Param 18);
  ("average_rating", Param 19); ("total_reviews", Param 20); ("bad_reviews", Param 21);
  ("service_bad_reviews", Param 22); ("taste_bad_reviews", Param 23);
  ("short_video_count", Param 24);
  ("live_stream_count", Param 25); ("update_count", Param 26); ("timestamp", NOW);
  ("user_agent", Param 27); ("ip", Param 28)
].

Definition update_survey : Statement :=
  UPDATE update_sets "store_identifier" 29 ["id"; "timestamp"].

Definition update_params (data : SurveyData) (currentCount : JsVal) : list JsVal := [
  store_name data; business_type data; store_area data; business_circle data;
  decoration_level data; monthly_revenue data; daily_customers data; seats data;
  food_cost data; labor_cost data; rent_cost data; online_revenue data;
  main_platforms data; marketing_situation data; total_customers data;
  repeat_customers data; utility_cost data; marketing_cost data;
  average_rating data; total_reviews data; bad_reviews data;
  service_bad_reviews data; taste_bad_reviews data; short_video_count data;
  live_stream_count data; js_add currentCount (JNum (of_Z 1)); user_agent data; ip data;
  store_identifier data
].

Definition select_surveys_page : Statement := SELECT_PAGE DESC 1 2.
Definition select_surveys_export : Statement := SELECT_ORDERED ASC.

(** ** Routes *)

Definition database_error : Response := status_json 500 (error_body "Database error").

(** [GET /api/survey/status/:identifier] *)
Definition survey_status (req : Request) : Prog Response :=
  try_catch
    (let identifier := req_params_identifier req in
     if negb (truthy (JStr identifier)) then
       Ret (status_json 400 (error_body "Identifier is required"))
     else
       do result <- pool_query select_update_count [JStr identifier] ;
       match result with
       | [] => Ret (json (JObj [("exists", JBool false); ("update_count", JNum (of_Z 0))]))
       | r :: _ =>
           Ret (json (JObj [("exists", JBool true);
                            ("update_count", cell r "update_count")]))
       end)
    (fun err => Ret database_error).

(** [GET /api/survey/data/:identifier] *)
Definition survey_data_response (data : Row) : JsVal := JObj [
  ("storeIdentifier", cell data "store_identifier");
  ("storeName", cell data "store_name");
  ("businessType", cell data "business_type");
  ("storeArea", cell data "store_area");
  ("businessCircle", cell data "business_circle");
  ("decorationLevel", cell data "decoration_level");
  ("monthlyRevenue", cell data "monthly_revenue");
  ("dailyCustomers", cell data "daily_customers");
  ("seats", cell data "seats");
  ("foodCost", cell data "food_cost");
  ("laborCost", cell data "labor_cost");
  ("rentCost", cell data "rent_cost");
  ("onlineRevenue", cell data "online_revenue");
  ("mainPlatforms", cell data "main_platforms");
  ("marketingSituation", cell data "marketing_situation");
  ("totalCustomers", cell data "total_customers");
  ("repeatCustomers", cell data "repeat_customers");
  ("utilityCost", cell data "utility_cost");
  ("marketingCost", cell data "marketing_cost");
  ("averageRating", cell data "average_rating");
  ("totalReviews", cell data "total_reviews");
  ("badReviews", cell data "bad_reviews");
  ("serviceBadReviews", cell data "service_bad_reviews");
  ("tasteBadReviews", cell data "taste_bad_reviews");
  ("shortVideoCount", cell data "short_video_count");
  ("liveStreamCount", cell data "live_stream_count")
].

Definition not_found : Response := status_json 404 (error_body "Survey not found").

Definition survey_fetch (req : Request) : Prog Response :=
  try_catch
    (let identifier := req_params_identifier req in
     if negb (truthy (JStr identifier)) then
       Ret (status_json 400 (error_body "Identifier is required"))
     else
       do result <- pool_query select_survey [JStr identifier] ;
       match result with
       | [] => Ret not_found
       | data :: _ => Ret (json (survey_data_response data))
       end)
    (fun err => Ret database_error).

(** [err.code === c] *)
Definition code_is (err : PgError) (c : string) : bool :=
  match code err with
  | Some c' => String.eqb c' c
  | None => false
  end.

(** The common tail of [saveSurvey]:
    [res.json({ ok: true, id: result.rows[0].id, timestamp: ... })] *)
Definition saved_response (id ts : JsVal) : Response :=
  json (JObj [("ok", JBool true); ("id", id); ("timestamp", ts)]).

Definition saved (result : list Row) : Prog Response :=
  do r <- first_row result ;
  Ret (saved_response (cell r "id") (cell r "timestamp")).

Definition limit_reached : Response :=
  status_json 403 (error_body "Update limit reached. Maximum 3 updates allowed.").

Definition identifier_required : Response :=
  status_json 400 (error_body "Store identifier is required").

Definition identifier_exists : Response :=
  status_json 409 (error_body "Store identifier already exists").

(** [POST /api/saveSurvey] *)
Definition saveSurvey (req : Request) : Prog Response :=
  try_catch
    (let b := js_or (req_body req) (JObj []) in
     let storeIdentifier := toTextOrNull (get b "storeIdentifier") in
     if negb (truthy storeIdentifier) then Ret identifier_required
     else
       do checkResult <- pool_query select_id_update_count [storeIdentifier] ;
       let data := survey_data req b storeIdentifier in
       match checkResult with
       | [] =>
           do result <- pool_query insert_survey (insert_params data) ;
           saved result
       | row0 :: _ =>
           let currentCount := cell row0 "update_count" in
           if js_ge currentCount (JNum (of_Z 3)) then Ret limit_reached
           else
             do result <- pool_query update_survey (update_params data currentCount) ;
             saved result
       end)
    (fun err =>
       if code_is err "23505" then Ret identifier_exists
       else Ret database_error).

(** The row objects of a [SELECT *], with their properties in column
    order. *)
Definition row_object (r : Row) : JsVal :=
  JObj (omap (fun c => (fun v => (c, v)) <$> r !! c) column_names).

(** [GET /api/surveys] (behind [requireAdmin]) *)
Definition list_limit (req : Request) : number :=
  Math_min (parseInt (js_or (get (req_query req) "limit") (JStr "100")) (Some 10))
           (of_Z 1000).

Definition list_offset (req : Request) : number :=
  Math_max (parseInt (js_or (get (req_query req) "offset") (JStr "0")) (Some 10))
           (of_Z 0).

Definition surveys_list (req : Request) : Prog Response :=
  try_catch
    (let limit := list_limit req in
     let offset := list_offset req in
     do result <- pool_query select_surveys_page [JNum limit; JNum offset] ;
     do countResult <- pool_query SELECT_COUNT [] ;
     do c <- first_row countResult ;
     let total := parseInt (cell c "total") None in
     Ret (json (JObj [("rows", JArr (List.map row_object result));
                      ("limit", JNum limit);
                      ("offset", JNum offset);
                      ("total", JNum total);
                      ("count", JNum (of_Z (Z.of_nat (length result))))])))
    (fun err => Ret database_error).

(** [GET /api/export] (behind [requireAdmin]) *)
Definition export_header : list string := [
  "id"; "timestamp"; "store_identifier"; "update_count"; "store_name"; "business_type";
  "store_area"; "business_circle"; "decoration_level"; "monthly_revenue"; "daily_customers";
  "seats"; "food_cost"; "labor_cost"; "rent_cost"; "online_revenue"; "main_platforms";
  "marketing_situation"; "total_customers"; "repeat_customers"; "utility_cost";
  "marketing_cost"; "average_rating"; "total_reviews"; "bad_reviews"; "service_bad_reviews";
  "taste_bad_reviews"; "short_video_count"; "live_stream_count"; "user_agent"; "ip"
].

Definition dquote : ascii := Ascii.ascii_of_nat 34.

(** The [replace] of [esc]: every double quote is written twice. *)
Fixpoint double_quotes (s : string) : string :=
  match s with
  | EmptyString => EmptyString
  | String c r =>
      if Ascii.eqb c dquote then String c (String c (double_quotes r))
      else String c (double_quotes r)
  end.

Definition esc (v : JsVal) : string :=
  if is_null v then ""
  else String dquote (double_quotes (ToString v) ++ String dquote "").

Definition export_line (r : Row) : string :=
  String.concat "," (List.map (fun h => esc (cell r h)) export_header).

Definition newline : string := String (Ascii.ascii_of_nat 10) "".

Definition export_csv (req : Request) : Prog Response :=
  try_catch
    (do result <- pool_query select_surveys_export [] ;
     let lines := String.concat "," export_header :: List.map export_line result in
     Ret {| status := 200; body := Send (String.concat newline lines) |})
    (fun err => Ret database_error).

(** ** Running a request to its response *)

Definition handle (h : Prog Response) (w : World) : option Response * World :=
  match run h w with
  | (inr r, w') => (Some r, w')
  | (inl _, w') => (None, w')
  end.

(** Requests one after the other, each answered before the next is sent;
    [t] is the time of the engine's clock when the request runs. *)
Definition at_time (t : Z) (w : World) : World :=
  {| db := db w; now := t; faults := faults w |}.

Fixpoint session (h : Request -> Prog Response) (reqs : list (Z * Request)) (w : World)
    : list (option Response) * World :=
  match reqs with
  | [] => ([], w)
  | (t, req) :: rest =>
      let '(r, w1) := handle (h req) (at_time t w) in
      let '(rs, w2) := session h rest w1 in
      (r :: rs, w2)
  end.

(** The first storage failure a handler meets, if any. *)
Fixpoint first_failure {A : Type} (p : Prog A) (w : World) : option PgError :=
  match p with
  | Ret _ | Throw _ => None
  | Await st ps k =>
      match pool_step st ps w with
      | (inl e, _) => Some e
      | (inr rows, w') => first_failure (k (inr rows)) w'
      end
  end.

(** ** The vocabulary of the specification *)

(** The error kinds, as the request layer tells them apart by status. *)
Inductive ErrorKind :=
  | ValidationError           (* 400 *)
  | LimitReached              (* 403 *)
  | NotFound                  (* 404 *)
  | DuplicateIdentifier       (* 409 *)
  | StorageUnavailable.       (* 500 *)

Definition error_kind (r : Response) : option ErrorKind :=
  if status r =? 400 then Some ValidationError
  else if status r =? 403 then Some LimitReached
  else if status r =? 404 then Some NotFound
  else if status r =? 409 then Some DuplicateIdentifier
  else if status r =? 500 then Some StorageUnavailable
  else None.

(** The identifier a submission carries after normalization. *)
Definition submitted_identifier (req : Request) : JsVal :=
  toTextOrNull (get (js_or (req_body req) (JObj [])) "storeIdentifier").

Definition has_identifier (s : string) (r : Row) : bool :=
  sql_eq (cell r "store_identifier") (JStr s).

(** The records stored under an identifier. *)
Definition records_of (s : string) (d : Db) : list Row :=
  List.filter (has_identifier s) (surveys d).

(** The storage engine executes every coming query. *)
Definition available (w : World) : Prop := Forall (fun f => f = None) (faults w).

(** Reachable tables: every [id] was drawn from the sequence. *)
Definition wf_db (d : Db) : Prop :=
  0 < surveys_id_seq d < 2 ^ 53 /\
  Forall (fun r => exists i, cell r "id" = JNum (of_Z i) /\ 0 < i < surveys_id_seq d)
         (surveys d).

(** The metric fields: the property of the request body (and of the
    response of [survey_fetch]), the column, and the normalization
    [survey_data] applies. *)
Inductive Kind := KText | KInt | KFloat.

Definition normalize (k : Kind) : JsVal -> JsVal :=
  match k with
  | KText => toTextOrNull
  | KInt => toIntOrNull
  | KFloat => toFloatOrNull
  end.

Definition metric_fields : list (string * string * Kind) := [
  ("storeName", "store_name", KText);
  ("businessType", "business_type", KText);
  ("storeArea", "store_area", KInt);
  ("businessCircle", "business_circle", KText);
  ("decorationLevel", "decoration_level", KText);
  ("monthlyRevenue", "monthly_revenue", KInt);
  ("dailyCustomers", "daily_customers", KInt);
  ("seats", "seats", KInt);
  ("foodCost", "food_cost", KInt);
  ("laborCost", "labor_cost", KInt);
  ("rentCost", "rent_cost", KInt);
  ("onlineRevenue", "online_revenue", KInt);
  ("mainPlatforms", "main_platforms", KText);
  ("marketingSituation", "marketing_situation", KText);
  ("totalCustomers", "total_customers", KInt);
  ("repeatCustomers", "repeat_customers", KInt);
  ("utilityCost", "utility_cost", KInt);
  ("marketingCost", "marketing_cost", KInt);
  ("averageRating", "average_rating", KFloat);
  ("totalReviews", "total_reviews", KInt);
  ("badReviews", "bad_reviews", KInt);
  ("serviceBadReviews", "service_bad_reviews", KInt);
  ("tasteBadReviews", "taste_bad_reviews", KInt);
  ("shortVideoCount", "short_video_count", KInt);
  ("liveStreamCount", "live_stream_count", KInt)
].

(** The values a field of a kind takes: [null], or a string for a text
    field, or a number for an integer or float field. *)
Definition of_kind (k : Kind) (x : JsVal) : Prop :=
  match x, k with
  | JNull, _ => True
  | JStr _, KText => True
  | JNum _, (KInt | KFloat) => True
  | _, _ => False
  end.

(** The body of a JSON response. *)
Definition json_of (r : Response) : JsVal :=
  match body r with
  | Json v => v
  | Send _ => JUndefined
  end.

(** What [saveSurvey] answers from its [catch], and after its write. *)
Definition on_error (err : PgError) : Response :=
  if code_is err "23505" then identifier_exists else database_error.

Definition write_response (r : PgError + list Row) : Response :=
  match r with
  | inl e => on_error e
  | inr [] => database_error
  | inr (x :: _) => saved_response (cell x "id") (cell x "timestamp")
  end.

(** The [data] of a request whose identifier is [s]. *)
Definition data_of (req : Request) (s : string) : SurveyData :=
  survey_data req (js_or (req_body req) (JObj [])) (JStr s).

(** The row an [insert_survey] of [data] builds, and the values an
    [update_survey] of [data] assigns, as the engine computes them. *)
Definition inserted_row (now : JsVal) (seq : Z) (data : SurveyData) : Row :=
  new_row now seq (list_to_map (zip insert_columns (List.map sql_param (insert_params data)))).

Definition update_values (now : JsVal) (data : SurveyData) (currentCount : JsVal)
    : list (string * JsVal) :=
  match eval_sets now (update_params data currentCount) update_sets with
  | inr vs => typed vs
  | inl _ => []
  end.

(** The column a field of [data] goes to. *)
Definition data_column (data : SurveyData) (col : string) : JsVal :=
  default JUndefined
    (list_to_map (M := gmap string JsVal)
       (zip insert_columns (insert_params data)) !! col).

(** What the column [col] keeps of the parameter [v]. *)
Definition kept (col : string) (v : JsVal) : JsVal := stored (column_type col) v.



(** The failure the engine has in store for the next query, if any. *)
Definition next_fault (w : World) : option PgError :=
  match faults w with
  | Some e :: _ => Some e
  | _ => None
  end.


(** A genuine binary64 value (normalized mantissa, exponent in range). *)
Definition is_double (x : number) : Prop := valid_binary prec emax x = true.

(** Some property of the object [v] holds the value [x]. *)
Definition carries (v x : JsVal) : Prop := exists key, get v key = x.

(** What a fetch of the full record would answer: an object that carries,
    besides the metric fields, the id, the update count, the timestamp and
    the request metadata of the record found. *)
Definition fetch_full_record (req : Request) (w : World) : Prop :=
  forall r rest,
    records_of (req_params_identifier req) (db w) = r :: rest ->
    exists v w',
      run (survey_fetch req) w = (inr (json v), w') /\
      Forall (fun col => carries v (cell r col))
             ["id"; "update_count"; "timestamp"; "user_agent"; "ip"].

(** [a] may come before [b] in a list ordered by id. *)
Definition in_order (o : Order) (a b : Row) : Prop := id_before o a b = true.

(* ===================================================================== *)
(** * A worked scenario                                                   *)
(* ===================================================================== *)

(** Store ["S1"] submits, then revises four times; the properties
    proved below are read on the worlds this produces. *)

Definition submission (revenue : Z) (rest : list (string * JsVal)) : Request := {|
  req_body := JObj (("storeIdentifier", JStr " S1 ")
                    :: ("monthlyRevenue", JNum (of_Z revenue)) :: rest);
  req_params_identifier := "S1";
  req_query := JObj [("limit", JStr "5000"); ("offset", JStr "-1")];
  req_user_agent := JStr "curl/8.5";
  req_ip := JStr "203.0.113.7"
|}.

Definition first_submission : Request :=
  submission 50000 [("storeName", JStr "Noodle Bar"); ("seats", JStr "12.5");
                    ("averageRating", JStr "4.5"); ("dailyCustomers", JNum (of_Z 0));
                    ("foodCost", JStr "n/a"); ("mainPlatforms", JStr "")].

Definition revision : Request := submission 52000 [("seats", JNum (of_Z 14))].

Definition world_0 : World := {| db := empty_db; now := 1700000000000; faults := [] |}.

Definition world_1 : World :=
  Eval vm_compute in (run (saveSurvey first_submission) world_0).2.


Definition revisions : list (Z * Request) :=
  [(1700000001000, revision); (1700000002000, revision);
   (1700000003000, revision); (1700000004000, revision)].

Definition world_5 : World :=
  Eval vm_compute in (session saveSurvey revisions world_1).2.

(** The record of ["S1"] after the first submission and after the four
    revisions. *)
Definition record_1 : Row := Eval vm_compute in hd ∅ (records_of "S1" (db world_1)).
Definition record_5 : Row := Eval vm_compute in hd ∅ (records_of "S1" (db world_5)).

(** A submission whose identifier is blank. *)
Definition blank_submission : Request := {|
  req_body := JObj [("storeIdentifier", JStr "   "); ("monthlyRevenue", JNum (of_Z 50000))];
  req_params_identifier := "S1";
  req_query := JObj [];
  req_user_agent := JUndefined;
  req_ip := JUndefined
|}.

(** The engine refuses the insert of the first submission as a duplicate. *)
Definition world_conflict : World :=
  {| db := empty_db; now := 1700000000000; faults := [None; Some unique_violation] |}.

(** The engine is starting up and refuses the connection of the first
    query. *)
Definition cannot_connect_now : PgError := sqlstate "57P03".

Definition world_down : World :=
  {| db := empty_db; now := 1700000000000; faults := [Some cannot_connect_now] |}.

(* ===================================================================== *)
(** * The whole server: invariants, configuration, routes                 *)
(* ===================================================================== *)

(** A count the cap allows, and an identifier as [toTextOrNull] leaves it. *)
Definition capped (v : JsVal) : Prop := exists c, v = JNum (of_Z c) /\ 0 <= c <= 3.

Definition trimmed (v : JsVal) : Prop := exists s, v = JStr s /\ s <> "" /\ trim s = s.

(** A value as a text or integer column of the table holds it: [null];
    in a [TEXT] column, a string [toTextOrNull] leaves as it is; in an
    [INTEGER] column, an integer; in a [BIGINT] column, the numeral of an
    integer (integers that a double holds exactly). *)
Definition held (ty : ColType) (v : JsVal) : Prop :=
  v = JNull \/
  match ty with
  | TEXT => trimmed v
  | INTEGER => exists z, - 2 ^ 53 < z < 2 ^ 53 /\ v = JNum (of_Z z)
  | BIGINT => exists z, - 2 ^ 53 < z < 2 ^ 53 /\ v = JStr (pretty z)
  | _ => True
  end.

(** The invariants of the table. *)
Definition unique_identifiers (d : Db) : Prop :=
  forall s, (length (records_of s d) <= 1)%nat.

Definition counts_capped (d : Db) : Prop :=
  Forall (fun r => capped (cell r "update_count")) (surveys d).

Definition identifiers_trimmed (d : Db) : Prop :=
  Forall (fun r => trimmed (cell r "store_identifier")) (surveys d).

(** The statements that read. *)
Definition is_select (st : Statement) : Prop :=
  match st with
  | INSERT _ _ | UPDATE _ _ _ _ => False
  | _ => True
  end.

(** The queries the routes send: the reads; the insert of a [data] whose
    identifier went through [toTextOrNull]; the update of the rows of an
    identifier, with a count [cc] that was read, satisfies [P] and is
    below the cap. *)
Inductive server_query (P : JsVal -> Prop) : Statement -> list JsVal -> Prop :=
  | query_select st ps : is_select st -> server_query P st ps
  | query_insert d :
      trimmed (store_identifier d) ->
      server_query P insert_survey (insert_params d)
  | query_update d cc s :
      store_identifier d = JStr s -> P cc ->
      js_ge cc (JNum (of_Z 3)) = false ->
      server_query P update_survey (update_params d cc).

(** The rows the check of [saveSurvey] is answered carry a count that
    satisfies [P]. *)
Definition check_rows (P : JsVal -> Prop) (st : Statement) (rows : list Row) : Prop :=
  st = select_id_update_count -> Forall (fun r => P (cell r "update_count")) rows.

(** [sends_only Q R p]: every query [p] sends is one of [Q], as long as
    the rows it is answered satisfy [R]. *)
Inductive sends_only (Q : Statement -> list JsVal -> Prop)
    (R : Statement -> list Row -> Prop) {A : Type} : Prog A -> Prop :=
  | sends_Ret a : sends_only Q R (Ret a)
  | sends_Throw e : sends_only Q R (Throw e)
  | sends_Await st ps k :
      Q st ps ->
      (forall e, sends_only Q R (k (inl e))) ->
      (forall rows, R st rows -> sends_only Q R (k (inr rows))) ->
      sends_only Q R (Await st ps k).

(** [a === b] between values that do not share an object: primitives are
    compared by value ([NaN] differs from itself, [+0] equals [-0]), and
    an object or an array is never equal to anything else. *)
Definition strict_eq (a b : JsVal) : bool :=
  match a, b with
  | JUndefined, JUndefined | JNull, JNull => true
  | JBool x, JBool y => Bool.eqb x y
  | JNum x, JNum y => SFeqb x y
  | JStr s, JStr t => String.eqb s t
  | _, _ => false
  end.

(** ** Configuration

    The variables of [process.env] the routes depend on: each is a
    string or is not set. *)
Record Env := {
  env_CORS_ORIGIN : option string;
  env_ADMIN_KEY : option string
}.

Definition getenv (v : option string) : JsVal :=
  match v with
  | Some s => JStr s
  | None => JUndefined
  end.

Definition CORS_ORIGIN (env : Env) : JsVal := js_or (getenv (env_CORS_ORIGIN env)) (JStr "*").
Definition ADMIN_KEY (env : Env) : JsVal := js_or (getenv (env_ADMIN_KEY env)) JNull.

(** [s.split(sep)] for a separator of one character. *)
Fixpoint String_split (sep : ascii) (s : string) : list string :=
  match s with
  | EmptyString => [EmptyString]
  | String c r =>
      if Ascii.eqb c sep then EmptyString :: String_split sep r
      else match String_split sep r with
           | h :: t => String c h :: t
           | [] => [String c EmptyString]
           end
  end.

(** The [origin] option of the [cors] middleware: what it passes to [cb]
    for the [Origin] header of a request (a string or [undefined]).
    [includes] compares as [===] does, [NaN] apart. *)
Definition cors_origin (env : Env) (origin : JsVal) : bool :=
  if negb (truthy origin) || strict_eq (CORS_ORIGIN env) (JStr "*") then true
  else
    let allowed := List.map trim (String_split ","%char (ToString (CORS_ORIGIN env))) in
    existsb (fun a => strict_eq (JStr a) origin) allowed.

Definition admin_key_not_set : Response :=
  status_json 501 (error_body "ADMIN_KEY not set on server").

Definition unauthorized : Response := status_json 401 (error_body "Unauthorized").

(** [requireAdmin(req, res, next)]; [x_admin_key] is
    [req.get('x-admin-key')], a string or [undefined], and [next] what the
    route does once let through. *)
Definition requireAdmin (env : Env) (x_admin_key : JsVal) (req : Request)
    (next : Prog Response) : Prog Response :=
  if negb (truthy (ADMIN_KEY env)) then Ret admin_key_not_set
  else
    let key := js_or x_admin_key (get (req_query req) "key") in
    if negb (strict_eq key (ADMIN_KEY env)) then Ret unauthorized
    else next.

(** The routes of the server (the health check apart), and what is left
    to the last [app.use]. *)
Inductive Route :=
  | GET_survey_status      (* GET /api/survey/status/:identifier *)
  | GET_survey_data        (* GET /api/survey/data/:identifier *)
  | POST_saveSurvey        (* POST /api/saveSurvey *)
  | GET_surveys            (* GET /api/surveys, behind requireAdmin *)
  | GET_export             (* GET /api/export, behind requireAdmin *)
  | Unmatched.             (* anything else: 404 *)

Record Incoming := {
  route : Route;
  request : Request;
  x_admin_key : JsVal
}.

Definition route_not_found : Response := status_json 404 (error_body "Not found").

Definition router (env : Env) (i : Incoming) : Prog Response :=
  match route i with
  | GET_survey_status => survey_status (request i)
  | GET_survey_data => survey_fetch (request i)
  | POST_saveSurvey => saveSurvey (request i)
  | GET_surveys =>
      requireAdmin env (x_admin_key i) (request i) (surveys_list (request i))
  | GET_export =>
      requireAdmin env (x_admin_key i) (request i) (export_csv (request i))
  | Unmatched => Ret route_not_found
  end.

(** Any number of requests in flight: at each step [sched] names the
    request whose pending query the engine answers; when [sched] runs out
    the requests finish one after the other. *)
Fixpoint finish {A : Type} (ps : list (Prog A)) (w : World)
    : list (PgError + A) * World :=
  match ps with
  | [] => ([], w)
  | p :: rest =>
      let '(a, w1) := run p w in
      let '(rs, w2) := finish rest w1 in
      (a :: rs, w2)
  end.

Fixpoint run_all {A : Type} (sched : list nat) (ps : list (Prog A)) (w : World)
    : list (PgError + A) * World :=
  match sched with
  | [] => finish ps w
  | i :: rest =>
      match ps !! i with
      | Some (Await st params k) =>
          let '(r, w') := pool_step st params w in
          run_all rest (<[i := k r]> ps) w'
      | _ => run_all rest ps w
      end
  end.

(** A decimal digit. *)
Definition decimal_digit (c : ascii) : Prop :=
  exists n, (n < 10)%N /\ c = pretty_N_char n.

(** ** Reading a CSV text back

    The reader of RFC 4180: records are separated by line feeds and
    fields by commas; a field is bare, or enclosed in double quotes with
    every double quote of its text written twice. *)

Inductive Field :=
  | Bare (text : string)
  | Quoted (text : string).

(** Where the reader is in a field; [acc] is the text read so far,
    backwards. *)
Inductive Reading :=
  | AtStart                         (* nothing of the field read yet *)
  | InBare (acc : list ascii)       (* in a bare field *)
  | InQuotes (acc : list ascii)     (* between the quotes of a field *)
  | AfterQuote (acc : list ascii).  (* after a quote met between quotes: the
                                       closing one, or the first of a pair *)

Definition text_of (acc : list ascii) : string := string_of_list_ascii (List.rev acc).

(** The field read when a separator or the end of the text comes. *)
Definition field_read (st : Reading) : option Field :=
  match st with
  | AtStart => Some (Bare "")
  | InBare acc => Some (Bare (text_of acc))
  | InQuotes _ => None
  | AfterQuote acc => Some (Quoted (text_of acc))
  end.

Definition line_feed : ascii := Ascii.ascii_of_nat 10.

Fixpoint read_csv_from (st : Reading) (fields : list Field) (s : string)
    : option (list (list Field)) :=
  match s with
  | EmptyString =>
      match field_read st with
      | Some f => Some [List.rev (f :: fields)]
      | None => None
      end
  | String c r =>
      match st with
      | InQuotes acc =>
          if Ascii.eqb c dquote then read_csv_from (AfterQuote acc) fields r
          else read_csv_from (InQuotes (c :: acc)) fields r
      | _ =>
          if Ascii.eqb c dquote then
            match st with
            | AtStart => read_csv_from (InQuotes []) fields r
            | AfterQuote acc => read_csv_from (InQuotes (c :: acc)) fields r
            | _ => None
            end
          else
            match field_read st with
            | None => None
            | Some f =>
                if Ascii.eqb c ","%char then read_csv_from AtStart (f :: fields) r
                else if Ascii.eqb c line_feed then
                  match read_csv_from AtStart [] r with
                  | Some records => Some (List.rev (f :: fields) :: records)
                  | None => None
                  end
                else
                  match st with
                  | AtStart => read_csv_from (InBare [c]) fields r
                  | InBare acc => read_csv_from (InBare (c :: acc)) fields r
                  | _ => None
                  end
            end
      end
  end.

Definition read_csv (s : string) : option (list (list Field)) :=
  read_csv_from AtStart [] s.

(** The field a value of a row is exported as. *)
Definition csv_field (v : JsVal) : Field :=
  if is_null v then Bare "" else Quoted (ToString v).

(** A column name that needs no quotes. *)
Definition plain_name (h : string) : bool :=
  negb (String.eqb h "") &&
  forallb (fun c => negb (Ascii.eqb c dquote || Ascii.eqb c ","%char || Ascii.eqb c line_feed))
          (list_ascii_of_string h).

(** Where the reader stands after the field of a value. *)
Definition read_after (v : JsVal) : Reading :=
  if is_null v then AtStart
  else AfterQuote (List.rev (list_ascii_of_string (ToString v))).

(* ===================================================================== *)
(** * The worked scenario, continued                                      *)
(* ===================================================================== *)

(** Store ["S2"] submits after the first submission of ["S1"]; its name
    holds a comma and its user agent and address are not known. *)
Definition second_store : Request := {|
  req_body := JObj [("storeIdentifier", JStr "S2"); ("storeName", JStr "Tea, Cakes");
                    ("monthlyRevenue", JStr "31000")];
  req_params_identifier := "S2";
  req_query := JObj [("limit", JStr "1")];
  req_user_agent := JUndefined;
  req_ip := JUndefined
|}.

Definition world_2 : World :=
  Eval vm_compute in (run (saveSurvey second_store) (at_time 1700000005000 world_1)).2.


Definition record_2 : Row := Eval vm_compute in hd ∅ (records_of "S2" (db world_2)).

(** A request for a page of the list, and a lookup by identifier. *)
Definition page (limit offset : string) : Request := {|
  req_body := JUndefined;
  req_params_identifier := "";
  req_query := JObj [("limit", JStr limit); ("offset", JStr offset)];
  req_user_agent := JUndefined;
  req_ip := JUndefined
|}.

Definition lookup_of (identifier : string) : Request := {|
  req_body := JUndefined;
  req_params_identifier := identifier;
  req_query := JObj [];
  req_user_agent := JUndefined;
  req_ip := JUndefined
|}.

(** Store ["S1"] sends back what the fetch route answered for its
    record. *)
Definition resubmission : Request := {|
  req_body := survey_data_response record_1;
  req_params_identifier := "S1";
  req_query := JObj [];
  req_user_agent := JStr "curl/8.5";
  req_ip := JStr "203.0.113.7"
|}.

Definition world_resubmitted : World :=
  Eval vm_compute in (run (saveSurvey resubmission) (at_time 1700000006000 world_1)).2.

Definition response_resubmitted : Response :=
  Eval vm_compute in
    match (run (saveSurvey resubmission) (at_time 1700000006000 world_1)).1 with
    | inr r => r
    | inl _ => database_error
    end.

(** An identifier sent as the number 7 and as the string ["7"]. *)
Definition store_number : Request := {|
  req_body := JObj [("storeIdentifier", JNum (of_Z 7))];
  req_params_identifier := "7";
  req_query := JObj [];
  req_user_agent := JUndefined;
  req_ip := JUndefined
|}.

Definition store_numeral : Request := {|
  req_body := JObj [("storeIdentifier", JStr "7")];
  req_params_identifier := "7";
  req_query := JObj [];
  req_user_agent := JUndefined;
  req_ip := JUndefined
|}.

(** A configuration, and requests as the router sees them. *)
Definition env_example : Env := {|
  env_CORS_ORIGIN := Some "https://a.example, https://b.example";
  env_ADMIN_KEY := Some "secret"
|}.

Definition incoming (r : Route) (req : Request) (key : JsVal) : Incoming :=
  {| route := r; request := req; x_admin_key := key |}.

Definition in_flight : list Incoming :=
  [incoming POST_saveSurvey revision JUndefined;
   incoming POST_saveSurvey second_store JUndefined;
   incoming GET_survey_status (lookup_of "S1") JUndefined;
   incoming GET_export (page "1" "0") (JStr "secret")].


Section Numbers.

Lemma digits2_pos_size (p : positive) : digits2_pos p = Pos.size p.
Proof. induction p; simpl; congruence. Qed.

Lemma size_bounds (p : positive) :
  2 ^ (Zpos (Pos.size p) - 1) <= Zpos p < 2 ^ Zpos (Pos.size p).
Proof.
  induction p as [p IH | p IH | ]; cbn [Pos.size].
  - assert (E : 2 ^ Zpos (Pos.size p) = 2 * 2 ^ (Zpos (Pos.size p) - 1))
      by (rewrite <- Z.pow_succ_r by lia; f_equal; lia).
    rewrite Pos2Z.inj_succ, (Pos2Z.inj_xI p).
    replace (Z.succ (Zpos (Pos.size p)) - 1) with (Zpos (Pos.size p)) by lia.
    rewrite Z.pow_succ_r by lia. lia.
  - assert (E : 2 ^ Zpos (Pos.size p) = 2 * 2 ^ (Zpos (Pos.size p) - 1))
      by (rewrite <- Z.pow_succ_r by lia; f_equal; lia).
    rewrite Pos2Z.inj_succ, (Pos2Z.inj_xO p).
    replace (Z.succ (Zpos (Pos.size p)) - 1) with (Zpos (Pos.size p)) by lia.
    rewrite Z.pow_succ_r by lia. lia.
  - cbn. lia.
Qed.

Lemma iter_xO_mul (p k : positive) : Zpos (Pos.iter xO p k) = Zpos p * 2 ^ Zpos k.
Proof.
  induction k as [|k IHk] using Pos.peano_ind.
  - rewrite Z.pow_1_r. cbn [Pos.iter]. lia.
  - rewrite Pos.iter_succ, (Pos2Z.inj_xO (Pos.iter xO p k)), IHk, Pos2Z.inj_succ, Z.pow_succ_r by lia. lia.
Qed.

Lemma iter_xO_size (p k : positive) : Pos.size (Pos.iter xO p k) = (Pos.size p + k)%positive.
Proof.
  induction k as [|k IHk] using Pos.peano_ind.
  - cbn. lia.
  - rewrite Pos.iter_succ. cbn [Pos.size]. rewrite IHk. lia.
Qed.


Lemma binary_round_exact (s : bool) (p : positive) :
  Zpos p < 2 ^ 53 ->
  binary_round prec emax s p 0 = S754_finite s (normal_mantissa p) (normal_exponent p).
Proof.
  intros Hp.
  pose proof (size_bounds p) as [Hlo Hhi].
  assert (Hd : Zpos (Pos.size p) <= 53).
  { destruct (Z_le_gt_dec (Zpos (Pos.size p)) 53) as [|Hgt]; [assumption|].
    assert (2 ^ 53 <= 2 ^ (Zpos (Pos.size p) - 1)) by (apply Z.pow_le_mono_r; lia). lia. }
  unfold binary_round, normal_mantissa, normal_exponent.
  rewrite digits2_pos_size.
  assert (Hf : fexp prec emax (Zpos (Pos.size p) + 0) = Zpos (Pos.size p) - 53)
    by (unfold fexp, emin, prec, emax; lia).
  rewrite Hf.
  assert (Hal : shl_align p 0 (Zpos (Pos.size p) - 53)
                = (Pos.shiftl p (Z.to_N (53 - Zpos (Pos.size p))), Zpos (Pos.size p) - 53)).
  { unfold shl_align.
    destruct (Zpos (Pos.size p) - 53 - 0) as [|q|q] eqn:E; try lia.
    - replace (53 - Zpos (Pos.size p)) with 0 by lia.
      replace (Zpos (Pos.size p) - 53) with 0 by lia. reflexivity.
    - replace (53 - Zpos (Pos.size p)) with (Zpos q) by lia. reflexivity. }
  rewrite Hal.
  set (m := Pos.shiftl p (Z.to_N (53 - Zpos (Pos.size p)))).
  assert (Hm : Zpos (digits2_pos m) = 53).
  { rewrite digits2_pos_size. unfold m.
    destruct (53 - Zpos (Pos.size p)) as [|q|q] eqn:E; try lia.
    - change (Pos.shiftl p (Z.to_N 0)) with p. lia.
    - change (Pos.shiftl p (Z.to_N (Zpos q))) with (Pos.iter xO p q).
      rewrite iter_xO_size. lia. }
  unfold binary_round_aux, shr_fexp.
  cbn [Zdigits2]. rewrite Hm.
  assert (Hs : fexp prec emax (53 + (Zpos (Pos.size p) - 53)) - (Zpos (Pos.size p) - 53) = 0)
    by (unfold fexp, emin, prec, emax; lia).
  rewrite Hs. cbn [shr shr_record_of_loc shr_m loc_of_shr_record round_nearest_even].
  cbn [Zdigits2]. rewrite Hm, Hs.
  cbn [shr shr_record_of_loc shr_m].
  unfold prec, emax.
  destruct (Zpos (Pos.size p) - 53 <=? 1024 - 53) eqn:E; [reflexivity | lia].
Qed.

Lemma of_Z_pos (p : positive) :
  Zpos p < 2 ^ 53 ->
  of_Z (Zpos p) = S754_finite false (normal_mantissa p) (normal_exponent p).
Proof. intros Hp. unfold of_Z, binary_normalize. now apply binary_round_exact. Qed.

Lemma normal_mantissa_value (p : positive) :
  Zpos p < 2 ^ 53 ->
  Zpos (normal_mantissa p) = Zpos p * 2 ^ (53 - Zpos (Pos.size p)) /\
  0 <= 53 - Zpos (Pos.size p).
Proof.
  intros Hp. pose proof (size_bounds p) as [Hlo Hhi].
  assert (Hd : Zpos (Pos.size p) <= 53).
  { destruct (Z_le_gt_dec (Zpos (Pos.size p)) 53) as [|Hgt]; [assumption|].
    assert (2 ^ 53 <= 2 ^ (Zpos (Pos.size p) - 1)) by (apply Z.pow_le_mono_r; lia). lia. }
  split; [|lia]. unfold normal_mantissa.
  destruct (53 - Zpos (Pos.size p)) as [|q|q] eqn:E; try lia.
  - change (Pos.shiftl p (Z.to_N 0)) with p. rewrite Z.pow_0_r. lia.
  - change (Pos.shiftl p (Z.to_N (Zpos q))) with (Pos.iter xO p q). apply iter_xO_mul.
Qed.

(** Integers below [2^53] are doubles: [of_Z] loses nothing. *)
Lemma integer_of_of_Z (z : Z) : 0 <= z < 2 ^ 53 -> integer_of (of_Z z) = Some z.
Proof.
  intros Hz. destruct z as [|p|p]; [reflexivity| |lia].
  rewrite of_Z_pos by lia.
  destruct (normal_mantissa_value p) as [Hv Hk]; [lia|].
  unfold integer_of, normal_exponent. rewrite Hv.
  destruct (0 <=? Zpos (Pos.size p) - 53) eqn:E.
  - replace (53 - Zpos (Pos.size p)) with 0 by lia.
    replace (Zpos (Pos.size p) - 53) with 0 by lia. cbn [cond_Zopp]. f_equal. lia.
  - replace (- (Zpos (Pos.size p) - 53)) with (53 - Zpos (Pos.size p)) by lia.
    rewrite Z.mod_mul by (apply Z.pow_nonzero; lia).
    rewrite Z.eqb_refl. cbn [cond_Zopp]. f_equal.
    apply Z.div_mul. apply Z.pow_nonzero; lia.
Qed.

(** On integers below [2^53] the order of doubles is the order of [Z]. *)
Lemma SFcompare_of_Z (i j : Z) :
  0 <= i < 2 ^ 53 -> 0 <= j < 2 ^ 53 ->
  SFcompare (of_Z i) (of_Z j) = Some (i ?= j).
Proof.
  intros Hi Hj.
  destruct i as [|p|p]; [| |lia]; destruct j as [|q|q]; try lia.
  - reflexivity.
  - rewrite of_Z_pos by lia. reflexivity.
  - rewrite of_Z_pos by lia. reflexivity.
  - rewrite !of_Z_pos by lia.
    destruct (normal_mantissa_value p) as [Hp Hkp]; [lia|].
    destruct (normal_mantissa_value q) as [Hq Hkq]; [lia|].
    pose proof (size_bounds p) as [Hplo Hphi].
    pose proof (size_bounds q) as [Hqlo Hqhi].
    cbn [SFcompare]. unfold normal_exponent. f_equal.
    destruct (Z.compare_spec (Zpos (Pos.size p) - 53) (Zpos (Pos.size q) - 53)) as [E|E|E].
    + assert (Es : Zpos (Pos.size p) = Zpos (Pos.size q)) by lia.
      rewrite Es in Hp.
      change (Pos.compare_cont Eq (normal_mantissa p) (normal_mantissa q))
        with (Zpos (normal_mantissa p) ?= Zpos (normal_mantissa q)).
      rewrite Hp, Hq.
      assert (0 < 2 ^ (53 - Zpos (Pos.size q))) by (apply Z.pow_pos_nonneg; lia).
      destruct (Z.compare_spec (Zpos p) (Zpos q)) as [C|C|C].
      * rewrite C. apply Z.compare_refl.
      * apply Z.compare_lt_iff. nia.
      * apply Z.compare_gt_iff. nia.
    + symmetry. apply Z.compare_lt_iff.
      assert (2 ^ Zpos (Pos.size p) <= 2 ^ (Zpos (Pos.size q) - 1))
        by (apply Z.pow_le_mono_r; lia). lia.
    + symmetry. apply Z.compare_gt_iff.
      assert (2 ^ Zpos (Pos.size q) <= 2 ^ (Zpos (Pos.size p) - 1))
        by (apply Z.pow_le_mono_r; lia). lia.
Qed.

End Numbers.

(* ===================================================================== *)
(** * Rows, projections and assignments                                   *)
(* ===================================================================== *)

Section Rows.

Lemma lookup_project (cs : list string) (r : Row) (c : string) :
  project (Some cs) r !! c = if existsb (String.eqb c) cs then r !! c else None.
Proof.
  unfold project. induction cs as [|a cs IH]; [reflexivity|].
  cbn [omap list_omap existsb].
  destruct (String.eqb_spec c a) as [->|Hne]; cbn [orb].
  - destruct (r !! a) as [v|] eqn:E; cbn [fmap option_fmap option_map].
    + cbn [list_to_map foldr]. apply lookup_insert_eq.
    + rewrite IH. now destruct (existsb _ _).
  - destruct (r !! a) as [v|] eqn:E; cbn [fmap option_fmap option_map].
    + cbn [list_to_map foldr]. rewrite lookup_insert_ne by (intros Heq; apply Hne; symmetry; exact Heq). exact IH.
    + exact IH.
Qed.

Lemma cell_project (cs : list string) (r : Row) (c : string) :
  existsb (String.eqb c) cs = true -> cell (project (Some cs) r) c = cell r c.
Proof. intros H. unfold cell. now rewrite lookup_project, H. Qed.

Lemma lookup_assign (vs : list (string * JsVal)) (r : Row) (c : string) :
  assign vs r !! c = match assigned c vs with
                     | Some v => Some v
                     | None => r !! c
                     end.
Proof.
  unfold assign. revert r. induction vs as [|[k v] vs IH]; intros r; [reflexivity|].
  cbn [foldl assigned]. rewrite IH.
  destruct (assigned c vs); [reflexivity|].
  cbn [fst snd].
  destruct (String.eqb_spec k c) as [->|Hne].
  - apply lookup_insert_eq.
  - now rewrite lookup_insert_ne.
Qed.

Lemma cell_assign (vs : list (string * JsVal)) (r : Row) (c : string) :
  cell (assign vs r) c = match assigned c vs with
                         | Some v => v
                         | None => cell r c
                         end.
Proof. unfold cell. rewrite lookup_assign. now destruct (assigned c vs). Qed.

End Rows.

(* ===================================================================== *)
(** * The statements of the handlers, executed                            *)
(* ===================================================================== *)

Section Engine.


Lemma select_where_exec (cols : list string) (s : string) (d : Db) :
  all_columns cols = true ->
  exec_select_where (Some cols) "store_identifier" 1 [JStr s] d
  = inr (List.map (project (Some cols)) (records_of s d)).
Proof.
  intros H. unfold exec_select_where.
  change (default [] (Some cols)) with cols. rewrite H. reflexivity.
Qed.

Lemma select_survey_exec (s : string) (d : Db) :
  exec_select_where None "store_identifier" 1 [JStr s] d
  = inr (List.map (project None) (records_of s d)).
Proof. reflexivity. Qed.

Lemma violates_unique_spec (table : list Row) (r : Row) :
  violates_unique table r
  = existsb (fun x => sql_eq (cell x "id") (cell r "id")) table
    || existsb (fun x => sql_eq (cell x "store_identifier") (cell r "store_identifier")) table.
Proof.
  unfold violates_unique, surveys_schema, plain.
  cbn [existsb col_unique col_name andb orb]. now rewrite orb_false_r.
Qed.

Lemma inserted_row_id now seq d : cell (inserted_row now seq d) "id" = JNum (of_Z seq).
Proof. reflexivity. Qed.

Lemma inserted_row_timestamp now seq d : cell (inserted_row now seq d) "timestamp" = now.
Proof. reflexivity. Qed.

Lemma inserted_row_update_count now seq d :
  cell (inserted_row now seq d) "update_count" = JNum (of_Z 0).
Proof. reflexivity. Qed.

Lemma inserted_row_identifier now seq d :
  cell (inserted_row now seq d) "store_identifier" = sql_param (store_identifier d).
Proof. reflexivity. Qed.





Lemma update_values_eval now d cc :
  exists given,
    eval_sets now (update_params d cc) update_sets = inr given /\
    typed given = update_values now d cc.
Proof. eexists. split; reflexivity. Qed.

Lemma update_survey_exec now d cc db s :
  store_identifier d = JStr s ->
  exec_update now update_sets "store_identifier" 29 ["id"; "timestamp"]
              (update_params d cc) db
  = (inr (List.map (fun r => project (Some ["id"; "timestamp"])
                                     (assign (update_values now d cc) r))
                   (records_of s db)),
     {| surveys := List.map (fun r => if has_identifier s r
                                      then assign (update_values now d cc) r else r)
                            (surveys db);
        surveys_id_seq := surveys_id_seq db |}).
Proof.
  intros Hs. unfold exec_update.
  change (negb (all_columns (List.map fst update_sets) && is_column "store_identifier"
                && all_columns ["id"; "timestamp"])) with false.
  cbn iota. destruct (update_values_eval now d cc) as (given & -> & <-).
  change (param (update_params d cc) 29) with (@inr PgError _ (sql_param (store_identifier d))).
  rewrite Hs. reflexivity.
Qed.

(** ** The engine behind [pool.query] *)

Lemma pool_step_available st ps w :
  available w ->
  pool_step st ps w
  = ((exec (timestamp_of (now w)) st ps (db w)).1,
     {| db := (exec (timestamp_of (now w)) st ps (db w)).2;
        now := now w; faults := tl (faults w) |}).
Proof.
  intros Hav. unfold pool_step.
  destruct (exec (timestamp_of (now w)) st ps (db w)) as [r d'].
  destruct (faults w) as [|[e|] rest] eqn:E; try reflexivity.
  unfold available in Hav. rewrite E in Hav. inversion Hav; discriminate.
Qed.


Lemma pool_step_fault st ps w e rest :
  faults w = Some e :: rest ->
  pool_step st ps w = (inl e, {| db := db w; now := now w; faults := rest |}).
Proof. intros E. unfold pool_step. now rewrite E. Qed.

(** No statement but an insert or an update changes the table. *)
Lemma pool_step_select_db cols col p ps w :
  db (pool_step (SELECT_WHERE cols col p) ps w).2 = db w.
Proof.
  unfold pool_step. destruct (faults w) as [|[e|] rest]; reflexivity.
Qed.

End Engine.

(* ===================================================================== *)
(** * [saveSurvey], case by case                                          *)
(* ===================================================================== *)

Section SaveSurvey.

Lemma length_zero_empty (s : string) : (0 <? String.length s)%nat = false -> s = "".
Proof. destruct s; [reflexivity | discriminate]. Qed.

Lemma toTextOrNull_cases (v : JsVal) :
  toTextOrNull v = JNull \/ exists s, toTextOrNull v = JStr s /\ s <> "".
Proof.
  unfold toTextOrNull. destruct (is_null v); [now left|].
  destruct (0 <? String.length (trim (ToString v)))%nat eqn:E; [right | now left].
  exists (trim (ToString v)). split; [reflexivity|]. intros H. now rewrite H in E.
Qed.

Lemma toTextOrNull_JStr (v : JsVal) (s : string) : toTextOrNull v = JStr s -> s <> "".
Proof.
  intros H. destruct (toTextOrNull_cases v) as [E|[t [E Ht]]]; congruence.
Qed.

Lemma truthy_JStr (s : string) : s <> "" -> truthy (JStr s) = true.
Proof. intros H. cbn [truthy]. now destruct (String.eqb_spec s ""). Qed.

(** A submission without identifier is answered before any query. *)
Lemma saveSurvey_invalid (req : Request) (w : World) :
  submitted_identifier req = JNull ->
  run (saveSurvey req) w = (inr identifier_required, w).
Proof.
  intros H. unfold saveSurvey, submitted_identifier in *. cbv zeta.
  rewrite H. reflexivity.
Qed.

(** With an identifier: the check, then the insert or the update. *)
Lemma saveSurvey_run (req : Request) (s : string) (w : World) :
  submitted_identifier req = JStr s ->
  run (saveSurvey req) w =
    match pool_step select_id_update_count [JStr s] w with
    | (inl e, w1) => (inr (on_error e), w1)
    | (inr [], w1) =>
        let '(r2, w2) := pool_step insert_survey (insert_params (data_of req s)) w1 in
        (inr (write_response r2), w2)
    | (inr (row0 :: _), w1) =>
        if js_ge (cell row0 "update_count") (JNum (of_Z 3)) then (inr limit_reached, w1)
        else
          let '(r2, w2) :=
            pool_step update_survey
              (update_params (data_of req s) (cell row0 "update_count")) w1 in
          (inr (write_response r2), w2)
    end.
Proof.
  intros H. pose proof (toTextOrNull_JStr _ _ H) as Hs.
  unfold saveSurvey, submitted_identifier, data_of in *. cbv zeta.
  rewrite H, (truthy_JStr _ Hs).
  cbn [negb try_catch bind pool_query run].
  destruct (pool_step select_id_update_count [JStr s] w) as [[e|rows] w1].
  - cbn [try_catch bind run]. unfold on_error.
    destruct (code_is e "23505"); reflexivity.
  - destruct rows as [|row0 rest].
    + cbn [try_catch bind pool_query run].
      destruct (pool_step insert_survey _ w1) as [[e|result] w2].
      * cbn [try_catch bind run write_response]. unfold on_error.
        destruct (code_is e "23505"); reflexivity.
      * destruct result as [|x result]; reflexivity.
    + cbn [try_catch bind pool_query run].
      destruct (js_ge (cell row0 "update_count") (JNum (of_Z 3))); [reflexivity|].
      cbn [try_catch bind pool_query run].
      destruct (pool_step update_survey _ w1) as [[e|result] w2].
      * cbn [try_catch bind run write_response]. unfold on_error.
        destruct (code_is e "23505"); reflexivity.
      * destruct result as [|x result]; reflexivity.
Qed.

End SaveSurvey.

(* ===================================================================== *)
(** * Properties of the routes                                            *)
(* ===================================================================== *)

Lemma pool_step_cases st ps w :
  (exists e, next_fault w = Some e /\
             pool_step st ps w = (inl e, {| db := db w; now := now w; faults := tl (faults w) |}))
  \/ (next_fault w = None /\
      pool_step st ps w
      = ((exec (timestamp_of (now w)) st ps (db w)).1,
         {| db := (exec (timestamp_of (now w)) st ps (db w)).2;
            now := now w; faults := tl (faults w) |})).
Proof.
  unfold pool_step, next_fault.
  destruct (exec (timestamp_of (now w)) st ps (db w)) as [r d'].
  destruct (faults w) as [|[e|] rest]; [right | left; exists e | right]; now split.
Qed.

Lemma pool_step_next st ps w :
  next_fault w = None ->
  pool_step st ps w
  = ((exec (timestamp_of (now w)) st ps (db w)).1,
     {| db := (exec (timestamp_of (now w)) st ps (db w)).2;
        now := now w; faults := tl (faults w) |}).
Proof.
  intros H. destruct (pool_step_cases st ps w) as [[e [E _]]|[_ E]]; [congruence | exact E].
Qed.

Lemma available_next w : available w -> next_fault w = None.
Proof.
  unfold available, next_fault. intros H.
  destruct (faults w) as [|[e|] rest]; try reflexivity. inversion H; discriminate.
Qed.

Lemma submitted_identifier_cases (req : Request) :
  let identifier := get (js_or (req_body req) (JObj [])) "storeIdentifier" in
  ((is_null identifier = true \/ trim (ToString identifier) = "") /\
   submitted_identifier req = JNull)
  \/ (is_null identifier = false /\ trim (ToString identifier) <> "" /\
      submitted_identifier req = JStr (trim (ToString identifier))).
Proof.
  intros identifier. unfold submitted_identifier. fold identifier. unfold toTextOrNull.
  destruct (is_null identifier) eqn:En; [left; split; [now left | reflexivity]|].
  destruct (0 <? String.length (trim (ToString identifier)))%nat eqn:E.
  - right. repeat split. intros H. now rewrite H in E.
  - left. split; [right; now apply length_zero_empty | reflexivity].
Qed.

(** What a submission with an identifier can be answered. *)
Lemma saveSurvey_answers (req : Request) (s : string) (w : World) :
  submitted_identifier req = JStr s ->
  exists resp w', run (saveSurvey req) w = (inr resp, w') /\
    (resp = limit_reached \/ resp = identifier_exists \/ resp = database_error \/
     exists i t, resp = saved_response i t).
Proof.
  intros H. rewrite (saveSurvey_run _ _ _ H).
  assert (Herr : forall e, on_error e = limit_reached \/ on_error e = identifier_exists \/
                           on_error e = database_error \/
                           exists i t, on_error e = saved_response i t).
  { intros e. unfold on_error. destruct (code_is e "23505"); auto. }
  assert (Hwr : forall r, write_response r = limit_reached \/
                          write_response r = identifier_exists \/
                          write_response r = database_error \/
                          exists i t, write_response r = saved_response i t).
  { intros [e|[|x l]]; cbn [write_response]; eauto 6. }
  destruct (pool_step select_id_update_count [JStr s] w) as [[e|[|row0 rest]] w1].
  - eauto.
  - destruct (pool_step insert_survey _ w1) as [r2 w2]. eauto.
  - destruct (js_ge _ _); [eauto 6|].
    destruct (pool_step update_survey _ w1) as [r2 w2]. eauto.
Qed.

(** C3. A submission whose identifier is missing, or is empty once turned
    into a string and trimmed, is answered [ValidationError] (400) before
    any query is sent: the world is left as it was.  A submission whose
    trimmed identifier is not empty is never answered [ValidationError],
    whatever the storage engine does. *)
Theorem C3_identifier_validation (req : Request) (w : World) :
  let identifier := get (js_or (req_body req) (JObj [])) "storeIdentifier" in
  exists resp w',
    run (saveSurvey req) w = (inr resp, w') /\
    ((is_null identifier = true \/ trim (ToString identifier) = "") ->
       resp = identifier_required /\ error_kind resp = Some ValidationError /\ w' = w) /\
    (is_null identifier = false -> trim (ToString identifier) <> "" ->
       error_kind resp <> Some ValidationError).
Proof.
  intros identifier.
  destruct (submitted_identifier_cases req) as [[Hbad Hid]|[Hn [Ht Hid]]];
    fold identifier in Hbad || fold identifier in Hn, Ht.
  - exists identifier_required, w. split; [now apply saveSurvey_invalid|].
    split; [easy|]. intros Hn Ht. destruct Hbad; congruence.
  - destruct (saveSurvey_answers req _ w Hid) as (resp & w' & Hrun & Hresp).
    exists resp, w'. split; [exact Hrun|]. split.
    + intros [Hb|Hb]; congruence.
    + intros _ _. destruct Hresp as [->|[->|[->|(i & t & ->)]]]; discriminate.
Qed.

Lemma js_ge_of_Z (c k : Z) :
  0 <= c < 2 ^ 53 -> 0 <= k < 2 ^ 53 ->
  js_ge (JNum (of_Z c)) (JNum (of_Z k)) = (k <=? c).
Proof.
  intros Hc Hk. unfold js_ge. cbn [ToNumber]. rewrite SFcompare_of_Z by assumption.
  destruct (Z.compare_spec c k); symmetry; [apply Z.leb_le | apply Z.leb_gt | apply Z.leb_le]; lia.
Qed.

Lemma check_exec (s : string) (w : World) :
  next_fault w = None ->
  pool_step select_id_update_count [JStr s] w
  = (inr (List.map (project (Some ["id"; "update_count"])) (records_of s (db w))),
     {| db := db w; now := now w; faults := tl (faults w) |}).
Proof.
  intros H. rewrite (pool_step_next _ _ _ H). unfold select_id_update_count.
  cbn [exec fst snd]. now rewrite select_where_exec.
Qed.



Lemma saveSurvey_first_failure (req : Request) (s : string) (w : World) :
  submitted_identifier req = JStr s ->
  first_failure (saveSurvey req) w =
    match pool_step select_id_update_count [JStr s] w with
    | (inl e, _) => Some e
    | (inr [], w1) =>
        match pool_step insert_survey (insert_params (data_of req s)) w1 with
        | (inl e, _) => Some e
        | (inr _, _) => None
        end
    | (inr (row0 :: _), w1) =>
        if js_ge (cell row0 "update_count") (JNum (of_Z 3)) then None
        else
          match pool_step update_survey
                  (update_params (data_of req s) (cell row0 "update_count")) w1 with
          | (inl e, _) => Some e
          | (inr _, _) => None
          end
    end.
Proof.
  intros H. pose proof (toTextOrNull_JStr _ _ H) as Hs.
  unfold saveSurvey, submitted_identifier, data_of in *. cbv zeta.
  rewrite H, (truthy_JStr _ Hs).
  cbn [negb try_catch bind pool_query first_failure].
  destruct (pool_step select_id_update_count [JStr s] w) as [[e|rows] w1]; [reflexivity|].
  destruct rows as [|row0 rest]; cbn [try_catch bind pool_query first_failure].
  - destruct (pool_step insert_survey _ w1) as [[e|result] w2]; [reflexivity|].
    destruct result; reflexivity.
  - destruct (js_ge (cell row0 "update_count") (JNum (of_Z 3))); [reflexivity|].
    cbn [try_catch bind pool_query first_failure].
    destruct (pool_step update_survey _ w1) as [[e|result] w2]; [reflexivity|].
    destruct result; reflexivity.
Qed.

Lemma status_on_error (e : PgError) : status (on_error e) <> 200.
Proof. unfold on_error. destruct (code_is e "23505"); discriminate. Qed.

(** What the [catch] of [saveSurvey] answers, by the code of the error. *)
Lemma on_error_unique (e : PgError) :
  code e = Some "23505" -> on_error e = identifier_exists.
Proof. intros H. unfold on_error, code_is. now rewrite H. Qed.

Lemma on_error_other (e : PgError) :
  code e <> Some "23505" -> on_error e = database_error.
Proof.
  intros H. unfold on_error, code_is. destruct (code e) as [c|]; [|reflexivity].
  destruct (String.eqb_spec c "23505") as [->|Hne]; [now destruct H | reflexivity].
Qed.

Lemma saveSurvey_on_failure (req : Request) (w : World) (e : PgError) :
  first_failure (saveSurvey req) w = Some e ->
  exists w', run (saveSurvey req) w = (inr (on_error e), w').
Proof.
  intros Hfail.
  destruct (submitted_identifier_cases req) as [[_ Hid]|[_ [_ Hid]]].
  - exfalso. unfold saveSurvey, submitted_identifier in *. cbv zeta in Hfail.
    rewrite Hid in Hfail. discriminate.
  - rewrite (saveSurvey_first_failure _ _ _ Hid) in Hfail.
    rewrite (saveSurvey_run _ _ _ Hid).
    destruct (pool_step select_id_update_count _ w) as [[e1|[|row0 rest]] w1].
    + injection Hfail as ->. now eexists.
    + destruct (pool_step insert_survey _ w1) as [[e2|result] w2]; [|discriminate].
      injection Hfail as ->. now eexists.
    + destruct (js_ge _ _); [discriminate|].
      destruct (pool_step update_survey _ w1) as [[e2|result] w2]; [|discriminate].
      injection Hfail as ->. now eexists.
Qed.

(** C4. Whenever a query of a submission fails, the submission is answered
    with an error.  A failure whose code is 23505, the uniqueness
    violation of the engine, is answered [DuplicateIdentifier] (409,
    "Store identifier already exists"), not the generic error; a failure
    with any other code, or with none, is answered the opaque
    [StorageUnavailable] (500, "Database error").  No failure is answered
    as a success. *)
Theorem C4_storage_failures (req : Request) (w : World) (e : PgError) :
  first_failure (saveSurvey req) w = Some e ->
  exists resp w',
    run (saveSurvey req) w = (inr resp, w') /\
    (code e = Some "23505" ->
     resp = identifier_exists /\ status resp = 409 /\
     error_kind resp = Some DuplicateIdentifier) /\
    (code e <> Some "23505" ->
     resp = database_error /\ status resp = 500 /\
     error_kind resp = Some StorageUnavailable) /\
    status resp <> 200.
Proof.
  intros Hfail.
  destruct (saveSurvey_on_failure req w e Hfail) as (w' & Hrun).
  exists (on_error e), w'. split; [exact Hrun|].
  split; [|split].
  - intros Hc. rewrite (on_error_unique e Hc). now repeat split.
  - intros Hc. rewrite (on_error_other e Hc). now repeat split.
  - apply status_on_error.
Qed.

(* ===================================================================== *)
(** * Creation and bounded revision                                       *)
(* ===================================================================== *)

Section Revisions.

Lemma has_identifier_inserted now seq d s :
  store_identifier d = JStr s -> has_identifier s (inserted_row now seq d) = true.
Proof.
  intros H. unfold has_identifier. rewrite inserted_row_identifier, H.
  cbn [sql_param sql_eq]. apply String.eqb_refl.
Qed.

Lemma records_of_app s rows r n :
  records_of s {| surveys := rows ++ [r]; surveys_id_seq := n |}
  = (List.filter (has_identifier s) rows ++ (if has_identifier s r then [r] else []))%list.
Proof. unfold records_of. cbn [surveys]. now rewrite List.filter_app. Qed.


Lemma update_values_id now d cc : assigned "id" (update_values now d cc) = None.
Proof. reflexivity. Qed.

Lemma update_values_identifier now d cc :
  assigned "store_identifier" (update_values now d cc) = None.
Proof. reflexivity. Qed.

Lemma update_values_timestamp now d cc :
  assigned "timestamp" (update_values now d cc) = Some now.
Proof. reflexivity. Qed.

Lemma update_values_count now d cc :
  assigned "update_count" (update_values now d cc)
  = Some (stored INTEGER (sql_param (js_add cc (JNum (of_Z 1))))).
Proof. reflexivity. Qed.

Lemma has_identifier_assign now d cc s r :
  has_identifier s (assign (update_values now d cc) r) = has_identifier s r.
Proof. unfold has_identifier. now rewrite cell_assign, update_values_identifier. Qed.

Lemma records_of_updated now d cc s rows n :
  records_of s {| surveys := List.map (fun x => if has_identifier s x
                                                then assign (update_values now d cc) x
                                                else x) rows;
                  surveys_id_seq := n |}
  = List.map (assign (update_values now d cc)) (List.filter (has_identifier s) rows).
Proof.
  unfold records_of. cbn [surveys].
  induction rows as [|x rows IH]; [reflexivity|].
  cbn [List.map List.filter].
  destruct (has_identifier s x) eqn:E.
  - rewrite has_identifier_assign, E. cbn [List.map]. now rewrite IH.
  - now rewrite E.
Qed.


Lemma js_add_one (c : Z) :
  0 <= c < 3 -> js_add (JNum (of_Z c)) (JNum (of_Z 1)) = JNum (of_Z (c + 1)).
Proof.
  intros H. assert (E : c = 0 \/ c = 1 \/ c = 2) by lia.
  destruct E as [ -> | [ -> | -> ] ]; reflexivity.
Qed.

(** An [INTEGER] column keeps a count as it is. *)
Lemma stored_count (c : Z) :
  0 <= c <= 3 -> stored INTEGER (JNum (of_Z c)) = JNum (of_Z c).
Proof.
  intros H. assert (E : c = 0 \/ c = 1 \/ c = 2 \/ c = 3) by lia.
  destruct E as [ -> | [ -> | [ -> | -> ] ] ]; reflexivity.
Qed.

End Revisions.

Lemma Forall_tl {A : Type} (P : A -> Prop) (l : list A) : Forall P l -> Forall P (tl l).
Proof. intros H. destruct H; [constructor | assumption]. Qed.

Ltac solve_available :=
  match goal with
  | H : available ?w |- available _ =>
      unfold available in *; cbn [faults at_time] in *;
      repeat apply Forall_tl; exact H
  end.

Section Sessions.

Lemma available_at_time t w : available w -> available (at_time t w).
Proof. exact id. Qed.




End Sessions.

(* ===================================================================== *)
(** * The reads: status and fetch                                         *)
(* ===================================================================== *)

Section Reads.

Lemma select_exec (cols : option (list string)) (s : string) (w : World) :
  all_columns (default [] cols) = true ->
  next_fault w = None ->
  pool_step (SELECT_WHERE cols "store_identifier" 1) [JStr s] w
  = (inr (List.map (project cols) (records_of s (db w))),
     {| db := db w; now := now w; faults := tl (faults w) |}).
Proof.
  intros Hc H. rewrite (pool_step_next _ _ _ H). cbn [exec fst snd].
  unfold exec_select_where. rewrite Hc. reflexivity.
Qed.

(** C5. [status] never writes: the database after it is the database
    before it, whatever the engine answers.  When the engine answers, an
    identifier without record gives [{exists: false, update_count: 0}]
    with status 200, not an error, and an identifier with a record gives
    [{exists: true}] with the update count stored in that record. *)
Theorem C5_status_pure_read (req : Request) (w : World) :
  req_params_identifier req <> "" ->
  exists resp w',
    run (survey_status req) w = (inr resp, w') /\
    db w' = db w /\
    (next_fault w = None ->
     match records_of (req_params_identifier req) (db w) with
     | [] => resp = json (JObj [("exists", JBool false); ("update_count", JNum (of_Z 0))])
     | r :: _ => resp = json (JObj [("exists", JBool true);
                                    ("update_count", cell r "update_count")])
     end).
Proof.
  intros Hs. unfold survey_status. cbv zeta. rewrite (truthy_JStr _ Hs).
  cbn [negb try_catch bind pool_query run].
  destruct (pool_step_cases select_update_count [JStr (req_params_identifier req)] w)
    as [(e & He & ->)|[Hn E]].
  - eexists _, _. split; [reflexivity|]. split; [reflexivity|]. congruence.
  - unfold select_update_count in *. rewrite (select_exec (Some ["update_count"]) _ _ eq_refl Hn).
    destruct (records_of (req_params_identifier req) (db w)) as [|r rest];
      cbn [List.map try_catch bind run]; eexists _, _;
      (split; [reflexivity|]); (split; [reflexivity|]); intros _; [reflexivity|].
    now rewrite cell_project.
Qed.

Lemma survey_fetch_run (req : Request) (w : World) :
  req_params_identifier req <> "" ->
  next_fault w = None ->
  run (survey_fetch req) w
  = (inr match records_of (req_params_identifier req) (db w) with
         | [] => not_found
         | r :: _ => json (survey_data_response r)
         end,
     {| db := db w; now := now w; faults := tl (faults w) |}).
Proof.
  intros Hs Hn. unfold survey_fetch. cbv zeta. rewrite (truthy_JStr _ Hs).
  cbn [negb try_catch bind pool_query run].
  unfold select_survey. rewrite (select_exec None _ _ eq_refl Hn).
  destruct (records_of (req_params_identifier req) (db w)) as [|r rest]; reflexivity.
Qed.

(** The properties of the answer of [survey_fetch]: the identifier, then
    the metric fields under the names they have in a submission. *)
Lemma survey_data_response_fields (r : Row) :
  survey_data_response r
  = JObj (("storeIdentifier", cell r "store_identifier")
          :: List.map (fun f => (f.1.1, cell r f.1.2)) metric_fields).
Proof. reflexivity. Qed.


(** C9 (amended). For an identifier with a record, [survey_fetch] answers
    an object with exactly the identifier and the 25 metric fields of the
    record (no id, update count, timestamp, user agent or address); for an
    identifier without record it answers [NotFound] (404).  It never
    writes. *)
Theorem C9_fetch_metric_fields (req : Request) (w : World) :
  req_params_identifier req <> "" ->
  next_fault w = None ->
  exists resp w',
    run (survey_fetch req) w = (inr resp, w') /\
    db w' = db w /\
    match records_of (req_params_identifier req) (db w) with
    | [] => resp = not_found /\ error_kind resp = Some NotFound
    | r :: _ =>
        resp = json (JObj (("storeIdentifier", cell r "store_identifier")
                           :: List.map (fun f => (f.1.1, cell r f.1.2)) metric_fields))
    end.
Proof.
  intros Hs Hn. rewrite (survey_fetch_run _ _ Hs Hn).
  eexists _, _. split; [reflexivity|]. split; [reflexivity|].
  destruct (records_of _ _); [now split | reflexivity].
Qed.

End Reads.

(* ===================================================================== *)
(** * What a write stores                                                 *)
(* ===================================================================== *)

Section Writes.

Lemma normalize_cases (k : Kind) (v : JsVal) :
  normalize k v = JNull \/ (exists s, normalize k v = JStr s) \/ exists x, normalize k v = JNum x.
Proof.
  destruct k; cbn [normalize].
  - destruct (toTextOrNull_cases v) as [ -> | (s & -> & _) ]; eauto.
  - unfold toIntOrNull. destruct (_ || _); [now left|].
    destruct (Number_isFinite _); eauto.
  - unfold toFloatOrNull. destruct (_ || _); [now left|].
    destruct (Number_isFinite _); eauto.
Qed.

Lemma sql_param_normalize (k : Kind) (v : JsVal) : sql_param (normalize k v) = normalize k v.
Proof.
  destruct (normalize_cases k v) as [ -> | [ (s & ->) | (x & ->) ] ]; reflexivity.
Qed.

Lemma normalize_of_kind (k : Kind) (v : JsVal) : of_kind k (normalize k v).
Proof.
  destruct k; cbn [normalize].
  - destruct (toTextOrNull_cases v) as [ -> | (s & -> & _) ]; exact I.
  - unfold toIntOrNull. destruct (_ || _); [exact I|].
    destruct (Number_isFinite _); exact I.
  - unfold toFloatOrNull. destruct (_ || _); [exact I|].
    destruct (Number_isFinite _); exact I.
Qed.

(** An absent or empty field is [null] after normalization. *)
Lemma normalize_absent (k : Kind) (v : JsVal) :
  v = JUndefined \/ v = JNull \/ v = JStr "" -> normalize k v = JNull.
Proof. intros [ -> | [ -> | -> ] ]; destruct k; reflexivity. Qed.


(** The columns of the metric fields in the row an insert builds and in
    the values an update assigns: the fields of [data], in place. *)
Lemma inserted_cells now seq d :
  Forall (fun f => cell (inserted_row now seq d) f.1.2
                   = kept f.1.2 (sql_param (data_column d f.1.2)))
         metric_fields.
Proof. repeat constructor. Qed.

Lemma updated_cells now d cc r :
  Forall (fun f => cell (assign (update_values now d cc) r) f.1.2
                   = kept f.1.2 (sql_param (data_column d f.1.2)))
         metric_fields.
Proof. repeat constructor; cbn [fst snd]; rewrite cell_assign; reflexivity. Qed.

Lemma stored_null (ty : ColType) : stored ty JNull = JNull.
Proof. now destruct ty. Qed.

Lemma data_columns (req : Request) (s : string) :
  Forall (fun f => data_column (data_of req s) f.1.2
                   = normalize f.2 (get (js_or (req_body req) (JObj [])) f.1.1))
         metric_fields.
Proof. repeat constructor. Qed.

Lemma stored_cells (req : Request) (s : string) (r : Row) :
  Forall (fun f => cell r f.1.2 = kept f.1.2 (sql_param (data_column (data_of req s) f.1.2)))
         metric_fields ->
  Forall (fun f => cell r f.1.2
                   = kept f.1.2 (normalize f.2 (get (js_or (req_body req) (JObj [])) f.1.1)))
         metric_fields.
Proof.
  intros H. apply Forall_forall. intros f Hin.
  pose proof (proj1 (Forall_forall _ _) H f Hin) as H1.
  pose proof (proj1 (Forall_forall _ _) (data_columns req s) f Hin) as H3.
  cbv beta in *. now rewrite H1, H3, sql_param_normalize.
Qed.


End Writes.

Section RoundTrip.

Lemma pair_inr_inv {E A W : Type} (x y : A) (w w' : W) :
  (@inr E A x, w) = (inr y, w') -> x = y /\ w = w'.
Proof. intros H. inversion H. now split. Qed.

Lemma exec_insert_success now d db rows db' :
  exec_insert now insert_columns ["id"; "timestamp"] (insert_params d) db = (inr rows, db') ->
  surveys db' = (surveys db ++ [inserted_row now (surveys_id_seq db) d])%list.
Proof.
  unfold exec_insert.
  change (negb (all_columns insert_columns && all_columns ["id"; "timestamp"])) with false.
  change (negb (length (insert_params d) =? length insert_columns)%nat) with false.
  cbn iota. fold (inserted_row now (surveys_id_seq db) d).
  destruct (violates_not_null _); [discriminate|].
  destruct (violates_unique _ _); [discriminate|].
  intros H. apply pair_inr_inv in H as [_ <-]. reflexivity.
Qed.

Lemma has_identifier_cell (s : string) (r : Row) :
  has_identifier s r = true -> cell r "store_identifier" = JStr s.
Proof.
  unfold has_identifier, sql_eq. destruct (cell r "store_identifier"); try discriminate.
  intros H. f_equal. now apply String.eqb_eq.
Qed.

Lemma records_of_head (s : string) (d : Db) (r : Row) (rest : list Row) :
  records_of s d = r :: rest -> has_identifier s r = true.
Proof.
  unfold records_of. intros H.
  assert (Hin : In r (List.filter (has_identifier s) (surveys d))) by (rewrite H; now left).
  now apply List.filter_In in Hin.
Qed.

(** After an accepted submission the first record of the identifier holds
    the fields of [data]. *)
Lemma saveSurvey_stored (req : Request) (s : string) (w w1 : World) (resp : Response) :
  submitted_identifier req = JStr s ->
  run (saveSurvey req) w = (inr resp, w1) ->
  status resp = 200 ->
  exists r rest,
    records_of s (db w1) = r :: rest /\
    cell r "store_identifier" = JStr s /\
    Forall (fun f => cell r f.1.2 = kept f.1.2 (sql_param (data_column (data_of req s) f.1.2)))
           metric_fields.
Proof.
  intros Hid Hrun Hok. rewrite (saveSurvey_run _ _ _ Hid) in Hrun.
  destruct (pool_step_cases select_id_update_count [JStr s] w) as [(e & _ & E)|[Hn _]].
  { rewrite E in Hrun. apply pair_inr_inv in Hrun as [<- _]. now destruct (status_on_error e). }
  rewrite (check_exec _ _ Hn) in Hrun.
  destruct (records_of s (db w)) as [|r0 rest0] eqn:Hrec; cbn [List.map] in Hrun.
  - destruct (pool_step_cases insert_survey (insert_params (data_of req s))
                {| db := db w; now := now w; faults := tl (faults w) |})
      as [(e & _ & E)|[_ E]]; rewrite E in Hrun; clear E.
    { apply pair_inr_inv in Hrun as [<- _]. now destruct (status_on_error e). }
    cbn [db now faults exec insert_survey] in Hrun.
    destruct (exec_insert _ _ _ _ (db w)) as [[e|rows] d'] eqn:E; cbn [fst snd] in Hrun.
    { apply pair_inr_inv in Hrun as [<- _]. now destruct (status_on_error e). }
    apply exec_insert_success in E. apply pair_inr_inv in Hrun as [_ <-]. cbn [db].
    exists (inserted_row (timestamp_of (now w)) (surveys_id_seq (db w)) (data_of req s)), [].
    assert (Hhas := has_identifier_inserted (timestamp_of (now w)) (surveys_id_seq (db w))
                      (data_of req s) s eq_refl).
    split; [|split].
    + unfold records_of in *. rewrite E, List.filter_app, Hrec. cbn [List.filter app].
      now rewrite Hhas.
    + now apply has_identifier_cell.
    + apply inserted_cells.
  - rewrite cell_project in Hrun by reflexivity.
    destruct (js_ge (cell r0 "update_count") (JNum (of_Z 3))).
    { apply pair_inr_inv in Hrun as [<- _]. discriminate. }
    destruct (pool_step_cases update_survey
                (update_params (data_of req s) (cell r0 "update_count"))
                {| db := db w; now := now w; faults := tl (faults w) |})
      as [(e & _ & E)|[_ E]]; rewrite E in Hrun; clear E.
    { apply pair_inr_inv in Hrun as [<- _]. now destruct (status_on_error e). }
    cbn [db now faults exec update_survey] in Hrun.
    rewrite (update_survey_exec _ _ _ _ s) in Hrun by reflexivity.
    cbn [fst snd] in Hrun. apply pair_inr_inv in Hrun as [_ <-]. cbn [db].
    rewrite records_of_updated. fold (records_of s (db w)). rewrite Hrec. cbn [List.map].
    eexists _, _. split; [reflexivity|]. split.
    + apply has_identifier_cell. rewrite has_identifier_assign.
      now apply (records_of_head s (db w) r0 rest0).
    + apply updated_cells.
Qed.


End RoundTrip.

(* ===================================================================== *)
(** * Listing and export                                                  *)
(* ===================================================================== *)

Section Listing.

Lemma in_order_total o a b : id_before o a b = false -> in_order o b a.
Proof.
  unfold in_order, id_before. destruct o; intros H; apply Z.leb_gt in H; apply Z.leb_le; lia.
Qed.

Lemma in_order_trans o a b c : in_order o a b -> in_order o b c -> in_order o a c.
Proof.
  unfold in_order, id_before. destruct o; intros H1 H2;
    apply Z.leb_le in H1; apply Z.leb_le in H2; apply Z.leb_le; lia.
Qed.

Lemma insert_sorted_Forall o x r l :
  in_order o x r -> Forall (in_order o x) l -> Forall (in_order o x) (insert_sorted o r l).
Proof.
  intros Hr Hl. induction l as [|y l IH]; cbn [insert_sorted].
  - now repeat constructor.
  - destruct (id_before o r y).
    + now constructor.
    + inversion Hl; subst. constructor; [assumption|]. now apply IH.
Qed.

Lemma insert_sorted_sorted o r l :
  StronglySorted (in_order o) l -> StronglySorted (in_order o) (insert_sorted o r l).
Proof.
  induction 1 as [|x l Hl IH Hx]; cbn [insert_sorted].
  - repeat constructor.
  - destruct (id_before o r x) eqn:E.
    + constructor; [now constructor|]. constructor; [exact E|].
      eapply Forall_impl; [exact Hx|]. intros y Hy. now apply (in_order_trans o r x y).
    + constructor; [exact IH|]. apply insert_sorted_Forall; [|exact Hx].
      now apply in_order_total.
Qed.

Lemma order_by_id_sorted o l : StronglySorted (in_order o) (order_by_id o l).
Proof.
  unfold order_by_id. induction l as [|r l IH]; cbn [foldr]; [constructor|].
  now apply insert_sorted_sorted.
Qed.

Lemma insert_sorted_perm o r l : Permutation (insert_sorted o r l) (r :: l).
Proof.
  induction l as [|x l IH]; cbn [insert_sorted]; [reflexivity|].
  destruct (id_before o r x); [reflexivity|].
  rewrite IH. apply perm_swap.
Qed.

Lemma order_by_id_perm o l : Permutation (order_by_id o l) l.
Proof.
  unfold order_by_id. induction l as [|r l IH]; cbn [foldr]; [reflexivity|].
  rewrite insert_sorted_perm. now constructor.
Qed.

Lemma sorted_weaken {A : Type} (R S : A -> A -> Prop) (l : list A) :
  (forall a b, R a b -> S a b) -> StronglySorted R l -> StronglySorted S l.
Proof.
  intros H. induction 1 as [|x l Hl IH Hx]; constructor; [exact IH|].
  eapply Forall_impl; [exact Hx|]. intros y. apply H.
Qed.

Lemma sorted_skipn {A : Type} (R : A -> A -> Prop) (k : nat) (l : list A) :
  StronglySorted R l -> StronglySorted R (List.skipn k l).
Proof.
  revert l. induction k as [|k IH]; intros l H; [exact H|].
  destruct H; [constructor|]. cbn [List.skipn]. now apply IH.
Qed.

Lemma sorted_firstn {A : Type} (R : A -> A -> Prop) (n : nat) (l : list A) :
  StronglySorted R l -> StronglySorted R (List.firstn n l).
Proof.
  revert l. induction n as [|n IH]; intros l H; [constructor|].
  destruct H as [|x l Hl Hx]; [constructor|]. cbn [List.firstn].
  constructor; [now apply IH|].
  clear -Hx. revert n. induction Hx as [|y l Hy _ IHx]; intros n.
  - destruct n; constructor.
  - destruct n; cbn [List.firstn]; constructor; [exact Hy | apply IHx].
Qed.

(** The bounds the handler puts on its two parameters. *)
Lemma list_limit_bound (req : Request) : SFcompare (list_limit req) (of_Z 1000) <> Some Gt.
Proof.
  unfold list_limit, Math_min.
  set (x := parseInt _ _).
  destruct (SFcompare x (of_Z 1000)) as [[| |]|] eqn:E; try (rewrite E; discriminate);
    try discriminate.
  destruct x as [[|]| | |]; try (rewrite E; discriminate); discriminate.
Qed.

Lemma list_offset_bound (req : Request) : SFcompare (list_offset req) (of_Z 0) <> Some Lt.
Proof.
  unfold list_offset, Math_max.
  set (x := parseInt _ _).
  destruct (SFcompare x (of_Z 0)) as [[| |]|] eqn:E; try (rewrite E; discriminate);
    try discriminate.
  destruct x as [[|]| | |]; try (rewrite E; discriminate); discriminate.
Qed.

Lemma Math_min_of_Z (n k : Z) :
  0 <= n < 2 ^ 53 -> 0 < k < 2 ^ 53 -> Math_min (of_Z n) (of_Z k) = of_Z (Z.min n k).
Proof.
  intros Hn Hk. unfold Math_min. rewrite SFcompare_of_Z by lia.
  destruct (Z.compare_spec n k) as [E|E|E].
  - subst n. rewrite Z.min_id. destruct k as [|p|p]; try lia.
    rewrite of_Z_pos by lia. reflexivity.
  - now rewrite Z.min_l by lia.
  - now rewrite Z.min_r by lia.
Qed.

Lemma Math_max_negative (k : Z) :
  0 < k < 2 ^ 53 -> Math_max (SFopp (of_Z k)) (of_Z 0) = of_Z 0.
Proof.
  intros Hk. destruct k as [|p|p]; try lia. rewrite of_Z_pos by lia. reflexivity.
Qed.

Lemma Math_max_of_Z (n : Z) :
  0 <= n < 2 ^ 53 -> Math_max (of_Z n) (of_Z 0) = of_Z n.
Proof.
  intros Hn. destruct n as [|p|p]; try lia; [reflexivity|].
  rewrite of_Z_pos by lia. reflexivity.
Qed.

Lemma surveys_list_run (req : Request) (w : World) (n k : nat) :
  available w ->
  row_count invalid_row_count_in_limit_clause (JNum (list_limit req)) = inr n ->
  row_count invalid_row_count_in_result_offset_clause (JNum (list_offset req)) = inr k ->
  let result := List.firstn n (List.skipn k (order_by_id DESC (surveys (db w)))) in
  run (surveys_list req) w
  = (inr (json (JObj [("rows", JArr (List.map row_object result));
                      ("limit", JNum (list_limit req));
                      ("offset", JNum (list_offset req));
                      ("total", JNum (parseInt (JStr (pretty (Z.of_nat (length (surveys (db w))))))
                                               None));
                      ("count", JNum (of_Z (Z.of_nat (length result))))])),
     {| db := db w; now := now w; faults := tl (tl (faults w)) |}).
Proof.
  intros Hav Hn Hk result. unfold surveys_list. cbv zeta.
  cbn [try_catch bind pool_query run].
  rewrite (pool_step_next _ _ _ (available_next _ Hav)).
  unfold select_surveys_page. cbn [exec fst snd]. unfold exec_select_page.
  cbn [param lookup list_lookup sql_param]. rewrite Hn, Hk.
  cbn [try_catch bind pool_query run].
  rewrite pool_step_next by (apply available_next; solve_available).
  reflexivity.
Qed.

Lemma export_csv_run (req : Request) (w : World) :
  available w ->
  run (export_csv req) w
  = (inr {| status := 200;
            body := Send (String.concat newline
                            (String.concat "," export_header
                             :: List.map export_line (order_by_id ASC (surveys (db w))))) |},
     {| db := db w; now := now w; faults := tl (faults w) |}).
Proof.
  intros Hav. unfold export_csv. cbn [try_catch bind pool_query run].
  rewrite (pool_step_next _ _ _ (available_next _ Hav)). reflexivity.
Qed.

(** C7. The limit the list runs with is never above 1000 and the offset
    never below 0; a limit that reads as an integer [n] becomes
    [min n 1000] and an offset that reads as a negative integer becomes 0
    (so [limit = 1000+, offset = -1] runs with 1000 and 0).  The rows
    answered are a window of the table sorted by descending id, and the
    export writes all the rows of the table sorted by ascending id. *)
Theorem C7_list_clamps_and_orders (req : Request) (w : World) :
  let limit := parseInt (js_or (get (req_query req) "limit") (JStr "100")) (Some 10) in
  let offset := parseInt (js_or (get (req_query req) "offset") (JStr "0")) (Some 10) in
  (SFcompare (list_limit req) (of_Z 1000) <> Some Gt /\
   SFcompare (list_offset req) (of_Z 0) <> Some Lt) /\
  (forall n, 0 <= n < 2 ^ 53 -> limit = of_Z n -> list_limit req = of_Z (Z.min n 1000)) /\
  (forall k, 0 < k < 2 ^ 53 -> offset = SFopp (of_Z k) -> list_offset req = of_Z 0) /\
  (forall k, 0 <= k < 2 ^ 53 -> offset = of_Z k -> list_offset req = of_Z k) /\
  (available w ->
   forall n k,
     row_count invalid_row_count_in_limit_clause (JNum (list_limit req)) = inr n ->
     row_count invalid_row_count_in_result_offset_clause (JNum (list_offset req)) = inr k ->
     exists resp w' rows,
       run (surveys_list req) w = (inr resp, w') /\
       status resp = 200 /\
       get (json_of resp) "rows" = JArr (List.map row_object rows) /\
       get (json_of resp) "limit" = JNum (list_limit req) /\
       get (json_of resp) "offset" = JNum (list_offset req) /\
       rows = List.firstn n (List.skipn k (order_by_id DESC (surveys (db w)))) /\
       Permutation (order_by_id DESC (surveys (db w))) (surveys (db w)) /\
       StronglySorted (fun a b => row_id b <= row_id a) rows) /\
  (available w ->
   exists w' rows,
     run (export_csv req) w
     = (inr {| status := 200;
               body := Send (String.concat newline
                               (String.concat "," export_header
                                :: List.map export_line rows)) |}, w') /\
     Permutation rows (surveys (db w)) /\
     StronglySorted (fun a b => row_id a <= row_id b) rows).
Proof.
  intros limit offset.
  split; [split; [apply list_limit_bound | apply list_offset_bound]|].
  split; [intros n Hn E; unfold list_limit; fold limit; rewrite E;
          now apply Math_min_of_Z|].
  split; [intros k Hk E; unfold list_offset; fold offset; rewrite E;
          now apply Math_max_negative|].
  split; [intros k Hk E; unfold list_offset; fold offset; rewrite E;
          now apply Math_max_of_Z|].
  split.
  - intros Hav n k Hn Hk. rewrite (surveys_list_run req w n k Hav Hn Hk).
    eexists _, _, _. repeat split.
    + apply order_by_id_perm.
    + apply sorted_firstn, sorted_skipn.
      eapply sorted_weaken; [|apply (order_by_id_sorted DESC)].
      intros a b H. now apply Z.leb_le in H.
  - intros Hav. rewrite (export_csv_run req w Hav).
    eexists _, _. split; [reflexivity|]. split; [apply order_by_id_perm|].
    eapply sorted_weaken; [|apply (order_by_id_sorted ASC)].
    intros a b H. now apply Z.leb_le in H.
Qed.

End Listing.

(* ===================================================================== *)
(** * Normalization of the metric values                                  *)
(* ===================================================================== *)

Section Normalization.

Lemma double_mantissa_bound (s : bool) (m : positive) (e : Z) :
  is_double (S754_finite s m e) -> Zpos m < 2 ^ 53.
Proof.
  unfold is_double, valid_binary, bounded, canonical_mantissa, fexp, emin, prec, emax.
  intros H. apply andb_true_iff in H as [H _]. apply Z.eqb_eq in H.
  rewrite digits2_pos_size in H.
  pose proof (size_bounds m) as [_ Hhi].
  assert (Zpos (Pos.size m) <= 53) by lia.
  assert (2 ^ Zpos (Pos.size m) <= 2 ^ 53) by (apply Z.pow_le_mono_r; lia). lia.
Qed.

Lemma integer_of_normal (s : bool) (p : positive) :
  Zpos p < 2 ^ 53 ->
  integer_of (S754_finite s (normal_mantissa p) (normal_exponent p))
  = Some (cond_Zopp s (Zpos p)).
Proof.
  intros Hp. pose proof (integer_of_of_Z (Zpos p)) as H.
  rewrite of_Z_pos in H by lia. specialize (H ltac:(lia)).
  unfold integer_of in *.
  destruct (0 <=? normal_exponent p).
  - injection H as H. cbn [cond_Zopp] in H. now rewrite H.
  - destruct (_ =? 0); [|discriminate]. injection H as H. cbn [cond_Zopp] in H. now rewrite H.
Qed.

Lemma integer_of_normalize (s : bool) (n : Z) :
  - 2 ^ 53 < n < 2 ^ 53 -> integer_of (binary_normalize prec emax n 0 s) = Some n.
Proof.
  intros Hn. destruct n as [|p|p]; cbn [binary_normalize].
  - reflexivity.
  - rewrite binary_round_exact by lia. now rewrite integer_of_normal by lia.
  - rewrite binary_round_exact by lia. now rewrite integer_of_normal by lia.
Qed.






End Normalization.

(* ===================================================================== *)
(** * The properties on the worked scenario                               *)
(* ===================================================================== *)



Lemma C4_witness :
  (first_failure (saveSurvey first_submission) world_conflict = Some unique_violation /\
   first_failure (saveSurvey first_submission) world_down = Some cannot_connect_now) /\
  (exists w',
     run (saveSurvey first_submission) world_conflict = (inr identifier_exists, w') /\
     status identifier_exists = 409 /\
     error_kind identifier_exists = Some DuplicateIdentifier) /\
  (exists w',
     run (saveSurvey first_submission) world_down = (inr database_error, w') /\
     status database_error = 500 /\
     error_kind database_error = Some StorageUnavailable).
Proof.
  assert (H1 : first_failure (saveSurvey first_submission) world_conflict
               = Some unique_violation) by reflexivity.
  assert (H2 : first_failure (saveSurvey first_submission) world_down
               = Some cannot_connect_now) by reflexivity.
  split; [exact (conj H1 H2)|]. split.
  - destruct (C4_storage_failures first_submission world_conflict unique_violation H1)
      as (resp & w' & Hrun & Hunique & _).
    destruct (Hunique eq_refl) as (Hresp & Hstatus & Hkind).
    exists w'. rewrite <- Hresp. exact (conj Hrun (conj Hstatus Hkind)).
  - destruct (C4_storage_failures first_submission world_down cannot_connect_now H2)
      as (resp & w' & Hrun & _ & Hother & _).
    assert (Hcode : code cannot_connect_now <> Some "23505") by discriminate.
    destruct (Hother Hcode) as (Hresp & Hstatus & Hkind).
    exists w'. rewrite <- Hresp. exact (conj Hrun (conj Hstatus Hkind)).
Defined.

Lemma C5_witness :
  req_params_identifier revision <> "" /\
  exists resp w',
    run (survey_status revision) world_5 = (inr resp, w') /\
    db w' = db world_5 /\
    (next_fault world_5 = None ->
     match records_of (req_params_identifier revision) (db world_5) with
     | [] => resp = json (JObj [("exists", JBool false); ("update_count", JNum (of_Z 0))])
     | r :: _ => resp = json (JObj [("exists", JBool true);
                                    ("update_count", cell r "update_count")])
     end).
Proof.
  assert (H : req_params_identifier revision <> "") by discriminate.
  split; [exact H|].
  exact (C5_status_pure_read revision world_5 H).
Defined.




Lemma C9_witness :
  (req_params_identifier revision <> "" /\ next_fault world_1 = None) /\
  exists resp w',
    run (survey_fetch revision) world_1 = (inr resp, w') /\
    db w' = db world_1 /\
    match records_of (req_params_identifier revision) (db world_1) with
    | [] => resp = not_found /\ error_kind resp = Some NotFound
    | r :: _ =>
        resp = json (JObj (("storeIdentifier", cell r "store_identifier")
                           :: List.map (fun f => (f.1.1, cell r f.1.2)) metric_fields))
    end.
Proof.
  assert (H1 : req_params_identifier revision <> "") by discriminate.
  assert (H2 : next_fault world_1 = None) by reflexivity.
  split; [exact (conj H1 H2)|].
  exact (C9_fetch_metric_fields revision world_1 H1 H2).
Defined.

Lemma lookup_prop_In (key : string) (props : list (string * JsVal)) :
  lookup_prop key props = JUndefined \/ In (lookup_prop key props) (List.map snd props).
Proof.
  induction props as [|[k v] props IH]; [now left|].
  cbn [lookup_prop List.map snd]. destruct (String.eqb k key).
  - right. now left.
  - destruct IH as [IH|IH]; [now left | right; now right].
Qed.

(** C9, as stated, fails: the answer of a fetch of the record of ["S1"]
    (id 1) has no property holding that id. *)
Lemma C9_fetch_omits_record_fields : ~ fetch_full_record revision world_1.
Proof.
  intros H.
  destruct (H record_1 []) as (v & w' & Hrun & Hall); [reflexivity|].
  rewrite survey_fetch_run in Hrun; [|discriminate|reflexivity].
  replace (records_of (req_params_identifier revision) (db world_1))
    with [record_1] in Hrun by reflexivity.
  apply pair_inr_inv in Hrun as [Hv _].
  injection Hv as <-.
  inversion Hall as [|c l [key Hkey] _]; subst.
  unfold survey_data_response, get in Hkey.
  match type of Hkey with
  | lookup_prop key ?props = _ =>
      destruct (lookup_prop_In key props) as [Hu|Hin]; rewrite Hkey in *
  end.
  - vm_compute in Hu. discriminate Hu.
  - cbn [List.map snd In] in Hin.
    repeat (destruct Hin as [Hin|Hin]; [vm_compute in Hin; discriminate Hin|]).
    exact Hin.
Qed.


Lemma C3_witness :
  (trim (ToString (get (js_or (req_body blank_submission) (JObj [])) "storeIdentifier")) = ""
   /\ is_null (get (js_or (req_body revision) (JObj [])) "storeIdentifier") = false
   /\ trim (ToString (get (js_or (req_body revision) (JObj [])) "storeIdentifier")) <> "") /\
  (exists w', run (saveSurvey blank_submission) world_5 = (inr identifier_required, w')
              /\ w' = world_5) /\
  (exists resp w', run (saveSurvey revision) world_5 = (inr resp, w')
                   /\ error_kind resp <> Some ValidationError).
Proof.
  assert (H1 : trim (ToString (get (js_or (req_body blank_submission) (JObj []))
                                   "storeIdentifier")) = "") by reflexivity.
  assert (H2 : is_null (get (js_or (req_body revision) (JObj [])) "storeIdentifier") = false)
    by reflexivity.
  assert (H3 : trim (ToString (get (js_or (req_body revision) (JObj [])) "storeIdentifier"))
               <> "") by discriminate.
  split; [exact (conj H1 (conj H2 H3))|]. split.
  - destruct (C3_identifier_validation blank_submission world_5)
      as (resp & w' & Hrun & Hbad & _).
    destruct (Hbad (or_intror H1)) as (Hresp & _ & Hw).
    exists w'. rewrite <- Hresp. exact (conj Hrun Hw).
  - destruct (C3_identifier_validation revision world_5) as (resp & w' & Hrun & _ & Hgood).
    exists resp, w'. exact (conj Hrun (Hgood H2 H3)).
Defined.

Lemma C7_witness :
  (parseInt (js_or (get (req_query revision) "limit") (JStr "100")) (Some 10) = of_Z 5000 /\
   parseInt (js_or (get (req_query revision) "offset") (JStr "0")) (Some 10) = SFopp (of_Z 1) /\
   available world_5 /\
   row_count invalid_row_count_in_limit_clause (JNum (list_limit revision)) = inr 1000%nat /\
   row_count invalid_row_count_in_result_offset_clause (JNum (list_offset revision))
   = inr 0%nat) /\
  list_limit revision = of_Z 1000 /\
  list_offset revision = of_Z 0 /\
  (exists resp w' rows,
     run (surveys_list revision) world_5 = (inr resp, w') /\
     status resp = 200 /\
     get (json_of resp) "rows" = JArr (List.map row_object rows) /\
     get (json_of resp) "limit" = JNum (list_limit revision) /\
     get (json_of resp) "offset" = JNum (list_offset revision) /\
     rows = List.firstn 1000 (List.skipn 0 (order_by_id DESC (surveys (db world_5)))) /\
     Permutation (order_by_id DESC (surveys (db world_5))) (surveys (db world_5)) /\
     StronglySorted (fun a b => row_id b <= row_id a) rows) /\
  (exists w' rows,
     run (export_csv revision) world_5
     = (inr {| status := 200;
               body := Send (String.concat newline
                               (String.concat "," export_header
                                :: List.map export_line rows)) |}, w') /\
     Permutation rows (surveys (db world_5)) /\
     StronglySorted (fun a b => row_id a <= row_id b) rows).
Proof.
  assert (H1 : parseInt (js_or (get (req_query revision) "limit") (JStr "100")) (Some 10)
               = of_Z 5000) by reflexivity.
  assert (H2 : parseInt (js_or (get (req_query revision) "offset") (JStr "0")) (Some 10)
               = SFopp (of_Z 1)) by reflexivity.
  assert (H3 : available world_5) by constructor.
  assert (H4 : row_count invalid_row_count_in_limit_clause (JNum (list_limit revision))
               = inr 1000%nat) by reflexivity.
  assert (H5 : row_count invalid_row_count_in_result_offset_clause
                 (JNum (list_offset revision)) = inr 0%nat) by reflexivity.
  split; [exact (conj H1 (conj H2 (conj H3 (conj H4 H5))))|].
  destruct (C7_list_clamps_and_orders revision world_5)
    as (_ & Hmin & Hneg & _ & Hlist & Hexport).
  split; [apply (Hmin 5000); [split; [lia | reflexivity] | exact H1]|].
  split; [apply (Hneg 1); [split; reflexivity | exact H2]|].
  split; [exact (Hlist H3 1000%nat 0%nat H4 H5) | exact (Hexport H3)].
Defined.

(* ===================================================================== *)
(** * Two first submissions racing                                        *)
(* ===================================================================== *)


(* ===================================================================== *)
(** * Reachable tables                                                    *)
(* ===================================================================== *)

Section Reachable.

Lemma wf_db_empty : wf_db empty_db.
Proof. split; [split; reflexivity | constructor]. Qed.

Lemma wf_db_seq (rows : list Row) (n : Z) :
  wf_db {| surveys := rows; surveys_id_seq := n |} -> n + 1 < 2 ^ 53 ->
  wf_db {| surveys := rows; surveys_id_seq := n + 1 |}.
Proof.
  intros [Hn Hrows] Hlt. split; cbn [surveys surveys_id_seq] in *; [lia|].
  eapply Forall_impl; [exact Hrows|]. intros r (i & Hi & Hlti). exists i. split; [exact Hi | lia].
Qed.

Lemma exec_insert_survey_wf now d db :
  wf_db db -> surveys_id_seq db + 1 < 2 ^ 53 ->
  wf_db (exec_insert now insert_columns ["id"; "timestamp"] (insert_params d) db).2.
Proof.
  intros Hwf Hlt. unfold exec_insert.
  change (negb (all_columns insert_columns && all_columns ["id"; "timestamp"])) with false.
  change (negb (length (insert_params d) =? length insert_columns)%nat) with false.
  cbn iota. fold (inserted_row now (surveys_id_seq db) d).
  change (uses_nextval insert_columns) with true. cbn iota.
  assert (Hseq : wf_db {| surveys := surveys db; surveys_id_seq := surveys_id_seq db + 1 |})
    by (apply wf_db_seq; [now destruct db | exact Hlt]).
  destruct (violates_not_null _); [exact Hseq|].
  destruct (violates_unique _ _); [exact Hseq|].
  cbn [snd]. destruct Hseq as [Hn Hrows]. split; [exact Hn|].
  cbn [surveys surveys_id_seq] in *. apply Forall_app. split; [exact Hrows|].
  constructor; [|constructor]. exists (surveys_id_seq db).
  split; [apply inserted_row_id | destruct Hwf; lia].
Qed.

Lemma exec_update_survey_wf now d cc db :
  wf_db db ->
  wf_db (exec_update now update_sets "store_identifier" 29 ["id"; "timestamp"]
                     (update_params d cc) db).2.
Proof.
  intros [Hn Hrows]. unfold exec_update.
  change (negb (all_columns (List.map fst update_sets) && is_column "store_identifier"
                && all_columns ["id"; "timestamp"])) with false.
  cbn iota. destruct (update_values_eval now d cc) as (given & -> & Hgiven).
  change (param (update_params d cc) 29) with (@inr PgError _ (sql_param (store_identifier d))).
  cbn zeta. rewrite Hgiven.
  cbn [snd]. split; [exact Hn|]. cbn [surveys surveys_id_seq].
  induction Hrows as [|r rows (i & Hi & Hlt) _ IH]; cbn [List.map]; constructor; [|exact IH].
  exists i. split; [|exact Hlt].
  destruct (sql_eq _ _); [|exact Hi].
  now rewrite cell_assign, update_values_id.
Qed.

(** Whatever the engine does, a submission leaves a reachable table
    reachable (as long as the sequence has not run out). *)
Theorem saveSurvey_preserves_wf (req : Request) (w : World) :
  wf_db (db w) -> surveys_id_seq (db w) + 1 < 2 ^ 53 ->
  wf_db (db (run (saveSurvey req) w).2).
Proof.
  intros Hwf Hlt.
  destruct (submitted_identifier_cases req) as [[_ Hid]|[_ [_ Hid]]].
  { now rewrite (saveSurvey_invalid _ _ Hid). }
  rewrite (saveSurvey_run _ _ _ Hid).
  set (s := trim (ToString (get (js_or (req_body req) (JObj [])) "storeIdentifier"))) in *.
  assert (Hstep : forall st ps w0, db w0 = db w ->
            (forall now0, wf_db (exec now0 st ps (db w)).2) ->
            wf_db (db (pool_step st ps w0).2)).
  { intros st ps w0 Hdb Hex.
    destruct (pool_step_cases st ps w0) as [(e & _ & ->)|[_ ->]]; cbn [snd db].
    - now rewrite Hdb.
    - rewrite Hdb. apply Hex. }
  pose proof (pool_step_select_db (Some ["id"; "update_count"]) "store_identifier" 1
                [JStr s] w) as Hdb.
  fold select_id_update_count in Hdb.
  destruct (pool_step select_id_update_count _ w) as [[e|[|row0 rest]] w1];
    cbn [snd] in Hdb |- *; try (now rewrite Hdb).
  - specialize (Hstep insert_survey (insert_params (data_of req s)) w1 Hdb).
    destruct (pool_step insert_survey _ w1) as [r2 w2]. cbn [snd] in *.
    apply Hstep. intros now0. now apply exec_insert_survey_wf.
  - destruct (js_ge _ _); cbn [snd]; [now rewrite Hdb|].
    specialize (Hstep update_survey
                  (update_params (data_of req s) (cell row0 "update_count")) w1 Hdb).
    destruct (pool_step update_survey _ w1) as [r2 w2]. cbn [snd] in *.
    apply Hstep. intros now0. now apply exec_update_survey_wf.
Qed.

End Reachable.

(* ===================================================================== *)
(** * The runtime on examples                                             *)
(* ===================================================================== *)

Example Number_of_decimal_strings :
  List.map (fun s => Number_toString (StringToNumber s))
           ["0.1"; "1e21"; "5e-324"; "1.7976931348623157e308"; "0.000001"; "1e-7";
            "  42  "; "0x1F"; "abc"; ""; "12px"; "1e400"; "9007199254740993"]
  = ["0.1"; "1e+21"; "5e-324"; "1.7976931348623157e+308"; "0.000001"; "1e-7";
     "42"; "31"; "NaN"; "0"; "NaN"; "Infinity"; "9007199254740992"].
Proof. vm_compute. reflexivity. Qed.

Example Math_round_half_way :
  List.map (fun s => Number_toString (Math_round (StringToNumber s)))
           ["2.5"; "-2.5"; "12.5"; "0.49999999999999994"; "-0.4"; "7"]
  = ["3"; "-2"; "13"; "0"; "0"; "7"].
Proof. vm_compute. reflexivity. Qed.

Example toIntOrNull_examples :
  List.map toIntOrNull [JUndefined; JNull; JStr ""; JStr "12.5"; JStr "n/a"; JNum (of_Z 0);
                        JStr "1e999"; JBool true]
  = [JNull; JNull; JNull; JNum (of_Z 13); JNull; JNum (of_Z 0); JNull; JNum (of_Z 1)].
Proof. vm_compute. reflexivity. Qed.

(** A blank string is not the empty string: as a number it is 0. *)
Example toIntOrNull_blank : toIntOrNull (JStr "  ") = JNum (of_Z 0).
Proof. vm_compute. reflexivity. Qed.

Example toTextOrNull_examples :
  List.map toTextOrNull [JUndefined; JNull; JStr "   "; JStr " S1 "; JNum (of_Z 12345);
                         JArr []; JBool false]
  = [JNull; JNull; JNull; JStr "S1"; JStr "12345"; JNull; JStr "false"].
Proof. vm_compute. reflexivity. Qed.

Example parseInt_examples :
  List.map (fun s => Number_toString (parseInt (JStr s) (Some 10)))
           ["100"; " -5x"; "abc"; "1e3"; "0x10"; ""]
  = ["100"; "-5"; "NaN"; "1"; "0"; "NaN"].
Proof. vm_compute. reflexivity. Qed.

(** The column list of the export is the column list of the table. *)
Example export_header_is_schema : export_header = column_names.
Proof. reflexivity. Qed.

(** The scenario: one creation, three accepted revisions, one refusal. *)
Example scenario_statuses :
  List.map (option_map status) (session saveSurvey revisions world_1).1
  = [Some 200; Some 200; Some 200; Some 403].
Proof. vm_compute. reflexivity. Qed.

Example scenario_count : cell record_5 "update_count" = JNum (of_Z 3).
Proof. reflexivity. Qed.

(** The revenue is a [BIGINT]: it is read back as a string; the seats
    (sent as ["12.5"]) are an [INTEGER], the food cost (sent as ["n/a"])
    is [null], and the rating is a [REAL]. *)
Example scenario_revenue :
  cell record_1 "monthly_revenue" = JStr "50000" /\
  cell record_5 "monthly_revenue" = JStr "52000" /\
  cell record_1 "seats" = JNum (of_Z 13) /\
  cell record_1 "food_cost" = JNull /\
  cell record_1 "average_rating" = JNum (StringToNumber "4.5") /\
  cell record_1 "store_name" = JStr "Noodle Bar" /\
  cell record_5 "store_name" = JNull.
Proof. repeat split; reflexivity. Qed.

(** What comes back from a [REAL] column: the number as single precision
    holds it. *)
Example real_value_examples :
  List.map (fun s => Number_toString (real_value (StringToNumber s)))
           ["4.5"; "0.1"; "4.37"; "0.123456789"; "3.14159265358979"; "16777217";
            "123456789012"; "-2.675"; "0"]
  = ["4.5"; "0.1"; "4.37"; "0.12345679"; "3.1415927"; "16777216";
     "123456790000"; "-2.675"; "0"].
Proof. vm_compute. reflexivity. Qed.

(** What the columns keep of the values [saveSurvey] sends. *)
Example stored_examples :
  stored BIGINT (JNum (of_Z 50000)) = JStr "50000" /\
  stored BIGINT (JNum (SFopp (of_Z 0))) = JStr "0" /\
  stored INTEGER (JNum (of_Z 13)) = JNum (of_Z 13) /\
  stored INTEGER (JNum (SFopp (of_Z 0))) = JNum (of_Z 0) /\
  stored TEXT (JStr "Noodle Bar") = JStr "Noodle Bar" /\
  stored REAL JNull = JNull.
Proof. repeat split; reflexivity. Qed.

(* ===================================================================== *)
(** * What every run keeps                                                *)
(* ===================================================================== *)

Section Keeping.

Context (Inv : Db -> Prop)
        (Q : Statement -> list JsVal -> Prop)
        (R : Statement -> list Row -> Prop).

Hypothesis exec_keeps :
  forall now st ps d, Inv d -> Q st ps -> Inv (exec now st ps d).2.

Hypothesis exec_answers :
  forall now st ps d rows,
    Inv d -> Q st ps -> (exec now st ps d).1 = inr rows -> R st rows.

Lemma pool_step_keeps st ps w :
  Inv (db w) -> Q st ps ->
  Inv (db (pool_step st ps w).2) /\
  forall rows, (pool_step st ps w).1 = inr rows -> R st rows.
Proof.
  intros HI HQ.
  destruct (pool_step_cases st ps w) as [(e & _ & ->)|[_ ->]]; cbn [fst snd db].
  - split; [exact HI | discriminate].
  - split; [now apply exec_keeps | intros rows; now apply exec_answers].
Qed.

Lemma sends_only_inv {A : Type} (p : Prog A) :
  sends_only Q R p ->
  match p with
  | Await st ps k =>
      Q st ps /\ (forall e, sends_only Q R (k (inl e))) /\
      (forall rows, R st rows -> sends_only Q R (k (inr rows)))
  | _ => True
  end.
Proof. intros H. destruct H; auto. Qed.

Lemma sends_only_step {A : Type} st ps (k : PgError + list Row -> Prog A) w :
  sends_only Q R (Await st ps k) -> Inv (db w) ->
  sends_only Q R (k (pool_step st ps w).1) /\ Inv (db (pool_step st ps w).2).
Proof.
  intros Hp HI. destruct (sends_only_inv _ Hp) as (HQ & He & Hr).
  destruct (pool_step_keeps st ps w HI HQ) as [HI' Hrows].
  split; [|exact HI'].
  destruct (pool_step st ps w).1 as [e|rows]; [apply He | apply Hr, Hrows; reflexivity].
Qed.

Lemma run_keeps {A : Type} (p : Prog A) :
  sends_only Q R p -> forall w, Inv (db w) -> Inv (db (run p w).2).
Proof.
  induction p as [a|e|st ps k IH]; intros Hp w HI; cbn [run snd]; try exact HI.
  destruct (sends_only_step st ps k w Hp HI) as [Hk HI'].
  destruct (pool_step st ps w) as [r w1]. cbn [fst snd] in *. now apply IH.
Qed.

Lemma run2_keeps {A B : Type} (sched : list bool) :
  forall (p : Prog A) (q : Prog B) w,
    sends_only Q R p -> sends_only Q R q -> Inv (db w) ->
    Inv (db (run2 sched p q w).2).
Proof.
  induction sched as [|[|] sched IH]; intros p q w Hp Hq HI; cbn [run2].
  - pose proof (run_keeps p Hp w HI) as H1.
    destruct (run p w) as [a w1]. cbn [snd] in H1.
    pose proof (run_keeps q Hq w1 H1) as H2.
    destruct (run q w1) as [b w2]. exact H2.
  - destruct p as [a|e|st ps k]; try now apply IH.
    destruct (sends_only_step st ps k w Hp HI) as [Hk HI'].
    destruct (pool_step st ps w) as [r w1]. cbn [fst snd] in *. now apply IH.
  - destruct q as [a|e|st ps k]; try now apply IH.
    destruct (sends_only_step st ps k w Hq HI) as [Hk HI'].
    destruct (pool_step st ps w) as [r w1]. cbn [fst snd] in *. now apply IH.
Qed.

Lemma session_keeps (h : Request -> Prog Response) (reqs : list (Z * Request)) :
  (forall req, sends_only Q R (h req)) ->
  forall w, Inv (db w) -> Inv (db (session h reqs w).2).
Proof.
  intros Hh. induction reqs as [|[t req] reqs IH]; intros w HI; cbn [session snd]; [exact HI|].
  unfold handle.
  pose proof (run_keeps (h req) (Hh req) (at_time t w) HI) as H1.
  destruct (run (h req) (at_time t w)) as [[e|r] w1]; cbn [snd] in H1;
    specialize (IH w1 H1); destruct (session h reqs w1) as [rs w2]; exact IH.
Qed.

Lemma finish_keeps {A : Type} (ps : list (Prog A)) :
  Forall (sends_only Q R) ps -> forall w, Inv (db w) -> Inv (db (finish ps w).2).
Proof.
  induction 1 as [|p ps Hp _ IH]; intros w HI; cbn [finish snd]; [exact HI|].
  pose proof (run_keeps p Hp w HI) as H1.
  destruct (run p w) as [a w1]. cbn [snd] in H1. specialize (IH w1 H1).
  destruct (finish ps w1) as [rs w2]. exact IH.
Qed.

Lemma run_all_keeps {A : Type} (sched : list nat) :
  forall (ps : list (Prog A)) w,
    Forall (sends_only Q R) ps -> Inv (db w) -> Inv (db (run_all sched ps w).2).
Proof.
  induction sched as [|i sched IH]; intros ps w Hps HI; cbn [run_all].
  - now apply finish_keeps.
  - destruct (ps !! i) as [p|] eqn:Hi; [|now apply IH].
    destruct p as [a|e|st params k]; try now apply IH.
    assert (Hp : sends_only Q R (Await st params k)).
    { rewrite Forall_forall in Hps. apply Hps. eapply list_elem_of_lookup_2, Hi. }
    destruct (sends_only_step st params k w Hp HI) as [Hk HI'].
    destruct (pool_step st params w) as [r w1]. cbn [fst snd] in *.
    apply IH; [|exact HI']. now apply Forall_insert.
Qed.

End Keeping.

(** ** [trim] *)

Section Trim.

Lemma trim_end_cons (c : ascii) (r : string) :
  trim_end (String c r)
  = match trim_end r with
    | EmptyString => if is_whitespace c then EmptyString else String c EmptyString
    | r' => String c r'
    end.
Proof. reflexivity. Qed.

Lemma trim_end_idem (s : string) : trim_end (trim_end s) = trim_end s.
Proof.
  induction s as [|c r IH]; [reflexivity|].
  rewrite trim_end_cons. destruct (trim_end r) as [|d t] eqn:E.
  - destruct (is_whitespace c) eqn:W; [reflexivity|]. cbn [trim_end]. now rewrite W.
  - rewrite trim_end_cons, IH. reflexivity.
Qed.

Lemma trim_end_head (c : ascii) (r : string) :
  is_whitespace c = false -> exists t, trim_end (String c r) = String c t.
Proof.
  intros W. rewrite trim_end_cons. destruct (trim_end r) as [|d t].
  - rewrite W. now exists "".
  - now exists (String d t).
Qed.

Lemma trim_start_head (s : string) :
  trim_start s = "" \/ exists c r, trim_start s = String c r /\ is_whitespace c = false.
Proof.
  induction s as [|c r IH]; [now left|].
  cbn [trim_start]. destruct (is_whitespace c) eqn:W; [exact IH|].
  right. now exists c, r.
Qed.

Lemma trim_idem (s : string) : trim (trim s) = trim s.
Proof.
  unfold trim. destruct (trim_start_head s) as [->|(c & r & -> & W)]; [reflexivity|].
  destruct (trim_end_head c r W) as [t E].
  rewrite E. cbn [trim_start]. rewrite W, <- E. apply trim_end_idem.
Qed.

Lemma toTextOrNull_trimmed (v : JsVal) (s : string) :
  toTextOrNull v = JStr s -> trimmed (JStr s).
Proof.
  intros H. exists s. split; [reflexivity|]. split; [exact (toTextOrNull_JStr _ _ H)|].
  unfold toTextOrNull in H. destruct (is_null v); [discriminate|].
  destruct (0 <? String.length (trim (ToString v)))%nat; [|discriminate].
  injection H as <-. apply trim_idem.
Qed.

End Trim.

(** ** What the routes send *)

Section Sending.

Context (Q : Statement -> list JsVal -> Prop) (R : Statement -> list Row -> Prop).

Lemma sends_only_try_catch {A : Type} (p : Prog A) (h : PgError -> Prog A) :
  sends_only Q R p -> (forall e, sends_only Q R (h e)) -> sends_only Q R (try_catch p h).
Proof.
  intros Hp Hh. induction Hp as [a|e|st ps k HQ He IHe Hr IHr]; cbn [try_catch].
  - constructor.
  - apply Hh.
  - constructor; assumption.
Qed.

Lemma sends_only_query {A : Type} st ps (f : list Row -> Prog A) :
  Q st ps -> (forall rows, R st rows -> sends_only Q R (f rows)) ->
  sends_only Q R (bind (pool_query st ps) f).
Proof.
  intros HQ Hf. cbn [pool_query bind]. constructor; [exact HQ| |].
  - intros e. constructor.
  - intros rows Hrows. cbn [bind]. now apply Hf.
Qed.

Lemma sends_only_saved (result : list Row) : sends_only Q R (saved result).
Proof. destruct result; cbn; constructor. Qed.

End Sending.

Section Routes.

Context (P : JsVal -> Prop).

Lemma saveSurvey_sends (req : Request) :
  sends_only (server_query P) (check_rows P) (saveSurvey req).
Proof.
  unfold saveSurvey. cbv zeta.
  apply sends_only_try_catch; [|intros e; destruct (code_is e "23505"); constructor].
  destruct (toTextOrNull_cases (get (js_or (req_body req) (JObj [])) "storeIdentifier"))
    as [Hid|(s & Hid & Hs)]; rewrite Hid; [constructor|].
  rewrite (truthy_JStr _ Hs). cbn [negb].
  apply sends_only_query; [constructor; exact I|].
  intros rows Hrows. specialize (Hrows eq_refl).
  destruct rows as [|row0 rest].
  - apply sends_only_query; [|intros; apply sends_only_saved].
    apply query_insert. cbn [store_identifier survey_data].
    exact (toTextOrNull_trimmed _ _ Hid).
  - destruct (js_ge _ _) eqn:Hge; [constructor|].
    apply sends_only_query; [|intros; apply sends_only_saved].
    apply (query_update _ _ _ s); [reflexivity | now inversion Hrows | exact Hge].
Qed.

Lemma survey_status_sends (req : Request) :
  sends_only (server_query P) (check_rows P) (survey_status req).
Proof.
  unfold survey_status. cbv zeta.
  apply sends_only_try_catch; [|intros e; constructor].
  destruct (negb _); [constructor|].
  apply sends_only_query; [constructor; exact I|].
  intros [|r rows] _; constructor.
Qed.

Lemma survey_fetch_sends (req : Request) :
  sends_only (server_query P) (check_rows P) (survey_fetch req).
Proof.
  unfold survey_fetch. cbv zeta.
  apply sends_only_try_catch; [|intros e; constructor].
  destruct (negb _); [constructor|].
  apply sends_only_query; [constructor; exact I|].
  intros [|r rows] _; constructor.
Qed.

Lemma surveys_list_sends (req : Request) :
  sends_only (server_query P) (check_rows P) (surveys_list req).
Proof.
  unfold surveys_list. cbv zeta.
  apply sends_only_try_catch; [|intros e; constructor].
  apply sends_only_query; [constructor; exact I|]. intros result _.
  apply sends_only_query; [constructor; exact I|]. intros [|c rest] _; cbn; constructor.
Qed.

Lemma export_csv_sends (req : Request) :
  sends_only (server_query P) (check_rows P) (export_csv req).
Proof.
  unfold export_csv.
  apply sends_only_try_catch; [|intros e; constructor].
  apply sends_only_query; [constructor; exact I|]. intros result _. constructor.
Qed.

Lemma requireAdmin_sends env key req (next : Prog Response) :
  sends_only (server_query P) (check_rows P) next ->
  sends_only (server_query P) (check_rows P) (requireAdmin env key req next).
Proof.
  intros H. unfold requireAdmin. cbv zeta.
  destruct (negb _); [constructor|]. destruct (negb _); [constructor | exact H].
Qed.

Lemma router_sends env (i : Incoming) :
  sends_only (server_query P) (check_rows P) (router env i).
Proof.
  unfold router. destruct (route i).
  - apply survey_status_sends.
  - apply survey_fetch_sends.
  - apply saveSurvey_sends.
  - apply requireAdmin_sends, surveys_list_sends.
  - apply requireAdmin_sends, export_csv_sends.
  - constructor.
Qed.

End Routes.

(** ** What the statements of the routes do to the table *)

Section Statements.

Lemma exec_select_db now st ps d : is_select st -> (exec now st ps d).2 = d.
Proof. destruct st; cbn [is_select exec snd]; intros H; (reflexivity || destruct H). Qed.

Lemma exec_insert_survey_cases now d db :
  let r := inserted_row now (surveys_id_seq db) d in
  let out := exec_insert now insert_columns ["id"; "timestamp"] (insert_params d) db in
  (exists e, out.1 = inl e /\ surveys out.2 = surveys db) \/
  (out = (inr [project (Some ["id"; "timestamp"]) r],
          {| surveys := surveys db ++ [r]; surveys_id_seq := surveys_id_seq db + 1 |}) /\
   violates_unique (surveys db) r = false).
Proof.
  cbv zeta. unfold exec_insert.
  change (negb (all_columns insert_columns && all_columns ["id"; "timestamp"])) with false.
  change (negb (length (insert_params d) =? length insert_columns)%nat) with false.
  cbn iota. fold (inserted_row now (surveys_id_seq db) d).
  change (uses_nextval insert_columns) with true. cbn iota.
  destruct (violates_not_null _); [left; eexists; split; reflexivity|].
  destruct (violates_unique _ _); [left; eexists; split; reflexivity|].
  right. split; reflexivity.
Qed.

Lemma existsb_false_filter {A : Type} (f : A -> bool) (l : list A) :
  existsb f l = false -> List.filter f l = [].
Proof.
  induction l as [|x l IH]; [reflexivity|]. cbn [existsb List.filter].
  destruct (f x); [discriminate|]. exact IH.
Qed.

Lemma filter_map_same {A : Type} (f : A -> bool) (g : A -> A) (l : list A) :
  (forall x, f (g x) = f x) ->
  List.filter f (List.map g l) = List.map g (List.filter f l).
Proof.
  intros H. induction l as [|x l IH]; [reflexivity|].
  cbn [List.map List.filter]. rewrite H. destruct (f x); cbn [List.map]; now rewrite IH.
Qed.

(** An update of the rows of one identifier, seen from any identifier. *)
Lemma records_of_update now d cc s s' rows n :
  records_of s' {| surveys := List.map (fun x => if has_identifier s x
                                                 then assign (update_values now d cc) x
                                                 else x) rows;
                   surveys_id_seq := n |}
  = List.map (fun x => if has_identifier s x
                       then assign (update_values now d cc) x else x)
             (List.filter (has_identifier s') rows).
Proof.
  unfold records_of. cbn [surveys]. apply filter_map_same.
  intros x. destruct (has_identifier s x); [apply has_identifier_assign | reflexivity].
Qed.

Lemma unique_identifiers_exec (P : JsVal -> Prop) now st ps d :
  unique_identifiers d -> server_query P st ps -> unique_identifiers (exec now st ps d).2.
Proof.
  intros HI HQ. destruct HQ as [st ps Hsel|data Htrim|data cc s Hid _ _].
  - now rewrite exec_select_db.
  - unfold insert_survey. cbn [exec].
    destruct (exec_insert_survey_cases now data d) as [(e & _ & Hrows)|[-> Huniq]].
    + intros s. unfold records_of. rewrite Hrows. apply HI.
    + cbn [snd]. intros s. rewrite records_of_app.
      destruct (has_identifier s _) eqn:Hhas; [|rewrite app_nil_r; apply HI].
      rewrite violates_unique_spec in Huniq. apply orb_false_elim in Huniq as [_ Huniq].
      rewrite (has_identifier_cell _ _ Hhas) in Huniq.
      fold (has_identifier s) in Huniq.
      now rewrite (existsb_false_filter _ _ Huniq).
  - unfold update_survey. cbn [exec].
    rewrite (update_survey_exec _ _ _ _ s Hid). cbn [snd].
    intros s'. rewrite records_of_update, length_map. apply HI.
Qed.

Lemma identifiers_trimmed_exec (P : JsVal -> Prop) now st ps d :
  identifiers_trimmed d -> server_query P st ps -> identifiers_trimmed (exec now st ps d).2.
Proof.
  intros HI HQ. destruct HQ as [st ps Hsel|data Htrim|data cc s Hid _ _].
  - now rewrite exec_select_db.
  - unfold insert_survey. cbn [exec].
    destruct (exec_insert_survey_cases now data d) as [(e & _ & Hrows)|[-> _]].
    + unfold identifiers_trimmed. now rewrite Hrows.
    + cbn [snd]. unfold identifiers_trimmed. cbn [surveys].
      apply Forall_app. split; [exact HI|]. constructor; [|constructor].
      rewrite inserted_row_identifier. destruct Htrim as (s & -> & Hs). now exists s.
  - unfold update_survey. cbn [exec].
    rewrite (update_survey_exec _ _ _ _ s Hid). cbn [snd].
    unfold identifiers_trimmed in *. cbn [surveys].
    induction HI as [|r rows Hr _ IH]; cbn [List.map]; constructor; [|exact IH].
    destruct (has_identifier s r); [|exact Hr].
    now rewrite cell_assign, update_values_identifier.
Qed.

Lemma capped_below (cc : JsVal) :
  capped cc -> js_ge cc (JNum (of_Z 3)) = false ->
  capped (stored INTEGER (sql_param (js_add cc (JNum (of_Z 1))))).
Proof.
  intros (c & -> & Hc) Hge. rewrite js_ge_of_Z in Hge by (split; (lia || reflexivity)).
  apply Z.leb_gt in Hge. rewrite js_add_one by lia.
  cbn [sql_param]. rewrite stored_count by lia.
  exists (c + 1). split; [reflexivity | lia].
Qed.

Lemma counts_capped_exec now st ps d :
  counts_capped d -> server_query capped st ps -> counts_capped (exec now st ps d).2.
Proof.
  intros HI HQ. destruct HQ as [st ps Hsel|data Htrim|data cc s Hid Hcc Hge].
  - now rewrite exec_select_db.
  - unfold insert_survey. cbn [exec].
    destruct (exec_insert_survey_cases now data d) as [(e & _ & Hrows)|[-> _]].
    + unfold counts_capped. now rewrite Hrows.
    + cbn [snd]. unfold counts_capped. cbn [surveys].
      apply Forall_app. split; [exact HI|]. constructor; [|constructor].
      rewrite inserted_row_update_count. exists 0. split; [reflexivity | lia].
  - unfold update_survey. cbn [exec].
    rewrite (update_survey_exec _ _ _ _ s Hid). cbn [snd].
    unfold counts_capped in *. cbn [surveys].
    induction HI as [|r rows Hr _ IH]; cbn [List.map]; constructor; [|exact IH].
    destruct (has_identifier s r); [|exact Hr].
    rewrite cell_assign, update_values_count. now apply capped_below.
Qed.

Lemma Forall_map_filter {A B : Type} (P : B -> Prop) (g : A -> B) (f : A -> bool)
    (l : list A) :
  Forall (fun x => P (g x)) l -> Forall P (List.map g (List.filter f l)).
Proof.
  induction 1 as [|x l Hx _ IH]; [constructor|].
  cbn [List.filter]. destruct (f x); [constructor|]; assumption.
Qed.

Lemma counts_capped_answers now st ps d rows :
  counts_capped d -> (exec now st ps d).1 = inr rows -> check_rows capped st rows.
Proof.
  intros HI Hex ->. unfold select_id_update_count in Hex. cbn [exec fst] in Hex.
  unfold exec_select_where in Hex.
  destruct (negb _); [discriminate|]. destruct (param ps 1) as [e|key]; [discriminate|].
  injection Hex as <-. apply Forall_map_filter.
  eapply Forall_impl; [exact HI|]. intros r Hr.
  now rewrite cell_project by reflexivity.
Qed.

End Statements.

(** ** The outcomes of a submission *)

Section Outcomes.

Lemma map_no_hit {A : Type} (f : A -> bool) (g : A -> A) (l : list A) :
  List.filter f l = [] -> List.map (fun x => if f x then g x else x) l = l.
Proof.
  induction l as [|x l IH]; [reflexivity|]. cbn [List.filter List.map].
  destruct (f x); [discriminate|]. intros H. now rewrite IH.
Qed.

(** A submission with an identifier either leaves the rows of the table
    as they were and answers something else than 200, or inserts the row
    of a new identifier, or rewrites the rows of a known one below the
    cap. *)
Lemma saveSurvey_outcomes (req : Request) (s : string) (w : World) :
  submitted_identifier req = JStr s ->
  exists resp w',
    run (saveSurvey req) w = (inr resp, w') /\ now w' = now w /\
    ((status resp <> 200 /\ surveys (db w') = surveys (db w)) \/
     (records_of s (db w) = [] /\
      resp = saved_response (JNum (of_Z (surveys_id_seq (db w)))) (timestamp_of (now w)) /\
      surveys (db w')
      = (surveys (db w)
         ++ [inserted_row (timestamp_of (now w)) (surveys_id_seq (db w)) (data_of req s)])%list) \/
     (exists r rest,
        records_of s (db w) = r :: rest /\
        js_ge (cell r "update_count") (JNum (of_Z 3)) = false /\
        resp = saved_response (cell r "id") (timestamp_of (now w)) /\
        surveys (db w')
        = List.map (fun x => if has_identifier s x
                             then assign (update_values (timestamp_of (now w))
                                            (data_of req s) (cell r "update_count")) x
                             else x) (surveys (db w)))).
Proof.
  intros Hid. rewrite (saveSurvey_run _ _ _ Hid).
  destruct (pool_step_cases select_id_update_count [JStr s] w) as [(e & _ & ->)|[Hnf _]].
  { eexists _, _. split; [reflexivity|]. split; [reflexivity|]. left.
    split; [apply status_on_error | reflexivity]. }
  rewrite (check_exec _ _ Hnf).
  set (w1 := {| db := db w; now := now w; faults := tl (faults w) |}).
  destruct (records_of s (db w)) as [|r rest] eqn:Hrec; cbn [List.map].
  - destruct (pool_step_cases insert_survey (insert_params (data_of req s)) w1)
      as [(e & _ & ->)|[_ ->]].
    { eexists _, _. split; [reflexivity|]. split; [reflexivity|]. left.
      split; [apply status_on_error | reflexivity]. }
    unfold insert_survey. cbn [exec db now w1].
    destruct (exec_insert_survey_cases (timestamp_of (now w)) (data_of req s) (db w))
      as [(e & He & Hrows)|[-> _]].
    + destruct (exec_insert _ _ _ _ _) as [out d']. cbn [fst snd] in *. subst out.
      eexists _, _. split; [reflexivity|]. split; [reflexivity|]. left.
      split; [apply status_on_error | exact Hrows].
    + cbn [fst snd write_response]. rewrite !cell_project by reflexivity.
      rewrite inserted_row_id, inserted_row_timestamp.
      eexists _, _. split; [reflexivity|]. split; [reflexivity|]. right. left.
      cbn [db surveys]. split; [reflexivity|]. split; reflexivity.
  - rewrite cell_project by reflexivity.
    destruct (js_ge (cell r "update_count") (JNum (of_Z 3))) eqn:Hge.
    { eexists _, _. split; [reflexivity|]. split; [reflexivity|]. left.
      split; [discriminate | reflexivity]. }
    destruct (pool_step_cases update_survey
                (update_params (data_of req s) (cell r "update_count")) w1)
      as [(e & _ & ->)|[_ ->]].
    { eexists _, _. split; [reflexivity|]. split; [reflexivity|]. left.
      split; [apply status_on_error | reflexivity]. }
    unfold update_survey. cbn [exec db now w1].
    rewrite (update_survey_exec _ _ _ _ s) by reflexivity.
    cbn [fst snd]. rewrite Hrec. cbn [List.map write_response].
    rewrite !cell_project by reflexivity.
    rewrite !cell_assign, update_values_id, update_values_timestamp.
    eexists _, _. split; [reflexivity|]. split; [reflexivity|]. right. right.
    exists r, rest. cbn [db surveys].
    split; [reflexivity|]. split; [exact Hge|]. split; reflexivity.
Qed.

End Outcomes.

Section Isolation.

Lemma has_identifier_same (s s' : string) (r : Row) :
  has_identifier s r = true -> has_identifier s' r = true -> s = s'.
Proof.
  intros H H'. apply has_identifier_cell in H, H'. congruence.
Qed.

Lemma map_other_identifier (s s' : string) (g : Row -> Row) (rows : list Row) :
  s' <> s ->
  List.map (fun x => if has_identifier s x then g x else x)
           (List.filter (has_identifier s') rows)
  = List.filter (has_identifier s') rows.
Proof.
  intros Hne. induction rows as [|x rows IH]; [reflexivity|].
  cbn [List.filter]. destruct (has_identifier s' x) eqn:H'; [|exact IH].
  cbn [List.map]. rewrite IH.
  destruct (has_identifier s x) eqn:H; [|reflexivity].
  destruct Hne. symmetry. eapply has_identifier_same; eassumption.
Qed.

End Isolation.

(** X3. A submission answered anything but 200 has written nothing: the
    rows of the table are the rows before it. *)
Theorem saveSurvey_writes_only_on_success (req : Request) (w : World) :
  exists resp w',
    run (saveSurvey req) w = (inr resp, w') /\
    (status resp <> 200 -> surveys (db w') = surveys (db w)).
Proof.
  destruct (submitted_identifier_cases req) as [[_ Hid]|[_ [_ Hid]]].
  { exists identifier_required, w. now rewrite (saveSurvey_invalid _ _ Hid). }
  destruct (saveSurvey_outcomes req _ w Hid) as (resp & w' & Hrun & _ & Hcases).
  exists resp, w'. split; [exact Hrun|]. intros Hst.
  destruct Hcases as [[_ H]|[(_ & -> & _)|(r & rest & _ & _ & -> & _)]];
    [exact H | destruct Hst; reflexivity | destruct Hst; reflexivity].
Qed.

(** X4. A submission touches the records of its own identifier only: the
    records of every other identifier are after it what they were before,
    whatever the engine does. *)
Theorem saveSurvey_leaves_other_identifiers (req : Request) (s' : string) (w : World) :
  submitted_identifier req <> JStr s' ->
  records_of s' (db (run (saveSurvey req) w).2) = records_of s' (db w).
Proof.
  intros Hne.
  destruct (submitted_identifier_cases req) as [[_ Hid]|[_ [_ Hid]]].
  { now rewrite (saveSurvey_invalid _ _ Hid). }
  set (s := trim (ToString (get (js_or (req_body req) (JObj [])) "storeIdentifier"))) in *.
  assert (Hs : s' <> s) by (intros ->; now apply Hne).
  destruct (saveSurvey_outcomes req s w Hid) as (resp & w' & -> & _ & Hcases).
  cbn [snd]. unfold records_of at 1.
  destruct Hcases as [[_ ->]|[(_ & _ & ->)|(r & rest & _ & _ & _ & ->)]].
  - reflexivity.
  - rewrite List.filter_app. cbn [List.filter].
    destruct (has_identifier s' (inserted_row _ _ _)) eqn:H; [|apply app_nil_r].
    destruct Hs. symmetry. eapply has_identifier_same; [|exact H].
    now apply has_identifier_inserted.
  - pose proof (records_of_update (timestamp_of (now w)) (data_of req s)
                  (cell r "update_count") s s' (surveys (db w)) 0) as H.
    unfold records_of in H. cbn [surveys] in H. rewrite H.
    now apply map_other_identifier.
Qed.

Section Metadata.






End Metadata.


Section Concurrency.

Lemma router_all_send (P : JsVal -> Prop) env (reqs : list Incoming) :
  Forall (sends_only (server_query P) (check_rows P)) (List.map (router env) reqs).
Proof. apply Forall_map, Forall_forall. intros i _. apply router_sends. Qed.

End Concurrency.

(** X7. No two records ever carry the same identifier: whatever requests
    are in flight on whatever routes, and in whatever order the engine
    answers their queries (failing some or not), a table with at most one
    record per identifier is left with at most one record per
    identifier. *)
Theorem identifiers_stay_unique
    (env : Env) (sched : list nat) (reqs : list Incoming) (w : World) :
  unique_identifiers (db w) ->
  unique_identifiers (db (run_all sched (List.map (router env) reqs) w).2).
Proof.
  intros HI.
  apply (run_all_keeps unique_identifiers (server_query (fun _ => True))
           (check_rows (fun _ => True))).
  - intros now0 st ps d. apply unique_identifiers_exec.
  - intros now0 st ps d rows _ _ _ _. apply Forall_forall. intros; exact I.
  - apply router_all_send.
  - exact HI.
Qed.

(** X8. The stored update count never leaves 0..3, even when submissions
    for one identifier race: every update writes the count it read plus
    one, and it is only sent when the count read is below 3. *)
Theorem counts_stay_capped
    (env : Env) (sched : list nat) (reqs : list Incoming) (w : World) :
  counts_capped (db w) ->
  counts_capped (db (run_all sched (List.map (router env) reqs) w).2).
Proof.
  intros HI.
  apply (run_all_keeps counts_capped (server_query capped) (check_rows capped)).
  - intros now0 st ps d. apply counts_capped_exec.
  - intros now0 st ps d rows Hd _. now apply counts_capped_answers.
  - apply router_all_send.
  - exact HI.
Qed.


(** ** The reads *)

Section ReadRoutes.

Lemma pool_step_select st ps w : is_select st -> db (pool_step st ps w).2 = db w.
Proof.
  intros H. destruct (pool_step_cases st ps w) as [(e & _ & ->)|[_ ->]]; cbn [snd db];
    [reflexivity | now apply exec_select_db].
Qed.

Lemma survey_status_answers (req : Request) (w : World) :
  exists resp w',
    run (survey_status req) w = (inr resp, w') /\ db w' = db w /\
    (forall e, first_failure (survey_status req) w = Some e -> resp = database_error).
Proof.
  unfold survey_status. cbv zeta.
  destruct (negb _).
  { eexists _, _. split; [reflexivity|]. split; [reflexivity|]. discriminate. }
  cbn [try_catch bind pool_query run first_failure].
  pose proof (pool_step_select select_update_count [JStr (req_params_identifier req)] w I) as Hdb.
  destruct (pool_step _ _ w) as [[e|rows] w1]; cbn [snd] in Hdb.
  - eexists _, _. split; [reflexivity|]. split; [exact Hdb|]. reflexivity.
  - destruct rows; cbn [try_catch bind run first_failure];
      eexists _, _; (split; [reflexivity|]); (split; [exact Hdb|]); discriminate.
Qed.

Lemma survey_fetch_answers (req : Request) (w : World) :
  exists resp w',
    run (survey_fetch req) w = (inr resp, w') /\ db w' = db w /\
    (forall e, first_failure (survey_fetch req) w = Some e -> resp = database_error).
Proof.
  unfold survey_fetch. cbv zeta.
  destruct (negb _).
  { eexists _, _. split; [reflexivity|]. split; [reflexivity|]. discriminate. }
  cbn [try_catch bind pool_query run first_failure].
  pose proof (pool_step_select select_survey [JStr (req_params_identifier req)] w I) as Hdb.
  destruct (pool_step _ _ w) as [[e|rows] w1]; cbn [snd] in Hdb.
  - eexists _, _. split; [reflexivity|]. split; [exact Hdb|]. reflexivity.
  - destruct rows; cbn [try_catch bind run first_failure];
      eexists _, _; (split; [reflexivity|]); (split; [exact Hdb|]); discriminate.
Qed.

Lemma surveys_list_answers (req : Request) (w : World) :
  exists resp w',
    run (surveys_list req) w = (inr resp, w') /\ db w' = db w /\
    (forall e, first_failure (surveys_list req) w = Some e -> resp = database_error).
Proof.
  unfold surveys_list. cbv zeta.
  cbn [try_catch bind pool_query run first_failure].
  pose proof (pool_step_select select_surveys_page
                [JNum (list_limit req); JNum (list_offset req)] w I) as Hdb.
  destruct (pool_step _ _ w) as [[e|rows] w1]; cbn [snd] in Hdb.
  { eexists _, _. split; [reflexivity|]. split; [exact Hdb|]. reflexivity. }
  cbn [try_catch bind pool_query run first_failure].
  pose proof (pool_step_select SELECT_COUNT [] w1 I) as Hdb1.
  destruct (pool_step _ _ w1) as [[e|[|c rest]] w2]; cbn [snd] in Hdb1;
    cbn [try_catch bind run first_failure first_row];
    eexists _, _; (split; [reflexivity|]); (split; [congruence|]);
    (reflexivity || discriminate).
Qed.

Lemma export_csv_answers (req : Request) (w : World) :
  exists resp w',
    run (export_csv req) w = (inr resp, w') /\ db w' = db w /\
    (forall e, first_failure (export_csv req) w = Some e -> resp = database_error).
Proof.
  unfold export_csv.
  cbn [try_catch bind pool_query run first_failure].
  pose proof (pool_step_select select_surveys_export [] w I) as Hdb.
  destruct (pool_step _ _ w) as [[e|rows] w1]; cbn [snd] in Hdb;
    cbn [try_catch bind run first_failure];
    eexists _, _; (split; [reflexivity|]); (split; [exact Hdb|]);
    (reflexivity || discriminate).
Qed.

End ReadRoutes.

(** X13. The four reads (status, fetch, list, export) always answer, never
    change the database, and answer 500 [Database error] whenever one of
    their queries fails, whatever the failure (a uniqueness violation
    included). *)
Theorem read_routes_never_write (req : Request) (w : World) :
  Forall (fun h : Request -> Prog Response =>
            exists resp w',
              run (h req) w = (inr resp, w') /\ db w' = db w /\
              (forall e, first_failure (h req) w = Some e -> resp = database_error))
         [survey_status; survey_fetch; surveys_list; export_csv].
Proof.
  repeat constructor.
  - apply survey_status_answers.
  - apply survey_fetch_answers.
  - apply surveys_list_answers.
  - apply export_csv_answers.
Qed.

Section Lookups.

Lemma survey_status_run (req : Request) (w : World) :
  req_params_identifier req <> "" ->
  next_fault w = None ->
  run (survey_status req) w
  = (inr match records_of (req_params_identifier req) (db w) with
         | [] => json (JObj [("exists", JBool false); ("update_count", JNum (of_Z 0))])
         | r :: _ => json (JObj [("exists", JBool true);
                                 ("update_count", cell r "update_count")])
         end,
     {| db := db w; now := now w; faults := tl (faults w) |}).
Proof.
  intros Hs Hn. unfold survey_status. cbv zeta. rewrite (truthy_JStr _ Hs).
  cbn [negb try_catch bind pool_query run].
  unfold select_update_count. rewrite (select_exec (Some ["update_count"]) _ _ eq_refl Hn).
  destruct (records_of (req_params_identifier req) (db w)) as [|r rest];
    cbn [List.map try_catch bind run]; [reflexivity|].
  now rewrite cell_project.
Qed.

Lemma untrimmed_no_record (p : string) (d : Db) :
  identifiers_trimmed d -> trim p <> p -> records_of p d = [].
Proof.
  intros HI Hp. unfold records_of, identifiers_trimmed in *.
  induction HI as [|r rows Hr _ IH]; [reflexivity|].
  cbn [List.filter]. destruct (has_identifier p r) eqn:H; [|exact IH].
  apply has_identifier_cell in H. destruct Hr as (s & Hs & _ & Ht).
  rewrite H in Hs. injection Hs as ->. now destruct Hp.
Qed.

End Lookups.

(** X9. Every stored identifier is a non-empty string without white space
    at either end, whatever requests are in flight and however the engine
    answers them: [saveSurvey] only ever stores what [toTextOrNull] made of
    the identifier. *)
Theorem identifiers_stay_trimmed
    (env : Env) (sched : list nat) (reqs : list Incoming) (w : World) :
  identifiers_trimmed (db w) ->
  identifiers_trimmed (db (run_all sched (List.map (router env) reqs) w).2).
Proof.
  intros HI.
  apply (run_all_keeps identifiers_trimmed (server_query (fun _ => True))
           (check_rows (fun _ => True))).
  - intros now0 st ps d. apply identifiers_trimmed_exec.
  - intros now0 st ps d rows _ _ _ _. apply Forall_forall. intros; exact I.
  - apply router_all_send.
  - exact HI.
Qed.

(** X14. The status and fetch routes look the identifier up as it is in the
    path, without the trimming [saveSurvey] applies: for an identifier
    with white space at an end, status answers [exists: false] and fetch
    answers 404, whatever was submitted under it. *)
Theorem untrimmed_lookup_misses (req : Request) (w : World) :
  identifiers_trimmed (db w) ->
  next_fault w = None ->
  trim (req_params_identifier req) <> req_params_identifier req ->
  exists w',
    run (survey_status req) w
    = (inr (json (JObj [("exists", JBool false); ("update_count", JNum (of_Z 0))])), w') /\
    run (survey_fetch req) w = (inr not_found, w').
Proof.
  intros HI Hn Hp.
  assert (Hs : req_params_identifier req <> "") by (intros E; rewrite E in Hp; now apply Hp).
  rewrite (survey_status_run _ _ Hs Hn), (survey_fetch_run _ _ Hs Hn).
  rewrite (untrimmed_no_record _ _ HI Hp). eexists. split; reflexivity.
Qed.

Section Window.

Lemma Math_min_NaN (y : number) : Math_min NaN y = NaN.
Proof. reflexivity. Qed.

Lemma Math_max_NaN (y : number) : Math_max NaN y = NaN.
Proof. reflexivity. Qed.

Lemma of_Z_opp_pos (k : Z) :
  0 < k < 2 ^ 53 ->
  exists p, k = Zpos p /\
    SFopp (of_Z k) = S754_finite true (normal_mantissa p) (normal_exponent p).
Proof.
  intros [Hk Hlt]. destruct k as [|p|p]; try lia.
  exists p. split; [reflexivity|]. now rewrite of_Z_pos.
Qed.

Lemma Math_min_negative (k : Z) :
  0 < k < 2 ^ 53 -> Math_min (SFopp (of_Z k)) (of_Z 1000) = SFopp (of_Z k).
Proof.
  intros H. destruct (of_Z_opp_pos k H) as (p & _ & ->). reflexivity.
Qed.

Lemma row_count_negative (e : PgError) (k : Z) :
  0 < k < 2 ^ 53 -> row_count e (JNum (SFopp (of_Z k))) = inl e.
Proof.
  intros H. destruct (of_Z_opp_pos k H) as (p & -> & ->).
  unfold row_count. rewrite integer_of_normal by lia. cbn [cond_Zopp]. reflexivity.
Qed.

Lemma select_page_refused (l f : number) (d : Db) :
  (exists e, row_count invalid_row_count_in_limit_clause (JNum l) = inl e) \/
  (exists e, row_count invalid_row_count_in_result_offset_clause (JNum f) = inl e) ->
  exists e, exec_select_page DESC 1 2 [JNum l; JNum f] d = inl e.
Proof.
  intros H. unfold exec_select_page. cbn [param lookup list_lookup sql_param].
  destruct H as [[e ->]|[e He]]; [now exists e|].
  rewrite He. destruct (row_count _ (JNum l)); eexists; reflexivity.
Qed.

Lemma surveys_list_refused (req : Request) (w : World) :
  (exists e, row_count invalid_row_count_in_limit_clause (JNum (list_limit req)) = inl e) \/
  (exists e, row_count invalid_row_count_in_result_offset_clause
               (JNum (list_offset req)) = inl e) ->
  exists w', run (surveys_list req) w = (inr database_error, w') /\ db w' = db w.
Proof.
  intros H. unfold surveys_list. cbv zeta.
  cbn [try_catch bind pool_query run].
  destruct (pool_step_cases select_surveys_page
              [JNum (list_limit req); JNum (list_offset req)] w) as [(e & _ & ->)|[_ ->]].
  - eexists. split; reflexivity.
  - unfold select_surveys_page. cbn [exec fst snd].
    destruct (select_page_refused _ _ (db w) H) as [e ->].
    eexists. split; reflexivity.
Qed.

End Window.

(** X16. The limit is clamped from above only, and a limit or an offset
    that is not a number is not replaced by a default: when [limit] reads
    as no number at all ([parseInt] gives [NaN]) or as a negative integer,
    or [offset] reads as no number, the engine refuses the window and the
    list answers 500 [Database error]. *)
Theorem surveys_list_refuses_bad_window (req : Request) (w : World) :
  let limit := parseInt (js_or (get (req_query req) "limit") (JStr "100")) (Some 10) in
  let offset := parseInt (js_or (get (req_query req) "offset") (JStr "0")) (Some 10) in
  limit = NaN \/ (exists k, 0 < k < 2 ^ 53 /\ limit = SFopp (of_Z k)) \/ offset = NaN ->
  exists w', run (surveys_list req) w = (inr database_error, w') /\ db w' = db w.
Proof.
  intros limit offset H. apply surveys_list_refused.
  unfold list_limit, list_offset. fold limit offset.
  destruct H as [->|[(k & Hk & ->)| ->]].
  - left. eexists. reflexivity.
  - left. rewrite Math_min_negative by exact Hk. eexists. now apply row_count_negative.
  - right. eexists. reflexivity.
Qed.

(** ** Decimal numerals *)

Section Numerals.

Lemma digit_of_pretty_N_char (x : N) :
  (x < 10)%N -> digit_of 10 (pretty_N_char x) = Some (Z.of_N x).
Proof.
  intros H.
  assert (E : (x = 0 \/ x = 1 \/ x = 2 \/ x = 3 \/ x = 4 \/ x = 5 \/ x = 6 \/ x = 7
               \/ x = 8 \/ x = 9)%N) by lia.
  repeat (destruct E as [->|E]; [reflexivity|]). now subst.
Qed.

Lemma is_whitespace_pretty_N_char (x : N) : is_whitespace (pretty_N_char x) = false.
Proof. destruct x as [|p]; [reflexivity|]. do 4 (destruct p as [p|p|]; try reflexivity). Qed.

(** Reading the numeral of [x] in front of [s]: the digits of [x] shift
    what was read before. *)
Lemma span_digits_pretty_N_go (x : N) :
  (0 < x)%N ->
  forall s acc cnt,
    exists d, 0 < d /\ 10 ^ (d - 1) <= Z.of_N x < 10 ^ d /\
      span_digits 10 (pretty_N_go x s) acc cnt
      = span_digits 10 s (acc * 10 ^ d + Z.of_N x) (cnt + d) /\
      Z.of_nat (String.length (pretty_N_go x s)) = d + Z.of_nat (String.length s).
Proof.
  induction (N.lt_wf_0 x) as [x _ IH]. intros Hx s acc cnt.
  rewrite pretty_N_go_step by exact Hx.
  pose proof (N.Div0.div_mod x 10) as Hdm.
  pose proof (N.mod_lt x 10 ltac:(lia)) as Hm.
  set (c := pretty_N_char (x `mod` 10)%N).
  destruct (N.eq_dec (x `div` 10)%N 0%N) as [E|E].
  - rewrite E, pretty_N_go_0. exists 1. split; [lia|].
    change (10 ^ (1 - 1)) with 1. change (10 ^ 1) with 10.
    split; [lia|]. cbn [span_digits]. unfold c. rewrite digit_of_pretty_N_char by exact Hm.
    split; [|cbn [String.length]; lia].
    assert (Hx0 : x = (x `mod` 10)%N) by (rewrite Hdm at 1; rewrite E; apply N.add_0_l).
    f_equal. rewrite <- Hx0. lia.
  - destruct (IH (x `div` 10)%N ltac:(apply N.div_lt; lia) ltac:(lia)
                 (String c s) acc cnt) as (d & Hd & Hb & Hsp & Hlen).
    exists (d + 1). split; [lia|].
    replace (d + 1 - 1) with d by lia.
    rewrite Z.pow_add_r by lia. change (10 ^ 1) with 10.
    assert (Hx' : Z.of_N x = 10 * Z.of_N (x `div` 10) + Z.of_N (x `mod` 10)).
    { rewrite Hdm at 1. now rewrite N2Z.inj_add, N2Z.inj_mul. }
    assert (Hm' : 0 <= Z.of_N (x `mod` 10) < 10).
    { split; [apply N2Z.is_nonneg|]. change 10 with (Z.of_N 10). now apply N2Z.inj_lt. }
    assert (Hp : 10 ^ d = 10 * 10 ^ (d - 1)).
    { replace d with (d - 1 + 1) at 1 by lia. rewrite Z.pow_add_r by lia. lia. }
    split.
    { clear Hsp Hlen IH Hdm Hm. generalize dependent (Z.of_N (x `div` 10)).
      generalize dependent (Z.of_N (x `mod` 10)). intros. lia. }
    rewrite Hsp, Hlen. cbn [span_digits String.length]. unfold c.
    rewrite digit_of_pretty_N_char by exact Hm.
    split; [|lia]. f_equal; lia.
Qed.

Lemma span_digits_pretty (p : positive) :
  exists d, 0 < d /\ 10 ^ (d - 1) <= Zpos p < 10 ^ d /\
    span_digits 10 (pretty (Zpos p)) 0 0 = (Zpos p, d, "") /\
    Z.of_nat (String.length (pretty (Zpos p))) = d.
Proof.
  destruct (span_digits_pretty_N_go (Npos p) ltac:(lia) "" 0 0) as (d & Hd & Hb & Hsp & Hlen).
  exists d. split; [exact Hd|]. split; [exact Hb|].
  change (pretty (Zpos p)) with (pretty_N_go (Npos p) "").
  rewrite Hsp, Hlen. cbn [span_digits String.length]. split; [reflexivity | lia].
Qed.

End Numerals.

Section DecimalStrings.

Lemma pretty_N_go_digits (x : N) :
  forall s, Forall decimal_digit (list_ascii_of_string s) ->
            Forall decimal_digit (list_ascii_of_string (pretty_N_go x s)).
Proof.
  induction (N.lt_wf_0 x) as [x _ IH]. intros s Hs.
  destruct (N.eq_dec x 0%N) as [->|Hx]; [now rewrite pretty_N_go_0|].
  rewrite pretty_N_go_step by lia. apply IH; [apply N.div_lt; lia|].
  cbn [list_ascii_of_string]. constructor; [|exact Hs].
  exists (x `mod` 10)%N. split; [apply N.mod_lt; lia | reflexivity].
Qed.

Lemma pretty_digits (p : positive) :
  exists c r, pretty (Zpos p) = String c r /\
    Forall decimal_digit (list_ascii_of_string (String c r)).
Proof.
  pose proof (pretty_N_go_digits (Npos p) "" ltac:(constructor)) as H.
  destruct (span_digits_pretty p) as (d & Hd & _ & _ & Hlen).
  change (pretty (Zpos p)) with (pretty_N_go (Npos p) "") in *.
  destruct (pretty_N_go (Npos p) "") as [|c r]; [cbn in Hlen; lia|].
  now exists c, r.
Qed.

Lemma trim_end_digits (s : string) :
  Forall decimal_digit (list_ascii_of_string s) -> trim_end s = s.
Proof.
  induction s as [|c r IH]; [reflexivity|]. cbn [list_ascii_of_string].
  intros H. inversion H as [|c' l (n & _ & ->) Hr]; subst.
  rewrite trim_end_cons, (IH Hr), is_whitespace_pretty_N_char. now destruct r.
Qed.

Lemma digit_cases (c : ascii) :
  decimal_digit c ->
  c = "0"%char \/ c = "1"%char \/ c = "2"%char \/ c = "3"%char \/ c = "4"%char \/
  c = "5"%char \/ c = "6"%char \/ c = "7"%char \/ c = "8"%char \/ c = "9"%char.
Proof.
  intros (n & Hn & ->).
  destruct n as [|p]; [tauto|].
  do 4 (try destruct p as [p|p|]); try lia; tauto.
Qed.

(** What the parsers of numbers see of a numeral. *)
Lemma numeral_shape (c : ascii) (r : string) :
  Forall decimal_digit (list_ascii_of_string (String c r)) ->
  trim (String c r) = String c r /\
  trim_start (String c r) = String c r /\
  read_sign (String c r) = (false, String c r) /\
  NonDecimalIntegerLiteral (String c r) = None /\
  String.eqb (String c r) "Infinity" = false /\
  String.eqb (String c r) "" = false.
Proof.
  intros H. pose proof (trim_end_digits _ H) as Hend.
  cbn [list_ascii_of_string] in H. inversion H as [|c' l Hc Hr]; subst.
  assert (Hstart : trim_start (String c r) = String c r).
  { destruct Hc as (n & _ & ->). cbn [trim_start]. now rewrite is_whitespace_pretty_N_char. }
  split; [unfold trim; now rewrite Hstart|]. split; [exact Hstart|].
  assert (Hnd : NonDecimalIntegerLiteral (String c r) = None).
  { destruct r as [|p r]; [now destruct c as [[] [] [] [] [] [] [] []]|].
    cbn [list_ascii_of_string] in Hr. inversion Hr as [|p' l' Hp _]; subst.
    apply digit_cases in Hc, Hp.
    repeat (destruct Hc as [->|Hc]; [repeat (destruct Hp as [->|Hp]; [reflexivity|]);
                                     subst; reflexivity|]).
    subst. repeat (destruct Hp as [->|Hp]; [reflexivity|]). subst; reflexivity. }
  apply digit_cases in Hc.
  repeat (destruct Hc as [->|Hc]; [repeat split; (reflexivity || exact Hnd)|]).
  subst. repeat split; (reflexivity || exact Hnd).
Qed.

Lemma of_decimal_integer (neg : bool) (p : positive) :
  Zpos p < 2 ^ 53 -> of_decimal neg (Zpos p) 0 = binary_round prec emax neg p 0.
Proof.
  intros H. unfold of_decimal.
  assert (Z.log2 (Zpos p) < 53) by (apply Z.log2_lt_pow2; lia).
  replace (1030 <? Z.log2 (Zpos p) + 3 * 0) with false by (symmetry; apply Z.ltb_ge; lia).
  cbn [Z.leb Z.compare Z.ltb andb]. change (10 ^ 0) with 1. now rewrite Z.mul_1_r.
Qed.

(** [Number] of the numeral of an integer is that integer. *)
Lemma StringToNumber_pretty (z : Z) :
  - 2 ^ 53 < z < 2 ^ 53 -> StringToNumber (pretty z) = of_Z z.
Proof.
  intros Hz. destruct z as [|p|p]; [reflexivity| |].
  - destruct (pretty_digits p) as (c & r & E & Hd).
    destruct (numeral_shape c r Hd) as (Ht & _ & Hs & Hnd & Hinf & Hne).
    destruct (span_digits_pretty p) as (d & Hd0 & _ & Hsp & _).
    unfold StringToNumber. rewrite E, Ht, Hne, Hnd, Hs.
    unfold StrUnsignedDecimalLiteral. rewrite Hinf, <- E, Hsp.
    replace (d + 0 =? 0) with false by (symmetry; apply Z.eqb_neq; lia).
    cbn [Z.opp]. now rewrite of_decimal_integer by lia.
  - destruct (pretty_digits p) as (c & r & E & Hd).
    destruct (numeral_shape c r Hd) as (Ht & _ & Hs & Hnd & Hinf & Hne).
    destruct (span_digits_pretty p) as (d & Hd0 & _ & Hsp & _).
    change (pretty (Zneg p)) with (String "-"%char (pretty (Zpos p))).
    unfold StringToNumber.
    assert (Htrim : trim (String "-"%char (pretty (Zpos p))) = String "-"%char (pretty (Zpos p))).
    { unfold trim. cbn [trim_start is_whitespace]. 
      change (is_whitespace "-"%char) with false. cbn iota.
      rewrite trim_end_cons. rewrite E, (trim_end_digits _ Hd). reflexivity. }
    rewrite Htrim. cbn [String.eqb Ascii.eqb]. 
    change (NonDecimalIntegerLiteral (String "-"%char (pretty (Zpos p)))) with (@None number).
    cbn [read_sign]. unfold StrUnsignedDecimalLiteral. rewrite E, Hinf, <- E, Hsp.
    replace (d + 0 =? 0) with false by (symmetry; apply Z.eqb_neq; lia).
    cbn [Z.opp]. now rewrite of_decimal_integer by lia.
Qed.

End DecimalStrings.

Section Rounding.

Lemma Math_round_normal (s : bool) (p : positive) :
  Zpos p < 2 ^ 53 ->
  Math_round (S754_finite s (normal_mantissa p) (normal_exponent p))
  = S754_finite s (normal_mantissa p) (normal_exponent p).
Proof.
  intros Hp. destruct (normal_mantissa_value p Hp) as [Hm Hpos].
  unfold normal_exponent in *.
  destruct (Zpos (Pos.size p) - 53) as [|q|q] eqn:E; try reflexivity.
  cbn [Math_round]. replace (53 - Zpos (Pos.size p)) with (Zpos q) in Hm by lia.
  rewrite Hm. set (d := 2 ^ Zpos q).
  assert (Hd : 0 < d) by (apply Z.pow_pos_nonneg; lia).
  assert (Hn : (2 * cond_Zopp s (Zpos p * d) + d) / (2 * d) = cond_Zopp s (Zpos p)).
  { symmetry. apply (Z.div_unique _ _ _ d); [lia|].
    destruct s; cbn [cond_Zopp]; lia. }
  rewrite Hn.
  destruct s; [change (cond_Zopp true (Zpos p)) with (Zneg p)
              |change (cond_Zopp false (Zpos p)) with (Zpos p)];
    cbn [binary_normalize]; rewrite binary_round_exact by exact Hp;
    unfold normal_exponent; now rewrite E.
Qed.

Lemma Math_round_normalize (n : Z) (s : bool) :
  - 2 ^ 53 < n < 2 ^ 53 ->
  Math_round (binary_normalize prec emax n 0 s) = binary_normalize prec emax n 0 s /\
  Number_isFinite (binary_normalize prec emax n 0 s) = true.
Proof.
  intros Hn. destruct n as [|p|p]; cbn [binary_normalize].
  - now split.
  - rewrite binary_round_exact by lia. split; [apply Math_round_normal; lia | reflexivity].
  - rewrite binary_round_exact by lia. split; [apply Math_round_normal; lia | reflexivity].
Qed.

(** [Math.round] of a double is a finite integer that [Math.round] leaves
    as it is. *)
Lemma Math_round_idem (x : number) :
  is_double x -> Number_isFinite x = true ->
  Math_round (Math_round x) = Math_round x /\ Number_isFinite (Math_round x) = true.
Proof.
  intros Hd Hfin. destruct x as [s|s| |s m e]; try discriminate; [now split|].
  pose proof (double_mantissa_bound s m e Hd) as Hm.
  destruct e as [|p|p]; [now split | now split|].
  cbn [Math_round]. set (d := 2 ^ Zpos p). set (sm := cond_Zopp s (Zpos m)).
  assert (Hd2 : 2 <= d).
  { unfold d. replace 2 with (2 ^ 1) at 1 by reflexivity. apply Z.pow_le_mono_r; lia. }
  assert (Hsm : - 2 ^ 53 < sm < 2 ^ 53) by (unfold sm; destruct s; cbn [cond_Zopp]; lia).
  pose proof (Z.div_mod (2 * sm + d) (2 * d) ltac:(lia)) as Hdiv.
  pose proof (Z.mod_pos_bound (2 * sm + d) (2 * d) ltac:(lia)) as Hmod.
  set (n := (2 * sm + d) / (2 * d)) in *.
  apply Math_round_normalize. clearbody d sm n. nia.
Qed.

End Rounding.

Section Idempotence.

Lemma toTextOrNull_idem (v : JsVal) : toTextOrNull (toTextOrNull v) = toTextOrNull v.
Proof.
  destruct (toTextOrNull_cases v) as [->|(s & E & Hs)]; [reflexivity|].
  rewrite E. destruct (toTextOrNull_trimmed v s E) as (s' & Es & _ & Ht).
  injection Es as <-. unfold toTextOrNull. cbn [is_null ToString]. rewrite Ht.
  destruct s; [now destruct Hs | reflexivity].
Qed.

Lemma toFloatOrNull_idem (v : JsVal) : toFloatOrNull (toFloatOrNull v) = toFloatOrNull v.
Proof.
  unfold toFloatOrNull at 2 3. destruct (is_null v || is_empty_string v); [reflexivity|].
  destruct (Number_isFinite (ToNumber v)) eqn:E; [|reflexivity].
  unfold toFloatOrNull. cbn [is_null is_empty_string orb ToNumber]. now rewrite E.
Qed.

Lemma toIntOrNull_idem (v : JsVal) :
  is_double (ToNumber v) -> toIntOrNull (toIntOrNull v) = toIntOrNull v.
Proof.
  intros Hd. unfold toIntOrNull at 2 3.
  destruct (is_null v || is_empty_string v); [reflexivity|].
  destruct (Number_isFinite (ToNumber v)) eqn:E; [|reflexivity].
  destruct (Math_round_idem _ Hd E) as [Hr Hf].
  unfold toIntOrNull. cbn [is_null is_empty_string orb ToNumber]. now rewrite Hf, Hr.
Qed.

Lemma normalize_idem (k : Kind) (v : JsVal) :
  (k = KInt -> is_double (ToNumber v)) -> normalize k (normalize k v) = normalize k v.
Proof.
  destruct k; cbn [normalize]; intros H.
  - apply toTextOrNull_idem.
  - now apply toIntOrNull_idem, H.
  - apply toFloatOrNull_idem.
Qed.

End Idempotence.

(** ** The string of an integer *)

Section IntegerStrings.

Lemma same_number_eq (x y : number) : same_number x y = true -> x = y.
Proof.
  destruct x as [a|a| |a m e], y as [b|b| |b n f]; cbn [same_number]; try discriminate;
    try reflexivity.
  - intros H. apply Bool.eqb_prop in H. now subst.
  - intros H. apply Bool.eqb_prop in H. now subst.
  - intros H. apply andb_true_iff in H as [H He]. apply andb_true_iff in H as [Hs Hm].
    apply Bool.eqb_prop in Hs. apply Pos.eqb_eq in Hm. apply Z.eqb_eq in He. now subst.
Qed.

Lemma same_number_refl (x : number) : x <> NaN -> same_number x x = true.
Proof.
  destruct x as [a|a| |a m e]; cbn [same_number]; intros H.
  - apply Bool.eqb_reflx.
  - apply Bool.eqb_reflx.
  - reflexivity.
  - now rewrite Bool.eqb_reflx, Pos.eqb_refl, Z.eqb_refl.
Qed.

Lemma same_number_of_Z (a b : Z) :
  0 < a < 2 ^ 53 -> 0 < b < 2 ^ 53 -> same_number (of_Z a) (of_Z b) = (a =? b).
Proof.
  intros Ha Hb. destruct (Z.eqb_spec a b) as [->|Hne].
  - apply same_number_refl. destruct b as [|p|p]; try lia. now rewrite of_Z_pos by lia.
  - destruct (same_number (of_Z a) (of_Z b)) eqn:E; [|reflexivity].
    apply same_number_eq in E. destruct Hne.
    pose proof (integer_of_of_Z a ltac:(lia)) as H1.
    pose proof (integer_of_of_Z b ltac:(lia)) as H2. congruence.
Qed.

(** The double of [c * 10^sc], when that is an integer below [2^53]. *)
Lemma of_decimal_exact (c sc : Z) :
  0 < c -> 0 <= sc -> c * 10 ^ sc < 2 ^ 53 ->
  of_decimal false c sc = of_Z (c * 10 ^ sc).
Proof.
  intros Hc Hsc Hlt.
  assert (H8 : 2 ^ (3 * sc) <= 10 ^ sc).
  { rewrite Z.pow_mul_r by lia. change (2 ^ 3) with 8. apply Z.pow_le_mono_l. lia. }
  assert (Hp : 0 < 2 ^ (3 * sc)) by (apply Z.pow_pos_nonneg; lia).
  assert (Hlog : Z.log2 c + 3 * sc < 53).
  { rewrite Z.add_comm, <- Z.log2_mul_pow2 by lia. apply Z.log2_lt_pow2; nia. }
  assert (Hpos : 0 < c * 10 ^ sc) by nia.
  unfold of_decimal. destruct c as [|m|m]; try lia.
  replace (1030 <? Z.log2 (Zpos m) + 3 * sc) with false by (symmetry; apply Z.ltb_ge; lia).
  rewrite andb_false_r.
  replace (sc <? 0) with false by (symmetry; apply Z.ltb_ge; lia). cbn [andb].
  replace (0 <=? sc) with true by (symmetry; apply Z.leb_le; lia).
  destruct (Zpos m * 10 ^ sc) as [|n|n]; try lia. reflexivity.
Qed.

Section Digits.

Context (N D n : Z).

Hypothesis N_pos : 0 < N.
Hypothesis N_small : N < 2 ^ 52.
Hypothesis D_pos : 0 < D.
Hypothesis n_digits : 10 ^ (n - 1) <= N < 10 ^ n.
Hypothesis n_pos : 0 < n.

(** The candidates with [k] digits for the integer [N], seen as the
    fraction [N * D / D]: the first [k] digits of [N], when the digits
    after them are zeros. *)
Lemma candidate (k : Z) :
  1 <= k <= n ->
  digits_candidate (of_Z N) (N * D) D n k
  = if N mod 10 ^ (n - k) =? 0 then Some (N / 10 ^ (n - k), n) else None.
Proof.
  intros Hk. pose proof D_pos as HD.
  set (sc := n - k). assert (Hsc : 0 <= sc) by (unfold sc; lia).
  assert (Hp10 : 0 < 10 ^ sc) by (apply Z.pow_pos_nonneg; lia).
  assert (Hle : 10 ^ sc <= 10 ^ (n - 1)) by (apply Z.pow_le_mono_r; unfold sc; lia).
  assert (Hk10 : 10 ^ n = 10 ^ k * 10 ^ sc).
  { rewrite <- Z.pow_add_r by lia. f_equal. unfold sc. lia. }
  unfold digits_candidate. fold sc.
  replace (sc <? 0) with false by (symmetry; apply Z.ltb_ge; lia).
  rewrite (Z.mul_comm N D), Z.div_mul_cancel_l by lia.
  rewrite Z.mul_mod_distr_l by lia.
  pose proof (Z.div_mod N (10 ^ sc) ltac:(lia)) as Hdm.
  pose proof (Z.mod_pos_bound N (10 ^ sc) ltac:(lia)) as Hmod.
  set (lo := N / 10 ^ sc) in *. set (rm := N mod 10 ^ sc) in *.
  assert (Hlo : 1 <= lo) by (unfold lo; apply Z.div_le_lower_bound; lia).
  assert (Hlok : lo < 10 ^ k) by (unfold lo; apply Z.div_lt_upper_bound; lia).
  rewrite !of_decimal_exact by nia.
  rewrite !same_number_of_Z by nia.
  replace ((lo + 1) * 10 ^ sc =? N) with false by (symmetry; apply Z.eqb_neq; nia).
  replace (lo =? 10 ^ k) with false by (symmetry; apply Z.eqb_neq; lia).
  destruct (Z.eqb_spec rm 0) as [E|E].
  - replace (lo * 10 ^ sc =? N) with true by (symmetry; apply Z.eqb_eq; nia). reflexivity.
  - replace (lo * 10 ^ sc =? N) with false by (symmetry; apply Z.eqb_neq; nia). reflexivity.
Qed.

(** The search stops at the digits of [N] without its final zeros. *)
Lemma shortest (fuel : nat) :
  forall k, 1 <= k <= n -> n - k < Z.of_nat fuel ->
    exists k', k <= k' <= n /\ N mod 10 ^ (n - k') = 0 /\
      shortest_digits fuel (of_Z N) (N * D) D n k = (N / 10 ^ (n - k'), n, k').
Proof.
  induction fuel as [|f IH]; intros k Hk Hf; [lia|].
  cbn [shortest_digits]. rewrite candidate by exact Hk.
  destruct (Z.eqb_spec (N mod 10 ^ (n - k)) 0) as [E|E].
  - exists k. split; [lia|]. now split.
  - assert (k <> n).
    { intros ->. apply E. replace (n - n) with 0 by lia. apply Z.mod_1_r. }
    destruct (IH (k + 1) ltac:(lia) ltac:(lia)) as (k' & Hk' & Hmod & Hs).
    exists k'. split; [lia|]. now split.
Qed.

End Digits.

Lemma pretty_N_go_app (x : N) :
  forall s t, pretty_N_go x (s ++ t) = pretty_N_go x s ++ t.
Proof.
  induction (N.lt_wf_0 x) as [x _ IH]. intros s t.
  destruct (N.eq_dec x 0%N) as [->|Hx]; [now rewrite !pretty_N_go_0|].
  rewrite (pretty_N_go_step x (s ++ t)), (pretty_N_go_step x s) by lia.
  now rewrite <- (IH (x `div` 10)%N ltac:(apply N.div_lt; lia)).
Qed.

Lemma pretty_times_10 (q : positive) : pretty (Zpos (q * 10)) = pretty (Zpos q) ++ "0".
Proof.
  change (pretty (Zpos (q * 10))) with (pretty_N_go (Npos (q * 10)) "").
  change (pretty (Zpos q)) with (pretty_N_go (Npos q) "").
  rewrite pretty_N_go_step by lia.
  replace (N.pos (q * 10) `div` 10)%N with (Npos q)
    by (apply (N.div_unique _ _ _ 0%N); lia).
  replace (N.pos (q * 10) `mod` 10)%N with 0%N
    by (apply (N.mod_unique _ _ (Npos q)); lia).
  now rewrite <- pretty_N_go_app.
Qed.

Lemma zeros_succ (j : Z) : 0 <= j -> zeros (j + 1) = String "0"%char (zeros j).
Proof.
  intros Hj. unfold zeros. rewrite Z2Nat.inj_add by lia.
  change (Z.to_nat 1) with 1%nat. rewrite Nat.add_comm. cbn [Nat.add repeat].
  destruct (repeat "0" (Z.to_nat j)); reflexivity.
Qed.

Lemma string_app_assoc (a b c : string) : (a ++ b) ++ c = a ++ (b ++ c).
Proof.
  induction a as [|x a IH]; [reflexivity|].
  change (String x ((a ++ b) ++ c) = String x (a ++ (b ++ c))). now rewrite IH.
Qed.

Lemma string_app_nil_r (a : string) : a ++ "" = a.
Proof.
  induction a as [|x a IH]; [reflexivity|].
  change (String x (a ++ "") = String x a). now rewrite IH.
Qed.

Lemma pretty_times_pow10 (j : Z) :
  0 <= j -> forall q, 0 < q -> pretty (q * 10 ^ j) = pretty q ++ zeros j.
Proof.
  intros Hj. pattern j. apply natlike_ind; [| |exact Hj].
  - intros q Hq. change (10 ^ 0) with 1. rewrite Z.mul_1_r.
    change (zeros 0) with "". now rewrite string_app_nil_r.
  - clear j Hj. intros j Hj IH q Hq. unfold Z.succ.
    rewrite zeros_succ by exact Hj.
    rewrite Z.pow_add_r by lia. change (10 ^ 1) with 10.
    replace (q * (10 ^ j * 10)) with ((q * 10) * 10 ^ j) by lia.
    rewrite IH by lia. destruct q as [|q|q]; try lia.
    change (Zpos q * 10) with (Zpos (q * 10)). rewrite pretty_times_10.
    now rewrite string_app_assoc.
Qed.

(** [String] of the double of an integer is its numeral. *)
Lemma Number_toString_positive (p : positive) :
  Zpos p < 2 ^ 52 ->
  forall sg, Number_toString (S754_finite sg (normal_mantissa p) (normal_exponent p))
             = (if sg then "-" else "") ++ pretty (Zpos p).
Proof.
  intros Hp sg.
  destruct (span_digits_pretty p) as (n & Hn & Hb & _ & Hlen).
  destruct (normal_mantissa_value p ltac:(lia)) as [Hm Hpos].
  pose proof (size_bounds p) as Hsize.
  assert (Hsz : Zpos (Pos.size p) <= 52).
  { destruct (Z.le_gt_cases (Zpos (Pos.size p)) 52) as [H|H]; [exact H|].
    assert (2 ^ 52 <= 2 ^ (Zpos (Pos.size p) - 1)) by (apply Z.pow_le_mono_r; lia). lia. }
  assert (Hn16 : n <= 16).
  { destruct (Z.le_gt_cases n 16) as [H|H]; [exact H|].
    assert (10 ^ 16 <= 10 ^ (n - 1)) by (apply Z.pow_le_mono_r; lia).
    assert (2 ^ 52 < 10 ^ 16) by reflexivity. lia. }
  set (D := 2 ^ (53 - Zpos (Pos.size p))) in *.
  assert (HD : 0 < D) by (apply Z.pow_pos_nonneg; lia).
  unfold Number_toString, normal_exponent.
  replace (Zpos (Pos.size p) - 53 <? 0) with true by (symmetry; apply Z.ltb_lt; lia).
  replace (- (Zpos (Pos.size p) - 53)) with (53 - Zpos (Pos.size p)) by lia.
  fold D. rewrite Hm.
  assert (Hmag : magnitude10 (Zpos p * D) D = n).
  { unfold magnitude10.
    replace (D <=? Zpos p * D) with true by (symmetry; apply Z.leb_le; nia).
    rewrite Z.div_mul by lia. exact Hlen. }
  rewrite Hmag.
  pose proof (shortest (Zpos p) D n ltac:(lia) Hp HD Hb Hn 17 1 ltac:(lia) ltac:(lia))
    as (k' & Hk' & Hmod & Hs).
  fold (normal_exponent p). rewrite <- (of_Z_pos p) by lia.
  rewrite Hs.
  f_equal. unfold format_digits.
  replace (k' <=? n) with true by (symmetry; apply Z.leb_le; lia).
  replace (n <=? 21) with true by (symmetry; apply Z.leb_le; lia). cbn [andb].
  assert (Hp10 : 0 < 10 ^ (n - k')) by (apply Z.pow_pos_nonneg; lia).
  pose proof (Z.div_mod (Zpos p) (10 ^ (n - k')) ltac:(lia)) as Hdm.
  rewrite Hmod, Z.add_0_r in Hdm.
  assert (Hq : 0 < Zpos p / 10 ^ (n - k')) by nia.
  rewrite <- pretty_times_pow10 by lia. f_equal. lia.
Qed.

Lemma Number_toString_of_Z (z : Z) :
  - 2 ^ 52 < z < 2 ^ 52 -> Number_toString (of_Z z) = pretty z.
Proof.
  intros Hz. destruct z as [|p|p]; [reflexivity| |].
  - rewrite of_Z_pos by lia. now rewrite (Number_toString_positive p ltac:(lia) false).
  - unfold of_Z. cbn [binary_normalize]. rewrite binary_round_exact by lia.
    now rewrite (Number_toString_positive p ltac:(lia) true).
Qed.

End IntegerStrings.

(** ** Pages of the list *)

Section ParseInt.

Lemma pretty_not_empty (z : Z) : pretty z <> "".
Proof.
  destruct z as [|p|p]; [discriminate| |discriminate].
  destruct (pretty_digits p) as (c & r & -> & _). discriminate.
Qed.

Lemma parseInt_numeral (z : Z) (radix : option Z) :
  radix = None \/ radix = Some 10 ->
  - 2 ^ 53 < z < 2 ^ 53 -> parseInt (JStr (pretty z)) radix = of_Z z.
Proof.
  intros Hr Hz. unfold parseInt. cbn [ToString].
  destruct z as [|p|p].
  - destruct Hr as [->| ->]; reflexivity.
  - destruct (pretty_digits p) as (c & r & E & Hd).
    destruct (numeral_shape c r Hd) as (_ & Ht & Hs & Hnd & _ & _).
    destruct (span_digits_pretty p) as (d & Hd0 & _ & Hsp & _).
    rewrite E, Ht, Hs.
    assert (Hrx : (let '(rx, r0) :=
                     match radix with
                     | None =>
                         match String c r with
                         | String "0"%char (String p0 r') =>
                             if Ascii.eqb p0 "x"%char || Ascii.eqb p0 "X"%char
                             then (16, r') else (10, String c r)
                         | _ => (10, String c r)
                         end
                     | Some k => (k, String c r)
                     end in (rx, r0)) = (10, String c r)).
    { destruct Hr as [->| ->]; [|reflexivity].
      unfold NonDecimalIntegerLiteral in Hnd.
      destruct c as [[] [] [] [] [] [] [] []]; try reflexivity.
      destruct r as [|p0 r']; [reflexivity|].
      destruct (Ascii.eqb p0 "x" || Ascii.eqb p0 "X"); [|reflexivity].
      cbn iota in Hnd. destruct (span_digits 16 r' 0 0) as [[? ?] ?]. discriminate. }
    destruct (match radix with None => _ | Some k => _ end) as [rx r0].
    injection Hrx as -> ->. rewrite <- E, Hsp.
    replace (d =? 0) with false by (symmetry; apply Z.eqb_neq; lia).
    now rewrite of_decimal_integer by lia.
  - destruct (span_digits_pretty p) as (d & Hd0 & _ & Hsp & _).
    change (pretty (Zneg p)) with (String "-"%char (pretty (Zpos p))).
    cbn [trim_start]. change (is_whitespace "-"%char) with false. cbn iota.
    cbn [read_sign].
    destruct (pretty_digits p) as (c & r & E & Hd).
    destruct (numeral_shape c r Hd) as (_ & Ht & Hs & Hnd & _ & _).
    assert (Hrx : (let '(rx, r0) :=
                     match radix with
                     | None =>
                         match pretty (Zpos p) with
                         | String "0"%char (String p0 r') =>
                             if Ascii.eqb p0 "x"%char || Ascii.eqb p0 "X"%char
                             then (16, r') else (10, pretty (Zpos p))
                         | _ => (10, pretty (Zpos p))
                         end
                     | Some k => (k, pretty (Zpos p))
                     end in (rx, r0)) = (10, pretty (Zpos p))).
    { destruct Hr as [->| ->]; [|reflexivity]. rewrite E.
      unfold NonDecimalIntegerLiteral in Hnd.
      destruct c as [[] [] [] [] [] [] [] []]; try reflexivity.
      destruct r as [|p0 r']; [reflexivity|].
      destruct (Ascii.eqb p0 "x" || Ascii.eqb p0 "X"); [|reflexivity].
      cbn iota in Hnd. destruct (span_digits 16 r' 0 0) as [[? ?] ?]. discriminate. }
    destruct (match radix with None => _ | Some k => _ end) as [rx r0].
    injection Hrx as -> ->. rewrite Hsp.
    replace (d =? 0) with false by (symmetry; apply Z.eqb_neq; lia).
    now rewrite of_decimal_integer by lia.
Qed.

Lemma parseInt_of_Z (z : Z) :
  - 2 ^ 52 < z < 2 ^ 52 -> parseInt (JNum (of_Z z)) None = of_Z z.
Proof.
  intros Hz.
  change (parseInt (JNum (of_Z z)) None)
    with (parseInt (JStr (Number_toString (of_Z z))) None).
  rewrite Number_toString_of_Z by exact Hz. apply parseInt_numeral; [now left | lia].
Qed.

Lemma row_count_of_Z (e : PgError) (n : Z) :
  0 <= n < 2 ^ 53 -> row_count e (JNum (of_Z n)) = inr (Z.to_nat n).
Proof.
  intros Hn. unfold row_count. rewrite integer_of_of_Z by exact Hn.
  replace (n <? 0) with false by (symmetry; apply Z.ltb_ge; lia).
  assert (2 ^ 53 < 10 ^ 21) by reflexivity. assert (2 ^ 53 < 2 ^ 63) by reflexivity.
  replace (10 ^ 21 <=? n) with false by (symmetry; apply Z.leb_gt; lia).
  replace (2 ^ 63 <=? n) with false by (symmetry; apply Z.leb_gt; lia). reflexivity.
Qed.

End ParseInt.

(** ** The window of the list *)

Section Pages.

Lemma js_or_numeral (v d : JsVal) (n : Z) :
  js_or v d = JStr (pretty n) -> truthy (js_or v d) = true.
Proof. intros ->. apply truthy_JStr, pretty_not_empty. Qed.

Lemma list_limit_numeral (req : Request) (n : Z) :
  js_or (get (req_query req) "limit") (JStr "100") = JStr (pretty n) ->
  0 <= n < 2 ^ 53 ->
  list_limit req = of_Z (Z.min n 1000).
Proof.
  intros H Hn. unfold list_limit. rewrite H, parseInt_numeral by (auto || lia).
  apply Math_min_of_Z; [exact Hn | split; [lia | reflexivity]].
Qed.

Lemma list_offset_numeral (req : Request) (k : Z) :
  js_or (get (req_query req) "offset") (JStr "0") = JStr (pretty k) ->
  0 <= k < 2 ^ 53 ->
  list_offset req = of_Z k.
Proof.
  intros H Hk. unfold list_offset. rewrite H, parseInt_numeral by (auto || lia).
  now apply Math_max_of_Z.
Qed.

Lemma length_window {A : Type} (n k : nat) (l : list A) :
  length (List.firstn n (List.skipn k l)) = Nat.min n (length l - k).
Proof. now rewrite List.length_firstn, List.length_skipn. Qed.

Lemma firstn_add {A : Type} (n m : nat) (l : list A) :
  List.firstn (n + m) l = (List.firstn n l ++ List.firstn m (List.skipn n l))%list.
Proof.
  revert l. induction n as [|n IH]; intros l; [reflexivity|].
  destruct l as [|x l]; cbn [Nat.add List.firstn List.skipn app].
  - now rewrite List.firstn_nil.
  - now rewrite IH.
Qed.

Lemma surveys_list_window (req : Request) (w : World) (n k : Z) :
  js_or (get (req_query req) "limit") (JStr "100") = JStr (pretty n) -> 0 <= n < 2 ^ 53 ->
  js_or (get (req_query req) "offset") (JStr "0") = JStr (pretty k) -> 0 <= k < 2 ^ 53 ->
  available w ->
  let rows := List.firstn (Z.to_nat (Z.min n 1000))
                (List.skipn (Z.to_nat k) (order_by_id DESC (surveys (db w)))) in
  run (surveys_list req) w
  = (inr (json (JObj [("rows", JArr (List.map row_object rows));
                      ("limit", JNum (of_Z (Z.min n 1000)));
                      ("offset", JNum (of_Z k));
                      ("total", JNum (parseInt (JStr (pretty (Z.of_nat (length (surveys (db w))))))
                                               None));
                      ("count", JNum (of_Z (Z.of_nat (length rows))))])),
     {| db := db w; now := now w; faults := tl (tl (faults w)) |}).
Proof.
  intros Hl Hn Hf Hk Hav rows.
  pose proof (list_limit_numeral req n Hl Hn) as El.
  pose proof (list_offset_numeral req k Hf Hk) as Ef.
  assert (Hmin : 0 <= Z.min n 1000 < 2 ^ 53) by (split; [lia|]; assert (1000 < 2 ^ 53) by reflexivity; lia).
  rewrite (surveys_list_run req w (Z.to_nat (Z.min n 1000)) (Z.to_nat k) Hav).
  - now rewrite El, Ef.
  - rewrite El. now apply row_count_of_Z.
  - rewrite Ef. now apply row_count_of_Z.
Qed.

End Pages.

(** X15. For a limit and an offset given as numerals (or left to their
    defaults 100 and 0), the list answers the window of [min limit 1000]
    rows after the first [offset] of the table by descending id, echoes
    the limit and offset it ran with, and reports as [total] the number of
    records of the table and as [count] the size of the window:
    [min (min limit 1000) (total - offset)], 0 past the end. *)
Theorem surveys_list_reports_window (req : Request) (w : World) (n k : Z) :
  js_or (get (req_query req) "limit") (JStr "100") = JStr (pretty n) -> 0 <= n < 2 ^ 53 ->
  js_or (get (req_query req) "offset") (JStr "0") = JStr (pretty k) -> 0 <= k < 2 ^ 53 ->
  available w ->
  Z.of_nat (length (surveys (db w))) < 2 ^ 52 ->
  let total := Z.of_nat (length (surveys (db w))) in
  exists rows w',
    run (surveys_list req) w
    = (inr (json (JObj [("rows", JArr (List.map row_object rows));
                        ("limit", JNum (of_Z (Z.min n 1000)));
                        ("offset", JNum (of_Z k));
                        ("total", JNum (of_Z total));
                        ("count", JNum (of_Z (Z.of_nat (length rows))))])), w') /\
    rows = List.firstn (Z.to_nat (Z.min n 1000))
             (List.skipn (Z.to_nat k) (order_by_id DESC (surveys (db w)))) /\
    Z.of_nat (length rows) = Z.min (Z.min n 1000) (Z.max (total - k) 0).
Proof.
  intros Hl Hn Hf Hk Hav Hsmall total.
  rewrite (surveys_list_window req w n k Hl Hn Hf Hk Hav).
  rewrite parseInt_numeral; [|now left|fold total; lia].
  eexists _, _. split; [reflexivity|]. split; [reflexivity|].
  rewrite length_window.
  rewrite (Permutation_length (order_by_id_perm DESC (surveys (db w)))).
  unfold total. lia.
Qed.

(** X17. Consecutive pages tile the list: against the same table, the page
    of [n] rows at offset [k] followed by the page of [m] rows at offset
    [k + n] is the page of [n + m] rows at offset [k] (for [n + m] within
    the cap of 1000). *)
Theorem consecutive_pages_tile (first next both : Request) (w : World) (n m k : Z) :
  js_or (get (req_query first) "limit") (JStr "100") = JStr (pretty n) ->
  js_or (get (req_query first) "offset") (JStr "0") = JStr (pretty k) ->
  js_or (get (req_query next) "limit") (JStr "100") = JStr (pretty m) ->
  js_or (get (req_query next) "offset") (JStr "0") = JStr (pretty (k + n)) ->
  js_or (get (req_query both) "limit") (JStr "100") = JStr (pretty (n + m)) ->
  js_or (get (req_query both) "offset") (JStr "0") = JStr (pretty k) ->
  0 <= n -> 0 <= m -> n + m <= 1000 -> 0 <= k < 2 ^ 52 ->
  available w ->
  exists rows1 rows2 r1 r2 r3 w',
    run (surveys_list first) w = (inr r1, w') /\
    run (surveys_list next) w = (inr r2, w') /\
    run (surveys_list both) w = (inr r3, w') /\
    get (json_of r1) "rows" = JArr rows1 /\
    get (json_of r2) "rows" = JArr rows2 /\
    get (json_of r3) "rows" = JArr (rows1 ++ rows2).
Proof.
  intros H1 H2 H3 H4 H5 H6 Hn Hm Hnm Hk Hav.
  assert (2 ^ 52 + 1000 < 2 ^ 53) by reflexivity. assert (1000 < 2 ^ 52) by reflexivity.
  rewrite (surveys_list_window first w n k H1 ltac:(lia) H2 ltac:(lia) Hav).
  rewrite (surveys_list_window next w m (k + n) H3 ltac:(lia) H4 ltac:(lia) Hav).
  rewrite (surveys_list_window both w (n + m) k H5 ltac:(lia) H6 ltac:(lia) Hav).
  eexists _, _, _, _, _, _.
  split; [reflexivity|]. split; [reflexivity|]. split; [reflexivity|].
  split; [reflexivity|]. split; [reflexivity|].
  cbn [json_of body json get lookup_prop String.eqb Ascii.eqb Bool.eqb]. f_equal.
  rewrite <- List.map_app. f_equal.
  rewrite !Z.min_l by lia.
  set (l := order_by_id DESC (surveys (db w))).
  rewrite !Z2Nat.inj_add by lia.
  rewrite (Nat.add_comm (Z.to_nat k)), <- List.skipn_skipn.
  apply firstn_add.
Qed.

(** ** The list against the export *)

Section Orders.

Lemma sorted_app_intro {A : Type} (R : A -> A -> Prop) (l1 l2 : list A) :
  StronglySorted R l1 -> StronglySorted R l2 ->
  (forall a b, In a l1 -> In b l2 -> R a b) ->
  StronglySorted R (l1 ++ l2).
Proof.
  intros H1 H2 H. induction H1 as [|a l1 Hs IH Ha]; [exact H2|].
  cbn [app]. constructor.
  - apply IH. intros x y Hx Hy. apply H; [now right | exact Hy].
  - apply List.Forall_app. split; [exact Ha|].
    apply List.Forall_forall. intros y Hy. apply H; [now left | exact Hy].
Qed.

Lemma sorted_rev {A : Type} (R : A -> A -> Prop) (l : list A) :
  StronglySorted R l -> StronglySorted (fun a b => R b a) (List.rev l).
Proof.
  induction 1 as [|a l Hs IH Ha]; [constructor|]. cbn [List.rev].
  apply sorted_app_intro; [exact IH | repeat constructor|].
  intros x y Hx [<-|[]]. apply List.in_rev in Hx.
  exact (proj1 (List.Forall_forall _ _) Ha x Hx).
Qed.

Lemma sorted_strict (l : list Row) :
  NoDup (List.map row_id l) ->
  StronglySorted (fun a b => row_id b <= row_id a) l ->
  StronglySorted (fun a b => row_id b < row_id a) l.
Proof.
  intros Hnd Hs. induction Hs as [|a l Hs IH Ha]; [constructor|].
  cbn [List.map] in Hnd. apply NoDup_cons in Hnd as [Hnot Hnd]. constructor; [now apply IH|].
  apply List.Forall_forall. intros b Hb.
  pose proof (proj1 (List.Forall_forall _ _) Ha b Hb) as Hle.
  assert (row_id b <> row_id a).
  { intros E. apply Hnot. rewrite <- E. apply list_elem_of_In. now apply List.in_map. }
  cbv beta in *. lia.
Qed.

Lemma sorted_perm_eq (l1 : list Row) :
  forall l2, Permutation l1 l2 ->
    StronglySorted (fun a b => row_id b < row_id a) l1 ->
    StronglySorted (fun a b => row_id b < row_id a) l2 ->
    l1 = l2.
Proof.
  induction l1 as [|a l1 IH]; intros l2 Hp H1 H2.
  - now apply Permutation_nil in Hp.
  - destruct l2 as [|b l2]; [now apply Permutation_sym, Permutation_nil in Hp|].
    apply StronglySorted_inv in H1 as [H1 Ha]. apply StronglySorted_inv in H2 as [H2 Hb].
    assert (Hab : a = b).
    { assert (Hin1 : In a (b :: l2)) by (eapply Permutation_in; [exact Hp | now left]).
      assert (Hin2 : In b (a :: l1))
        by (eapply Permutation_in; [apply Permutation_sym, Hp | now left]).
      destruct Hin1 as [E|Hin1]; [now symmetry|].
      destruct Hin2 as [E|Hin2]; [exact E|].
      pose proof (proj1 (List.Forall_forall _ _) Hb a Hin1).
      pose proof (proj1 (List.Forall_forall _ _) Ha b Hin2). cbv beta in *. lia. }
    subst b. f_equal. apply IH; [|exact H1 | exact H2].
    now apply Permutation_cons_inv in Hp.
Qed.

(** With distinct ids, the descending order is the ascending one
    reversed. *)
Lemma order_by_id_rev (l : list Row) :
  NoDup (List.map row_id l) ->
  order_by_id DESC l = List.rev (order_by_id ASC l).
Proof.
  intros Hnd.
  assert (Hperm : Permutation (order_by_id DESC l) (List.rev (order_by_id ASC l))).
  { etransitivity; [apply order_by_id_perm|].
    etransitivity; [apply Permutation_sym, (order_by_id_perm ASC)|]. apply Permutation_rev. }
  apply sorted_perm_eq; [exact Hperm| |].
  - apply sorted_strict.
    + assert (P : Permutation (List.map row_id (order_by_id DESC l)) (List.map row_id l))
        by apply Permutation_map, order_by_id_perm.
      now rewrite P.
    + eapply sorted_weaken; [|apply (order_by_id_sorted DESC)].
      intros a b H. now apply Z.leb_le in H.
  - apply sorted_strict.
    + assert (P : Permutation (List.map row_id (List.rev (order_by_id ASC l)))
                              (List.map row_id l)).
      { apply Permutation_map. etransitivity; [apply Permutation_sym, Permutation_rev|].
        apply order_by_id_perm. }
      now rewrite P.
    + apply (sorted_rev (fun a b => row_id a <= row_id b)).
      eapply sorted_weaken; [|apply (order_by_id_sorted ASC)].
      intros a b H. now apply Z.leb_le in H.
Qed.

End Orders.

(** X18. The list and the export show the same table in opposite orders:
    when the ids of the records are distinct, the rows the list answers
    are a window of the rows of the export taken backwards. *)
Theorem surveys_list_is_export_reversed (req : Request) (w : World) (n k : Z) :
  js_or (get (req_query req) "limit") (JStr "100") = JStr (pretty n) -> 0 <= n < 2 ^ 53 ->
  js_or (get (req_query req) "offset") (JStr "0") = JStr (pretty k) -> 0 <= k < 2 ^ 53 ->
  available w ->
  NoDup (List.map row_id (surveys (db w))) ->
  exists exported resp w1 w2,
    run (export_csv req) w
    = (inr {| status := 200;
              body := Send (String.concat newline
                              (String.concat "," export_header
                               :: List.map export_line exported)) |}, w1) /\
    run (surveys_list req) w = (inr resp, w2) /\
    get (json_of resp) "rows"
    = JArr (List.map row_object
              (List.firstn (Z.to_nat (Z.min n 1000))
                 (List.skipn (Z.to_nat k) (List.rev exported)))).
Proof.
  intros Hl Hn Hf Hk Hav Hnd.
  rewrite (export_csv_run req w Hav).
  rewrite (surveys_list_window req w n k Hl Hn Hf Hk Hav).
  eexists _, _, _, _. split; [reflexivity|]. split; [reflexivity|].
  cbn [json_of body json get lookup_prop String.eqb Ascii.eqb Bool.eqb].
  now rewrite order_by_id_rev.
Qed.

(** ** The admin gate *)

Section Admin.

Lemma ADMIN_KEY_cases (env : Env) :
  (ADMIN_KEY env = JNull /\ (env_ADMIN_KEY env = None \/ env_ADMIN_KEY env = Some "")) \/
  exists k, env_ADMIN_KEY env = Some k /\ k <> "" /\ ADMIN_KEY env = JStr k.
Proof.
  unfold ADMIN_KEY. destruct (env_ADMIN_KEY env) as [k|]; cbn [getenv].
  - destruct k as [|c k]; [left; split; [reflexivity | now right]|].
    right. exists (String c k). repeat split. discriminate.
  - left. split; [reflexivity | now left].
Qed.

Lemma strict_eq_JStr (v : JsVal) (k : string) : strict_eq v (JStr k) = true <-> v = JStr k.
Proof.
  split.
  - destruct v; cbn [strict_eq]; try discriminate. intros H. apply String.eqb_eq in H. now subst.
  - intros ->. cbn [strict_eq]. apply String.eqb_refl.
Qed.

Lemma requireAdmin_cases (env : Env) (header : JsVal) (req : Request) (next : Prog Response) :
  let key := js_or header (get (req_query req) "key") in
  (ADMIN_KEY env = JNull /\ requireAdmin env header req next = Ret admin_key_not_set) \/
  (exists k, env_ADMIN_KEY env = Some k /\ k <> "" /\ ADMIN_KEY env = JStr k /\
             ((key <> JStr k /\ requireAdmin env header req next = Ret unauthorized) \/
              (key = JStr k /\ requireAdmin env header req next = next))).
Proof.
  intros key. unfold requireAdmin. cbv zeta. fold key.
  destruct (ADMIN_KEY_cases env) as [[E _]|(k & Hk & Hne & E)]; rewrite E.
  - left. now split.
  - right. exists k. rewrite (truthy_JStr _ Hne). cbn [negb].
    split; [exact Hk|]. split; [exact Hne|]. split; [reflexivity|].
    destruct (strict_eq key (JStr k)) eqn:Heq; cbn [negb].
    + right. split; [now apply strict_eq_JStr | reflexivity].
    + left. split; [|reflexivity]. intros H. apply strict_eq_JStr in H. congruence.
Qed.

End Admin.

(** X20. The list and the export are served to the holder of the admin key
    only.  Without a key configured (unset or empty) they answer 501, and
    with a key that is not the configured one 401, in both cases before
    any query; an answer 200 means a key was configured and the request
    carried it.  The key of a request is its [x-admin-key] header, and
    the [key] of its query only when that header is absent or empty. *)
Theorem admin_routes_need_the_key (env : Env) (i : Incoming) (w : World) :
  route i = GET_surveys \/ route i = GET_export ->
  let key := js_or (x_admin_key i) (get (req_query (request i)) "key") in
  exists resp w',
    run (router env i) w = (inr resp, w') /\
    (ADMIN_KEY env = JNull -> resp = admin_key_not_set /\ w' = w) /\
    (ADMIN_KEY env <> JNull -> key <> ADMIN_KEY env -> resp = unauthorized /\ w' = w) /\
    (status resp = 200 ->
     exists k, env_ADMIN_KEY env = Some k /\ k <> "" /\ key = JStr k) /\
    (forall h, x_admin_key i = JStr h -> h <> "" -> key = JStr h).
Proof.
  intros Hroute key.
  assert (Hnext : exists next, router env i
                               = requireAdmin env (x_admin_key i) (request i) next /\
                               exists resp w', run next w = (inr resp, w')).
  { unfold router. destruct Hroute as [-> | ->].
    - eexists. split; [reflexivity|].
      destruct (surveys_list_answers (request i) w) as (resp & w' & H & _). now exists resp, w'.
    - eexists. split; [reflexivity|].
      destruct (export_csv_answers (request i) w) as (resp & w' & H & _). now exists resp, w'. }
  destruct Hnext as (next & -> & resp & w' & Hrun).
  assert (Hhead : forall h, x_admin_key i = JStr h -> h <> "" -> key = JStr h).
  { intros h Hh Hne. unfold key, js_or. now rewrite Hh, (truthy_JStr _ Hne). }
  subst key.
  destruct (requireAdmin_cases env (x_admin_key i) (request i) next)
    as [[E ->]|(k & Hk & Hne & E & [[Hkey ->]|[Hkey ->]])].
  - exists admin_key_not_set, w. split; [reflexivity|]. split; [now split|].
    split; [congruence|]. split; [discriminate | exact Hhead].
  - exists unauthorized, w. split; [reflexivity|]. split; [congruence|].
    split; [now split|]. split; [discriminate | exact Hhead].
  - exists resp, w'. split; [exact Hrun|]. split; [congruence|].
    split; [congruence|]. split; [|exact Hhead]. intros _. now exists k.
Qed.

(** ** The origins the server allows *)

Section Cors.

Lemma split_no_sep (sep : ascii) (s : string) :
  ~ In sep (list_ascii_of_string s) -> String_split sep s = [s].
Proof.
  induction s as [|c r IH]; [reflexivity|]. cbn [list_ascii_of_string String_split]. intros H.
  destruct (Ascii.eqb_spec c sep) as [->|Hc]; [destruct H; now left|].
  rewrite IH; [reflexivity|]. intros Hin. apply H. now right.
Qed.

Lemma split_app (sep : ascii) (s t : string) :
  ~ In sep (list_ascii_of_string s) ->
  String_split sep (s ++ String sep t) = s :: String_split sep t.
Proof.
  induction s as [|c r IH]; intros H.
  - change ("" ++ String sep t) with (String sep t). cbn [String_split].
    now rewrite Ascii.eqb_refl.
  - cbn [list_ascii_of_string] in H.
    change (String c r ++ String sep t) with (String c (r ++ String sep t)).
    cbn [String_split]. destruct (Ascii.eqb_spec c sep) as [->|Hc]; [destruct H; now left|].
    rewrite IH; [reflexivity|]. intros Hin. apply H. now right.
Qed.

(** Splitting what was joined gives the entries back. *)
Lemma split_concat (sep : ascii) (entries : list string) :
  entries <> [] ->
  Forall (fun e => ~ In sep (list_ascii_of_string e)) entries ->
  String_split sep (String.concat (String sep "") entries) = entries.
Proof.
  intros Hne H. induction H as [|e entries He Hrest IH]; [now destruct Hne|].
  destruct entries as [|e' entries].
  - cbn [String.concat]. now apply split_no_sep.
  - change (String.concat (String sep "") (e :: e' :: entries))
      with (e ++ String sep (String.concat (String sep "") (e' :: entries))).
    rewrite split_app by exact He. f_equal. now apply IH.
Qed.

End Cors.

(** X21. With [CORS_ORIGIN] set to a list of origins separated by commas,
    a request with an [Origin] header is allowed exactly when that header
    is one of the entries of the list, white space around an entry not
    counting: the header itself is compared as it is, and an entry ["*"]
    inside a longer list allows nothing but the origin ["*"]. *)
Theorem cors_allows_listed_origins (env : Env) (entries : list string) (origin : string) :
  env_CORS_ORIGIN env = Some (String.concat "," entries) ->
  entries <> [] ->
  Forall (fun e => ~ In ","%char (list_ascii_of_string e)) entries ->
  String.concat "," entries <> "" ->
  String.concat "," entries <> "*" ->
  origin <> "" ->
  cors_origin env (JStr origin) = true <-> In origin (List.map trim entries).
Proof.
  intros Henv Hne Hcomma Hempty Hstar Horigin.
  unfold cors_origin, CORS_ORIGIN. rewrite Henv. cbn [getenv].
  unfold js_or. rewrite (truthy_JStr _ Hempty), (truthy_JStr _ Horigin).
  cbn [negb orb strict_eq ToString].
  replace (String.concat "," entries =? "*")%string with false
    by (symmetry; now apply String.eqb_neq).
  cbv zeta. rewrite (split_concat ","%char entries Hne Hcomma).
  rewrite existsb_exists. split.
  - intros (a & Hin & Heq). apply String.eqb_eq in Heq. now subst.
  - intros Hin. exists origin. split; [exact Hin | apply String.eqb_refl].
Qed.

(** ** The export read back *)

Section Csv.

Lemma string_app_cons (c : ascii) (s t : string) : String c s ++ t = String c (s ++ t).
Proof. reflexivity. Qed.

Lemma read_quoted (s : string) :
  forall acc fields t,
    read_csv_from (InQuotes acc) fields (double_quotes s ++ t)
    = read_csv_from (InQuotes (List.rev (list_ascii_of_string s) ++ acc)) fields t.
Proof.
  induction s as [|c r IH]; intros acc fields t; [reflexivity|].
  cbn [double_quotes list_ascii_of_string List.rev].
  rewrite <- List.app_assoc. cbn [app].
  destruct (Ascii.eqb c dquote) eqn:E.
  - rewrite !string_app_cons. cbn [read_csv_from]. rewrite !E. apply IH.
  - rewrite string_app_cons. cbn [read_csv_from]. rewrite E. apply IH.
Qed.

Lemma field_read_after (v : JsVal) : field_read (read_after v) = Some (csv_field v).
Proof.
  unfold read_after, csv_field. destruct (is_null v); [reflexivity|].
  cbn [field_read]. unfold text_of.
  now rewrite List.rev_involutive, string_of_list_ascii_of_string.
Qed.

Lemma read_esc (v : JsVal) (fields : list Field) (t : string) :
  read_csv_from AtStart fields (esc v ++ t) = read_csv_from (read_after v) fields t.
Proof.
  unfold esc, read_after. destruct (is_null v); [reflexivity|].
  rewrite string_app_cons, string_app_assoc. cbn [read_csv_from].
  rewrite Ascii.eqb_refl, read_quoted, List.app_nil_r.
  rewrite string_app_cons. cbn [read_csv_from]. now rewrite Ascii.eqb_refl.
Qed.

Lemma read_after_comma (v : JsVal) (fields : list Field) (t : string) :
  read_csv_from (read_after v) fields (String ","%char t)
  = read_csv_from AtStart (csv_field v :: fields) t.
Proof.
  pose proof (field_read_after v) as H. unfold read_after in *.
  destruct (is_null v); cbn [read_csv_from]; now rewrite H.
Qed.

Lemma read_after_line_feed (v : JsVal) (fields : list Field) (t : string) :
  read_csv_from (read_after v) fields (String line_feed t)
  = match read_csv_from AtStart [] t with
    | Some records => Some (List.rev (csv_field v :: fields) :: records)
    | None => None
    end.
Proof.
  pose proof (field_read_after v) as H. unfold read_after in *.
  destruct (is_null v); cbn [read_csv_from]; now rewrite H.
Qed.

Lemma read_after_end (v : JsVal) (fields : list Field) :
  read_csv_from (read_after v) fields "" = Some [List.rev (csv_field v :: fields)].
Proof. cbn [read_csv_from]. now rewrite field_read_after. Qed.

Lemma concat_cons (sep x y : string) (l : list string) :
  String.concat sep (x :: y :: l) = x ++ sep ++ String.concat sep (y :: l).
Proof. reflexivity. Qed.

(** A line of values, at the end of the text or before a line feed. *)
Lemma read_line (vs : list JsVal) :
  vs <> [] ->
  forall fields,
    read_csv_from AtStart fields (String.concat "," (List.map esc vs))
    = Some [(List.rev fields ++ List.map csv_field vs)%list] /\
    forall t,
      read_csv_from AtStart fields (String.concat "," (List.map esc vs) ++ String line_feed t)
      = match read_csv_from AtStart [] t with
        | Some records => Some ((List.rev fields ++ List.map csv_field vs)%list :: records)
        | None => None
        end.
Proof.
  induction vs as [|v vs IH]; [congruence|]. intros _ fields.
  destruct vs as [|v' vs].
  - cbn [List.map String.concat]. split.
    + rewrite <- (string_app_nil_r (esc v)), read_esc, read_after_end. reflexivity.
    + intros t. rewrite read_esc, read_after_line_feed. reflexivity.
  - specialize (IH ltac:(discriminate) (csv_field v :: fields)) as [IH1 IH2].
    cbn [List.map] in *. rewrite concat_cons.
    change ("," ++ String.concat "," (esc v' :: List.map esc vs))
      with (String ","%char (String.concat "," (esc v' :: List.map esc vs))).
    cbn [List.rev] in IH1, IH2. rewrite <- List.app_assoc in IH1, IH2. cbn [app] in IH1, IH2.
    split.
    + now rewrite read_esc, read_after_comma.
    + intros t. rewrite string_app_assoc, string_app_cons, read_esc, read_after_comma.
      apply IH2.
Qed.

Lemma read_bare (s : string) :
  forallb (fun c => negb (Ascii.eqb c dquote || Ascii.eqb c ","%char || Ascii.eqb c line_feed))
          (list_ascii_of_string s) = true ->
  forall acc fields t,
    read_csv_from (InBare acc) fields (s ++ t)
    = read_csv_from (InBare (List.rev (list_ascii_of_string s) ++ acc)) fields t.
Proof.
  induction s as [|c r IH]; intros H acc fields t; [reflexivity|].
  cbn [list_ascii_of_string forallb] in H. apply andb_true_iff in H as [Hc Hr].
  apply negb_true_iff in Hc. apply orb_false_elim in Hc as [Hc H3].
  apply orb_false_elim in Hc as [H1 H2].
  rewrite string_app_cons. cbn [read_csv_from list_ascii_of_string List.rev].
  rewrite H1, H2, H3, <- List.app_assoc. now apply IH.
Qed.

Lemma read_name (h : string) (fields : list Field) (t : string) :
  plain_name h = true ->
  exists acc, text_of acc = h /\
    read_csv_from AtStart fields (h ++ t) = read_csv_from (InBare acc) fields t.
Proof.
  unfold plain_name. intros H. apply andb_true_iff in H as [Hne H].
  destruct h as [|c r]; [discriminate|].
  exists (List.rev (list_ascii_of_string (String c r))). split.
  { unfold text_of. now rewrite List.rev_involutive, string_of_list_ascii_of_string. }
  pose proof H as H'.
  cbn [list_ascii_of_string forallb] in H. apply andb_true_iff in H as [Hc Hr].
  apply negb_true_iff in Hc. apply orb_false_elim in Hc as [Hc H3].
  apply orb_false_elim in Hc as [H1 H2].
  rewrite string_app_cons. cbn [read_csv_from field_read].
  rewrite H1, H2, H3, (read_bare r Hr). cbn [list_ascii_of_string List.rev]. reflexivity.
Qed.

(** A line of plain names. *)
Lemma read_names (names : list string) :
  names <> [] -> forallb plain_name names = true ->
  forall fields,
    read_csv_from AtStart fields (String.concat "," names)
    = Some [(List.rev fields ++ List.map Bare names)%list] /\
    forall t,
      read_csv_from AtStart fields (String.concat "," names ++ String line_feed t)
      = match read_csv_from AtStart [] t with
        | Some records => Some ((List.rev fields ++ List.map Bare names)%list :: records)
        | None => None
        end.
Proof.
  induction names as [|h names IH]; [congruence|]. intros _ H fields.
  cbn [forallb] in H. apply andb_true_iff in H as [Hh H].
  destruct names as [|h' names].
  - cbn [List.map String.concat]. split.
    + destruct (read_name h fields "" Hh) as (acc & Hacc & E).
      rewrite string_app_nil_r in E. rewrite E. cbn [read_csv_from field_read].
      now rewrite Hacc.
    + intros t. destruct (read_name h fields (String line_feed t) Hh) as (acc & Hacc & ->).
      cbn [read_csv_from field_read]. now rewrite Hacc.
  - specialize (IH ltac:(discriminate) H (Bare h :: fields)) as [IH1 IH2].
    cbn [List.map] in *. rewrite concat_cons.
    change ("," ++ String.concat "," (h' :: names))
      with (String ","%char (String.concat "," (h' :: names))).
    cbn [List.rev] in IH1, IH2. rewrite <- List.app_assoc in IH1, IH2. cbn [app] in IH1, IH2.
    split.
    + destruct (read_name h fields (String ","%char (String.concat "," (h' :: names))) Hh)
        as (acc & Hacc & ->).
      cbn [read_csv_from field_read]. now rewrite Hacc.
    + intros t. rewrite string_app_assoc, string_app_cons.
      destruct (read_name h fields
                  (String ","%char (String.concat "," (h' :: names) ++ String line_feed t)) Hh)
        as (acc & Hacc & ->).
      cbn [read_csv_from field_read]. rewrite Hacc. apply IH2.
Qed.

Lemma export_line_esc (r : Row) :
  export_line r = String.concat "," (List.map esc (List.map (cell r) export_header)).
Proof. unfold export_line. now rewrite List.map_map. Qed.

Lemma read_lines (rows : list Row) :
  rows <> [] ->
  read_csv_from AtStart [] (String.concat newline (List.map export_line rows))
  = Some (List.map (fun r => List.map (fun h => csv_field (cell r h)) export_header) rows).
Proof.
  induction rows as [|r rows IH]; [congruence|]. intros _.
  destruct (read_line (List.map (cell r) export_header) ltac:(discriminate) []) as [H1 H2].
  cbn [List.rev app] in H1, H2.
  destruct rows as [|r' rows].
  - cbn [List.map String.concat]. now rewrite export_line_esc, H1, List.map_map.
  - cbn [List.map] in *. rewrite concat_cons.
    change (newline ++ String.concat newline (export_line r' :: List.map export_line rows))
      with (String line_feed
              (String.concat newline (export_line r' :: List.map export_line rows))).
    rewrite export_line_esc, H2, IH, List.map_map by discriminate. reflexivity.
Qed.

(** The text of the export reads back as the header and the rows. *)
Lemma read_export (rows : list Row) :
  read_csv (String.concat newline
              (String.concat "," export_header :: List.map export_line rows))
  = Some (List.map Bare export_header
          :: List.map (fun r => List.map (fun h => csv_field (cell r h)) export_header) rows).
Proof.
  unfold read_csv.
  destruct (read_names export_header ltac:(discriminate) eq_refl []) as [H1 H2].
  cbn [List.rev app] in H1, H2.
  destruct rows as [|r rows].
  - cbn [List.map String.concat]. exact H1.
  - change (String.concat newline
              (String.concat "," export_header :: List.map export_line (r :: rows)))
      with (String.concat "," export_header
            ++ String line_feed (String.concat newline (List.map export_line (r :: rows)))).
    now rewrite H2, read_lines.
Qed.

End Csv.

(** X19. The export can be read back: a reader of CSV (RFC 4180) finds in
    its text the header, one bare field per column of the table in table
    order, then one record per row of the table by ascending id, each
    with one field per column: the empty bare field for [null], and the
    quoted text of the value otherwise, whatever commas, quotes or line
    breaks that text holds. *)
Theorem export_csv_reads_back (req : Request) (w : World) :
  available w ->
  exists text w',
    run (export_csv req) w = (inr {| status := 200; body := Send text |}, w') /\
    read_csv text
    = Some (List.map Bare column_names
            :: List.map (fun r => List.map (fun h => csv_field (cell r h)) column_names)
                        (order_by_id ASC (surveys (db w)))).
Proof.
  intros Hav. rewrite (export_csv_run req w Hav).
  eexists _, _. split; [reflexivity|].
  change column_names with export_header. apply read_export.
Qed.

(** ** Fields as they are stored *)

Section Fields.

Lemma trim_pretty (z : Z) : trim (pretty z) = pretty z.
Proof.
  destruct z as [|p|p]; [reflexivity| |].
  - destruct (pretty_digits p) as (c & r & E & Hd). rewrite E.
    now destruct (numeral_shape c r Hd) as (Ht & _).
  - destruct (pretty_digits p) as (c & r & E & Hd).
    change (pretty (Zneg p)) with (String "-"%char (pretty (Zpos p))).
    unfold trim. cbn [trim_start]. change (is_whitespace "-"%char) with false. cbn iota.
    rewrite trim_end_cons, E, (trim_end_digits _ Hd). reflexivity.
Qed.

Lemma of_Z_finite (z : Z) : - 2 ^ 53 < z < 2 ^ 53 -> Number_isFinite (of_Z z) = true.
Proof. intros H. now apply (Math_round_normalize z false). Qed.

Lemma Math_round_of_Z (z : Z) : - 2 ^ 53 < z < 2 ^ 53 -> Math_round (of_Z z) = of_Z z.
Proof. intros H. now apply (Math_round_normalize z false). Qed.

Lemma plus_zero_of_Z (z : Z) : - 2 ^ 53 < z < 2 ^ 53 -> plus_zero (of_Z z) = of_Z z.
Proof.
  intros H. unfold of_Z. destruct z as [|p|p]; cbn [binary_normalize]; [reflexivity| |];
    now rewrite binary_round_exact by lia.
Qed.

Lemma toIntOrNull_of_Z (z : Z) :
  - 2 ^ 53 < z < 2 ^ 53 -> toIntOrNull (JNum (of_Z z)) = JNum (of_Z z).
Proof.
  intros Hz. unfold toIntOrNull. cbn [is_null is_empty_string orb ToNumber].
  now rewrite of_Z_finite, Math_round_of_Z.
Qed.

Lemma toIntOrNull_pretty (z : Z) :
  - 2 ^ 53 < z < 2 ^ 53 -> toIntOrNull (JStr (pretty z)) = JNum (of_Z z).
Proof.
  intros Hz. unfold toIntOrNull. cbn [is_null is_empty_string orb ToNumber].
  replace (pretty z =? "")%string with false
    by (symmetry; apply String.eqb_neq, pretty_not_empty).
  now rewrite StringToNumber_pretty, of_Z_finite, Math_round_of_Z.
Qed.

Lemma toTextOrNull_held (v : JsVal) : trimmed v -> toTextOrNull v = v.
Proof.
  intros (s & -> & Hs & Ht). unfold toTextOrNull. cbn [is_null ToString]. rewrite Ht.
  destruct s as [|c r]; [now destruct Hs | reflexivity].
Qed.

(** The columns of the text fields and of the integer fields. *)
Lemma text_and_integer_columns :
  Forall (fun f => f.2 <> KFloat ->
                   (f.2 = KText /\ column_type f.1.2 = TEXT) \/
                   (f.2 = KInt /\ (column_type f.1.2 = INTEGER \/ column_type f.1.2 = BIGINT)))
         metric_fields.
Proof.
  repeat (constructor;
          [cbn [fst snd]; intros H;
           first [now destruct H | left; split; reflexivity
                 | right; split; [reflexivity|]; first [now left | now right]]|]).
  constructor.
Qed.

(** A value a text or integer column holds, normalized and stored again,
    is that value. *)
Lemma held_again (k : Kind) (ty : ColType) (v : JsVal) :
  (k = KText /\ ty = TEXT) \/ (k = KInt /\ (ty = INTEGER \/ ty = BIGINT)) ->
  held ty v -> stored ty (normalize k v) = v.
Proof.
  intros Hk [->|Hv].
  { rewrite normalize_absent by (right; now left). apply stored_null. }
  destruct Hk as [[-> ->]|[-> [->| ->]]]; cbn [held normalize] in *.
  - rewrite (toTextOrNull_held _ Hv). reflexivity.
  - destruct Hv as (z & Hz & ->). rewrite toIntOrNull_of_Z by exact Hz.
    cbn [stored]. now rewrite plus_zero_of_Z.
  - destruct Hv as (z & Hz & ->). rewrite toIntOrNull_pretty by exact Hz.
    cbn [stored]. unfold of_Z. now rewrite integer_of_normalize.
Qed.

End Fields.

(** X23. An integer sent as its decimal numeral (as a form does) is stored
    as that integer, in an integer field and in a float field alike, for
    every integer a double holds exactly. *)
Theorem numerals_are_stored_as_integers (z : Z) :
  - 2 ^ 53 < z < 2 ^ 53 ->
  toIntOrNull (JStr (pretty z)) = JNum (of_Z z) /\
  toFloatOrNull (JStr (pretty z)) = JNum (of_Z z).
Proof.
  intros Hz. unfold toIntOrNull, toFloatOrNull. cbn [is_null is_empty_string orb ToNumber].
  replace (pretty z =? "")%string with false
    by (symmetry; apply String.eqb_neq, pretty_not_empty).
  rewrite StringToNumber_pretty, of_Z_finite, Math_round_of_Z by exact Hz. now split.
Qed.

(** X24. Only the empty string counts as "no value" for a numeric field: a
    string of white space alone is stored as the number 0, not as [null],
    in an integer and in a float field, while a text field stores it as
    [null]. *)
Theorem blank_numbers_are_zero (s : string) :
  s <> "" -> trim s = "" ->
  toIntOrNull (JStr s) = JNum (of_Z 0) /\
  toFloatOrNull (JStr s) = JNum (of_Z 0) /\
  toTextOrNull (JStr s) = JNull.
Proof.
  intros Hs Ht. unfold toIntOrNull, toFloatOrNull, toTextOrNull.
  cbn [is_null is_empty_string orb ToNumber ToString].
  replace (s =? "")%string with false by (symmetry; now apply String.eqb_neq).
  unfold StringToNumber. rewrite Ht. repeat split.
Qed.

(** X22. What [toTextOrNull] gives is [null] or a string that is not empty
    and has no white space at either end, and [toTextOrNull] leaves it as
    it is. *)
Theorem toTextOrNull_normal_form (v : JsVal) :
  (toTextOrNull v = JNull \/
   exists s, toTextOrNull v = JStr s /\ s <> "" /\ trim s = s) /\
  toTextOrNull (toTextOrNull v) = toTextOrNull v.
Proof.
  split; [|apply toTextOrNull_idem].
  destruct (toTextOrNull_cases v) as [H|(s & H & Hs)]; [now left|].
  right. exists s. split; [exact H|]. split; [exact Hs|].
  destruct (toTextOrNull_trimmed v s H) as (s' & E & _ & Ht). now injection E as <-.
Qed.

(** X25. An identifier sent as a number and the same identifier sent as its
    numeral are one identifier: both submissions address the record of
    the numeral. *)
Theorem numeric_identifier_is_its_numeral (a b : Request) (z : Z) :
  - 2 ^ 52 < z < 2 ^ 52 ->
  get (js_or (req_body a) (JObj [])) "storeIdentifier" = JNum (of_Z z) ->
  get (js_or (req_body b) (JObj [])) "storeIdentifier" = JStr (pretty z) ->
  submitted_identifier a = JStr (pretty z) /\ submitted_identifier b = JStr (pretty z).
Proof.
  intros Hz Ha Hb. unfold submitted_identifier. rewrite Ha, Hb.
  unfold toTextOrNull. cbn [is_null ToString].
  rewrite Number_toString_of_Z, trim_pretty by exact Hz.
  pose proof (pretty_not_empty z) as Hne.
  destruct (pretty z) as [|c r]; [now destruct Hne | now split].
Qed.

(** X6. Sending back what the fetch route answers changes none of the
    text and integer values of a record: when the record holds, in its
    text and integer columns, values as the table holds them ([null],
    trimmed strings, integers, numerals of integers in the [BIGINT]
    columns), an accepted submission that carries, field by field, the
    values of the record leaves every text and integer field as it was
    (the numerals are read as the integers they denote and stored as the
    same numerals). *)
Theorem resubmission_keeps_values
    (req : Request) (s : string) (w w' : World) (resp : Response)
    (r : Row) (rest : list Row) :
  submitted_identifier req = JStr s ->
  records_of s (db w) = r :: rest ->
  Forall (fun f => held (column_type f.1.2) (cell r f.1.2)) metric_fields ->
  Forall (fun f => get (js_or (req_body req) (JObj [])) f.1.1 = cell r f.1.2) metric_fields ->
  run (saveSurvey req) w = (inr resp, w') ->
  status resp = 200 ->
  exists r' rest',
    records_of s (db w') = r' :: rest' /\
    Forall (fun f => f.2 <> KFloat -> cell r' f.1.2 = cell r f.1.2) metric_fields.
Proof.
  intros Hid Hrec Hheld Hsame Hrun Hst.
  destruct (saveSurvey_stored req s w w' resp Hid Hrun Hst) as (r' & rest' & Hrec' & _ & Hcells).
  exists r', rest'. split; [exact Hrec'|].
  pose proof (stored_cells req s r' Hcells) as Hnorm.
  apply Forall_forall. intros f Hin Hk.
  pose proof (proj1 (Forall_forall _ _) Hnorm f Hin) as H1.
  pose proof (proj1 (Forall_forall _ _) Hsame f Hin) as H2.
  pose proof (proj1 (Forall_forall _ _) Hheld f Hin) as H3.
  pose proof (proj1 (Forall_forall _ _) text_and_integer_columns f Hin Hk) as H4.
  cbv beta in *. rewrite H1, H2. unfold kept. now apply held_again.
Qed.

(** ** Answers and ids *)

Section Answers.

Lemma row_id_inserted now seq d :
  0 <= seq < 2 ^ 53 -> row_id (inserted_row now seq d) = seq.
Proof.
  intros H. unfold row_id. rewrite inserted_row_id. now rewrite integer_of_of_Z.
Qed.

Lemma row_id_assign now d cc r :
  row_id (assign (update_values now d cc) r) = row_id r.
Proof. unfold row_id. now rewrite cell_assign, update_values_id. Qed.

Lemma wf_db_row_id (d : Db) (r : Row) :
  wf_db d -> In r (surveys d) -> 0 < row_id r < surveys_id_seq d.
Proof.
  intros [Hseq Hrows] Hin.
  destruct (proj1 (List.Forall_forall _ _) Hrows r Hin) as (i & Hi & Hlt).
  unfold row_id. rewrite Hi, integer_of_of_Z by lia. exact Hlt.
Qed.

End Answers.

(** X1. A submission is always answered, and with one of five statuses:
    200, 400, 403, 409 or 500; no exception leaves the handler, whatever
    the request holds and whatever the engine does. *)
Theorem saveSurvey_always_answers (req : Request) (w : World) :
  exists resp w',
    run (saveSurvey req) w = (inr resp, w') /\
    In (status resp) [200; 400; 403; 409; 500].
Proof.
  destruct (submitted_identifier_cases req) as [[_ Hid]|[_ [_ Hid]]].
  { exists identifier_required, w. rewrite (saveSurvey_invalid _ _ Hid).
    split; [reflexivity|]. cbn. tauto. }
  destruct (saveSurvey_answers req _ w Hid) as (resp & w' & Hrun & Hcases).
  exists resp, w'. split; [exact Hrun|].
  destruct Hcases as [->|[->|[->|(i & t & ->)]]]; cbn; tauto.
Qed.

(** X10. Every record keeps an id of its own: a submission gives a new
    record an id no other record has and never changes the id of a record
    it updates, so the ids of the table stay distinct. *)
Theorem ids_stay_distinct (req : Request) (w : World) :
  wf_db (db w) ->
  NoDup (List.map row_id (surveys (db w))) ->
  NoDup (List.map row_id (surveys (db (run (saveSurvey req) w).2))).
Proof.
  intros Hwf Hnd.
  destruct (submitted_identifier_cases req) as [[_ Hid]|[_ [_ Hid]]].
  { now rewrite (saveSurvey_invalid _ _ Hid). }
  destruct (saveSurvey_outcomes req _ w Hid) as (resp & w' & -> & _ & Hcases).
  cbn [snd].
  destruct Hcases as [[_ ->]|[(_ & _ & ->)|(r & rest & _ & _ & _ & ->)]].
  - exact Hnd.
  - rewrite List.map_app. cbn [List.map].
    assert (Hseq : 0 <= surveys_id_seq (db w) < 2 ^ 53) by (destruct Hwf as [? _]; lia).
    rewrite row_id_inserted by exact Hseq.
    apply NoDup_app. split; [exact Hnd|]. split; [|apply NoDup_singleton].
    intros i Hi Hin. apply list_elem_of_singleton in Hin. subst i.
    apply list_elem_of_In, List.in_map_iff in Hi as (x & Hx & Hin).
    pose proof (wf_db_row_id _ _ Hwf Hin). lia.
  - rewrite List.map_map.
    erewrite List.map_ext; [exact Hnd|].
    intros x. cbv beta. destruct (has_identifier _ x); [apply row_id_assign | reflexivity].
Qed.

(* ===================================================================== *)
(** * The scenario, run                                                   *)
(* ===================================================================== *)

Lemma world_1_rows : surveys (db world_1) = [record_1].
Proof. reflexivity. Qed.

Lemma world_2_rows : surveys (db world_2) = [record_1; record_2].
Proof. reflexivity. Qed.

Lemma X4_witness :
  submitted_identifier revision <> JStr "S2" /\
  records_of "S2" (db (run (saveSurvey revision) world_2).2) = records_of "S2" (db world_2).
Proof.
  assert (H : submitted_identifier revision <> JStr "S2") by (vm_compute; discriminate).
  split; [exact H|].
  exact (saveSurvey_leaves_other_identifiers revision "S2" world_2 H).
Defined.


Lemma X6_witness :
  (submitted_identifier resubmission = JStr "S1" /\
   records_of "S1" (db (at_time 1700000006000 world_1)) = [record_1] /\
   Forall (fun f => held (column_type f.1.2) (cell record_1 f.1.2)) metric_fields /\
   Forall (fun f => get (js_or (req_body resubmission) (JObj [])) f.1.1 = cell record_1 f.1.2)
          metric_fields /\
   run (saveSurvey resubmission) (at_time 1700000006000 world_1)
   = (inr response_resubmitted, world_resubmitted) /\
   status response_resubmitted = 200) /\
  exists r' rest',
    records_of "S1" (db world_resubmitted) = r' :: rest' /\
    Forall (fun f => f.2 <> KFloat -> cell r' f.1.2 = cell record_1 f.1.2) metric_fields.
Proof.
  assert (H1 : submitted_identifier resubmission = JStr "S1") by reflexivity.
  assert (H2 : records_of "S1" (db (at_time 1700000006000 world_1)) = [record_1])
    by reflexivity.
  assert (H3 : Forall (fun f => held (column_type f.1.2) (cell record_1 f.1.2))
                      metric_fields).
  { repeat (constructor;
            [first [ left; reflexivity
                   | right; hnf; exists "Noodle Bar";
                     split; [reflexivity | split; [discriminate | reflexivity]]
                   | right; hnf; exists 13; split; [split; reflexivity | reflexivity]
                   | right; hnf; exists 0; split; [split; reflexivity | reflexivity]
                   | right; hnf; exists 50000; split; [split; reflexivity | reflexivity]
                   | right; exact I ]|]).
    constructor. }
  assert (H4 : Forall (fun f => get (js_or (req_body resubmission) (JObj [])) f.1.1
                                = cell record_1 f.1.2) metric_fields)
    by (repeat (constructor; [reflexivity|]); constructor).
  assert (H5 : run (saveSurvey resubmission) (at_time 1700000006000 world_1)
               = (inr response_resubmitted, world_resubmitted)) by reflexivity.
  assert (H6 : status response_resubmitted = 200) by reflexivity.
  split; [exact (conj H1 (conj H2 (conj H3 (conj H4 (conj H5 H6)))))|].
  exact (resubmission_keeps_values resubmission "S1" (at_time 1700000006000 world_1)
           world_resubmitted response_resubmitted record_1 [] H1 H2 H3 H4 H5 H6).
Defined.

Lemma X7_witness :
  unique_identifiers (db world_1) /\
  unique_identifiers
    (db (run_all [0; 1; 1; 0; 2; 3; 3]%nat (List.map (router env_example) in_flight) world_1).2).
Proof.
  assert (H : unique_identifiers (db world_1)).
  { intros s. unfold records_of. rewrite world_1_rows. cbn [List.filter].
    destruct (has_identifier s record_1); cbn [length]; lia. }
  split; [exact H|].
  exact (identifiers_stay_unique env_example [0; 1; 1; 0; 2; 3; 3]%nat in_flight world_1 H).
Defined.

Lemma X8_witness :
  counts_capped (db world_1) /\
  counts_capped
    (db (run_all [0; 1; 1; 0; 2; 3; 3]%nat (List.map (router env_example) in_flight) world_1).2).
Proof.
  assert (H : counts_capped (db world_1)).
  { unfold counts_capped. rewrite world_1_rows.
    constructor; [|constructor]. exists 0. split; [reflexivity | lia]. }
  split; [exact H|].
  exact (counts_stay_capped env_example [0; 1; 1; 0; 2; 3; 3]%nat in_flight world_1 H).
Defined.

Lemma X9_witness :
  identifiers_trimmed (db world_1) /\
  identifiers_trimmed
    (db (run_all [0; 1; 1; 0; 2; 3; 3]%nat (List.map (router env_example) in_flight) world_1).2).
Proof.
  assert (H : identifiers_trimmed (db world_1)).
  { unfold identifiers_trimmed. rewrite world_1_rows.
    constructor; [|constructor]. exists "S1".
    split; [reflexivity | split; [discriminate | reflexivity]]. }
  split; [exact H|].
  exact (identifiers_stay_trimmed env_example [0; 1; 1; 0; 2; 3; 3]%nat in_flight world_1 H).
Defined.

Lemma X10_witness :
  (wf_db (db world_1) /\ NoDup (List.map row_id (surveys (db world_1)))) /\
  NoDup (List.map row_id (surveys (db (run (saveSurvey second_store) world_1).2))).
Proof.
  assert (H1 : wf_db (db world_1)).
  { split; [split; reflexivity|]. rewrite world_1_rows.
    constructor; [|constructor]. exists 1. split; [reflexivity | split; reflexivity]. }
  assert (H2 : NoDup (List.map row_id (surveys (db world_1)))).
  { rewrite world_1_rows. apply NoDup_singleton. }
  split; [exact (conj H1 H2)|].
  exact (ids_stay_distinct second_store world_1 H1 H2).
Defined.



Lemma X14_witness :
  (identifiers_trimmed (db world_1) /\ next_fault world_1 = None /\
   trim (req_params_identifier (lookup_of " S1 ")) <> req_params_identifier (lookup_of " S1 ")) /\
  exists w',
    run (survey_status (lookup_of " S1 ")) world_1
    = (inr (json (JObj [("exists", JBool false); ("update_count", JNum (of_Z 0))])), w') /\
    run (survey_fetch (lookup_of " S1 ")) world_1 = (inr not_found, w').
Proof.
  assert (H1 : identifiers_trimmed (db world_1)).
  { unfold identifiers_trimmed. rewrite world_1_rows.
    constructor; [|constructor]. exists "S1".
    split; [reflexivity | split; [discriminate | reflexivity]]. }
  assert (H2 : next_fault world_1 = None) by reflexivity.
  assert (H3 : trim (req_params_identifier (lookup_of " S1 "))
               <> req_params_identifier (lookup_of " S1 ")) by (vm_compute; discriminate).
  split; [exact (conj H1 (conj H2 H3))|].
  exact (untrimmed_lookup_misses (lookup_of " S1 ") world_1 H1 H2 H3).
Defined.

Lemma X15_witness :
  (js_or (get (req_query (page "5000" "1")) "limit") (JStr "100") = JStr (pretty 5000) /\
   0 <= 5000 < 2 ^ 53 /\
   js_or (get (req_query (page "5000" "1")) "offset") (JStr "0") = JStr (pretty 1) /\
   0 <= 1 < 2 ^ 53 /\
   available world_2 /\
   Z.of_nat (length (surveys (db world_2))) < 2 ^ 52) /\
  let total := Z.of_nat (length (surveys (db world_2))) in
  exists rows w',
    run (surveys_list (page "5000" "1")) world_2
    = (inr (json (JObj [("rows", JArr (List.map row_object rows));
                        ("limit", JNum (of_Z (Z.min 5000 1000)));
                        ("offset", JNum (of_Z 1));
                        ("total", JNum (of_Z total));
                        ("count", JNum (of_Z (Z.of_nat (length rows))))])), w') /\
    rows = List.firstn (Z.to_nat (Z.min 5000 1000))
             (List.skipn (Z.to_nat 1) (order_by_id DESC (surveys (db world_2)))) /\
    Z.of_nat (length rows) = Z.min (Z.min 5000 1000) (Z.max (total - 1) 0).
Proof.
  assert (H1 : js_or (get (req_query (page "5000" "1")) "limit") (JStr "100")
               = JStr (pretty 5000)) by reflexivity.
  assert (H2 : 0 <= 5000 < 2 ^ 53) by (split; [discriminate | reflexivity]).
  assert (H3 : js_or (get (req_query (page "5000" "1")) "offset") (JStr "0")
               = JStr (pretty 1)) by reflexivity.
  assert (H4 : 0 <= 1 < 2 ^ 53) by (split; [discriminate | reflexivity]).
  assert (H5 : available world_2) by constructor.
  assert (H6 : Z.of_nat (length (surveys (db world_2))) < 2 ^ 52)
    by (rewrite world_2_rows; reflexivity).
  split; [exact (conj H1 (conj H2 (conj H3 (conj H4 (conj H5 H6)))))|].
  exact (surveys_list_reports_window (page "5000" "1") world_2 5000 1 H1 H2 H3 H4 H5 H6).
Defined.

Lemma X16_witness :
  (let limit := parseInt (js_or (get (req_query (page "abc" "0")) "limit") (JStr "100"))
                  (Some 10) in
   let offset := parseInt (js_or (get (req_query (page "abc" "0")) "offset") (JStr "0"))
                   (Some 10) in
   limit = NaN \/ (exists k, 0 < k < 2 ^ 53 /\ limit = SFopp (of_Z k)) \/ offset = NaN) /\
  exists w', run (surveys_list (page "abc" "0")) world_2 = (inr database_error, w') /\
             db w' = db world_2.
Proof.
  assert (H : let limit := parseInt (js_or (get (req_query (page "abc" "0")) "limit")
                                       (JStr "100")) (Some 10) in
              let offset := parseInt (js_or (get (req_query (page "abc" "0")) "offset")
                                        (JStr "0")) (Some 10) in
              limit = NaN \/ (exists k, 0 < k < 2 ^ 53 /\ limit = SFopp (of_Z k))
              \/ offset = NaN) by (left; reflexivity).
  split; [exact H|].
  exact (surveys_list_refuses_bad_window (page "abc" "0") world_2 H).
Defined.

Lemma X17_witness :
  (js_or (get (req_query (page "1" "0")) "limit") (JStr "100") = JStr (pretty 1) /\
   js_or (get (req_query (page "1" "0")) "offset") (JStr "0") = JStr (pretty 0) /\
   js_or (get (req_query (page "1" "1")) "limit") (JStr "100") = JStr (pretty 1) /\
   js_or (get (req_query (page "1" "1")) "offset") (JStr "0") = JStr (pretty (0 + 1)) /\
   js_or (get (req_query (page "2" "0")) "limit") (JStr "100") = JStr (pretty (1 + 1)) /\
   js_or (get (req_query (page "2" "0")) "offset") (JStr "0") = JStr (pretty 0) /\
   0 <= 1 /\ 0 <= 1 /\ 1 + 1 <= 1000 /\ 0 <= 0 < 2 ^ 52 /\
   available world_2) /\
  exists rows1 rows2 r1 r2 r3 w',
    run (surveys_list (page "1" "0")) world_2 = (inr r1, w') /\
    run (surveys_list (page "1" "1")) world_2 = (inr r2, w') /\
    run (surveys_list (page "2" "0")) world_2 = (inr r3, w') /\
    get (json_of r1) "rows" = JArr rows1 /\
    get (json_of r2) "rows" = JArr rows2 /\
    get (json_of r3) "rows" = JArr (rows1 ++ rows2).
Proof.
  assert (H1 : js_or (get (req_query (page "1" "0")) "limit") (JStr "100")
               = JStr (pretty 1)) by reflexivity.
  assert (H2 : js_or (get (req_query (page "1" "0")) "offset") (JStr "0")
               = JStr (pretty 0)) by reflexivity.
  assert (H3 : js_or (get (req_query (page "1" "1")) "limit") (JStr "100")
               = JStr (pretty 1)) by reflexivity.
  assert (H4 : js_or (get (req_query (page "1" "1")) "offset") (JStr "0")
               = JStr (pretty (0 + 1))) by reflexivity.
  assert (H5 : js_or (get (req_query (page "2" "0")) "limit") (JStr "100")
               = JStr (pretty (1 + 1))) by reflexivity.
  assert (H6 : js_or (get (req_query (page "2" "0")) "offset") (JStr "0")
               = JStr (pretty 0)) by reflexivity.
  assert (H7 : 0 <= 1) by discriminate.
  assert (H8 : 1 + 1 <= 1000) by discriminate.
  assert (H9 : 0 <= 0 < 2 ^ 52) by (split; [discriminate | reflexivity]).
  assert (H10 : available world_2) by constructor.
  split; [exact (conj H1 (conj H2 (conj H3 (conj H4 (conj H5 (conj H6
                  (conj H7 (conj H7 (conj H8 (conj H9 H10))))))))))|].
  exact (consecutive_pages_tile (page "1" "0") (page "1" "1") (page "2" "0") world_2 1 1 0
           H1 H2 H3 H4 H5 H6 H7 H7 H8 H9 H10).
Defined.

Lemma X18_witness :
  (js_or (get (req_query (page "5000" "0")) "limit") (JStr "100") = JStr (pretty 5000) /\
   0 <= 5000 < 2 ^ 53 /\
   js_or (get (req_query (page "5000" "0")) "offset") (JStr "0") = JStr (pretty 0) /\
   0 <= 0 < 2 ^ 53 /\
   available world_2 /\
   NoDup (List.map row_id (surveys (db world_2)))) /\
  exists exported resp w1 w2,
    run (export_csv (page "5000" "0")) world_2
    = (inr {| status := 200;
              body := Send (String.concat newline
                              (String.concat "," export_header
                               :: List.map export_line exported)) |}, w1) /\
    run (surveys_list (page "5000" "0")) world_2 = (inr resp, w2) /\
    get (json_of resp) "rows"
    = JArr (List.map row_object
              (List.firstn (Z.to_nat (Z.min 5000 1000))
                 (List.skipn (Z.to_nat 0) (List.rev exported)))).
Proof.
  assert (H1 : js_or (get (req_query (page "5000" "0")) "limit") (JStr "100")
               = JStr (pretty 5000)) by reflexivity.
  assert (H2 : 0 <= 5000 < 2 ^ 53) by (split; [discriminate | reflexivity]).
  assert (H3 : js_or (get (req_query (page "5000" "0")) "offset") (JStr "0")
               = JStr (pretty 0)) by reflexivity.
  assert (H4 : 0 <= 0 < 2 ^ 53) by (split; [discriminate | reflexivity]).
  assert (H5 : available world_2) by constructor.
  assert (H6 : NoDup (List.map row_id (surveys (db world_2)))).
  { rewrite world_2_rows. change (NoDup [1; 2]).
    apply NoDup_cons. split; [|apply NoDup_singleton].
    rewrite list_elem_of_singleton. discriminate. }
  split; [exact (conj H1 (conj H2 (conj H3 (conj H4 (conj H5 H6)))))|].
  exact (surveys_list_is_export_reversed (page "5000" "0") world_2 5000 0 H1 H2 H3 H4 H5 H6).
Defined.

Lemma X19_witness :
  available world_2 /\
  exists text w',
    run (export_csv (page "1" "0")) world_2
    = (inr {| status := 200; body := Send text |}, w') /\
    read_csv text
    = Some (List.map Bare column_names
            :: List.map (fun r => List.map (fun h => csv_field (cell r h)) column_names)
                        (order_by_id ASC (surveys (db world_2)))).
Proof.
  assert (H : available world_2) by constructor.
  split; [exact H|].
  exact (export_csv_reads_back (page "1" "0") world_2 H).
Defined.

Lemma X20_witness :
  (route (incoming GET_export (page "1" "0") (JStr "secret")) = GET_surveys \/
   route (incoming GET_export (page "1" "0") (JStr "secret")) = GET_export) /\
  let i := incoming GET_export (page "1" "0") (JStr "secret") in
  let key := js_or (x_admin_key i) (get (req_query (request i)) "key") in
  exists resp w',
    run (router env_example i) world_2 = (inr resp, w') /\
    (ADMIN_KEY env_example = JNull -> resp = admin_key_not_set /\ w' = world_2) /\
    (ADMIN_KEY env_example <> JNull -> key <> ADMIN_KEY env_example ->
     resp = unauthorized /\ w' = world_2) /\
    (status resp = 200 ->
     exists k, env_ADMIN_KEY env_example = Some k /\ k <> "" /\ key = JStr k) /\
    (forall h, x_admin_key i = JStr h -> h <> "" -> key = JStr h).
Proof.
  assert (H : route (incoming GET_export (page "1" "0") (JStr "secret")) = GET_surveys \/
              route (incoming GET_export (page "1" "0") (JStr "secret")) = GET_export)
    by (right; reflexivity).
  split; [exact H|].
  exact (admin_routes_need_the_key env_example
           (incoming GET_export (page "1" "0") (JStr "secret")) world_2 H).
Defined.

Lemma X21_witness :
  (env_CORS_ORIGIN env_example
   = Some (String.concat "," ["https://a.example"; " https://b.example"]) /\
   ["https://a.example"; " https://b.example"] <> [] /\
   Forall (fun e => ~ In ","%char (list_ascii_of_string e))
          ["https://a.example"; " https://b.example"] /\
   String.concat "," ["https://a.example"; " https://b.example"] <> "" /\
   String.concat "," ["https://a.example"; " https://b.example"] <> "*" /\
   "https://b.example" <> "") /\
  (cors_origin env_example (JStr "https://b.example") = true <->
   In "https://b.example" (List.map trim ["https://a.example"; " https://b.example"])).
Proof.
  assert (H1 : env_CORS_ORIGIN env_example
               = Some (String.concat "," ["https://a.example"; " https://b.example"]))
    by reflexivity.
  assert (H2 : ["https://a.example"; " https://b.example"] <> []) by discriminate.
  assert (H3 : Forall (fun e => ~ In ","%char (list_ascii_of_string e))
                      ["https://a.example"; " https://b.example"]).
  { repeat constructor; intros H; cbn in H;
      repeat (destruct H as [H | H]; [discriminate H|]); exact H. }
  assert (H4 : String.concat "," ["https://a.example"; " https://b.example"] <> "")
    by (vm_compute; discriminate).
  assert (H5 : String.concat "," ["https://a.example"; " https://b.example"] <> "*")
    by (vm_compute; discriminate).
  assert (H6 : "https://b.example" <> "") by discriminate.
  split; [exact (conj H1 (conj H2 (conj H3 (conj H4 (conj H5 H6)))))|].
  exact (cors_allows_listed_origins env_example ["https://a.example"; " https://b.example"]
           "https://b.example" H1 H2 H3 H4 H5 H6).
Defined.

Lemma X23_witness :
  - 2 ^ 53 < 50000 < 2 ^ 53 /\
  toIntOrNull (JStr (pretty 50000)) = JNum (of_Z 50000) /\
  toFloatOrNull (JStr (pretty 50000)) = JNum (of_Z 50000).
Proof.
  assert (H : - 2 ^ 53 < 50000 < 2 ^ 53) by (split; reflexivity).
  split; [exact H|].
  exact (numerals_are_stored_as_integers 50000 H).
Defined.

Lemma X24_witness :
  ("  " <> "" /\ trim "  " = "") /\
  toIntOrNull (JStr "  ") = JNum (of_Z 0) /\
  toFloatOrNull (JStr "  ") = JNum (of_Z 0) /\
  toTextOrNull (JStr "  ") = JNull.
Proof.
  assert (H1 : "  " <> "") by discriminate.
  assert (H2 : trim "  " = "") by reflexivity.
  split; [exact (conj H1 H2)|].
  exact (blank_numbers_are_zero "  " H1 H2).
Defined.

Lemma X25_witness :
  (- 2 ^ 52 < 7 < 2 ^ 52 /\
   get (js_or (req_body store_number) (JObj [])) "storeIdentifier" = JNum (of_Z 7) /\
   get (js_or (req_body store_numeral) (JObj [])) "storeIdentifier" = JStr (pretty 7)) /\
  submitted_identifier store_number = JStr (pretty 7) /\
  submitted_identifier store_numeral = JStr (pretty 7).
Proof.
  assert (H1 : - 2 ^ 52 < 7 < 2 ^ 52) by (split; reflexivity).
  assert (H2 : get (js_or (req_body store_number) (JObj [])) "storeIdentifier"
               = JNum (of_Z 7)) by reflexivity.
  assert (H3 : get (js_or (req_body store_numeral) (JObj [])) "storeIdentifier"
               = JStr (pretty 7)) by reflexivity.
  split; [exact (conj H1 (conj H2 H3))|].
  exact (numeric_identifier_is_its_numeral store_number store_numeral 7 H1 H2 H3).
Defined.
